(** * ai-note-writer-mvp: note-generation endpoint and patient directory

    A shallow embedding of

    - [src/app/api/generate-note/route.ts] (the [POST] handler that
      validates the request, composes the prompt and calls the external
      generator), and
    - [src/lib/firebase/patient-service.ts] (the [PatientService] class
      over the Firestore collection of patients), in its current
      revision and in the earlier revision kept next to it,

    together with the properties of the specification that concern them.

    Conventions of the embedding.

    - A JavaScript string is a Rocq [string]; each character stands for
      one UTF-16 code unit below 256, which covers every literal of the
      sources.
    - A JavaScript object used as a record of fields (a Firestore
      document, the object a service method returns) is a
      [gmap string value]: a key that is not in the map is a property
      the object does not have.
    - [async] functions are run to completion: a promise that rejects is
      a thrown exception, [try]/[catch] is [try_catch].
    - What the code reads from its environment (the clock, the generated
      document id, the answer of the generator) is an explicit
      argument. *)

From Stdlib Require Import ZArith Lia Ascii.
From stdpp Require Import base strings list gmap sorting.

Open Scope string_scope.

(** ** JavaScript string primitives used by the sources *)

Module JS.

(** [WhiteSpace] and [LineTerminator] code units below 256: TAB, LF,
    VT, FF, CR, SP and NBSP.  These are what [String.prototype.trim]
    strips. *)
Definition isWhiteSpace (c : ascii) : bool :=
  let n := N_of_ascii c in
  ((9 <=? n) && (n <=? 13) || (n =? 32) || (n =? 160))%N.

Fixpoint trimStart (s : string) : string :=
  match s with
  | EmptyString => EmptyString
  | String c s' => if isWhiteSpace c then trimStart s' else s
  end.

Fixpoint trimEnd (s : string) : string :=
  match s with
  | EmptyString => EmptyString
  | String c s' =>
      match trimEnd s' with
      | EmptyString => if isWhiteSpace c then EmptyString else String c EmptyString
      | t => String c t
      end
  end.

(** [s.trim()] *)
Definition trim (s : string) : string := trimEnd (trimStart s).

(** Lower-casing of one code unit below 256: [A]-[Z] and the Latin-1
    capitals U+00C0-U+00DE (U+00D7, the multiplication sign, apart). *)
Definition lowerChar (c : ascii) : ascii :=
  let n := N_of_ascii c in
  if ((65 <=? n) && (n <=? 90)
      || (192 <=? n) && (n <=? 222) && negb (n =? 215))%N
  then ascii_of_N (n + 32) else c.

(** [s.toLowerCase()] *)
Fixpoint toLowerCase (s : string) : string :=
  match s with
  | EmptyString => EmptyString
  | String c s' => String (lowerChar c) (toLowerCase s')
  end.

(** [s.startsWith(p)] *)
Definition startsWith (s p : string) : bool := String.prefix p s.

(** [s.includes(sub)] *)
Fixpoint includes (s sub : string) : bool :=
  String.prefix sub s
  || match s with
     | EmptyString => false
     | String _ s' => includes s' sub
     end.

(** Truthiness of a string: every string but the empty one. *)
Definition truthy (s : string) : bool := negb (s =? "").

(** Truthiness of a value that is a string, [undefined] or [null]. *)
Definition truthy_opt (o : option string) : bool :=
  match o with
  | Some s => truthy s
  | None => false
  end.

(** The outcome of running a piece of code: it returns, or it throws
    an [Error] with a message. *)
Inductive outcome (A : Type) : Type :=
| Returned (a : A)
| Threw (message : string).
Arguments Returned {A} a.
Arguments Threw {A} message.

End JS.

(** A string is blank when trimming leaves nothing of it. *)
Definition blank (s : string) : Prop := JS.trim s = "".

(** [sub] occurs in [s] at some position. *)
Definition occurs_in (sub s : string) : Prop :=
exists pre post : string, s = pre +:+ sub +:+ post.

(** ** The note-generation endpoint: [src/app/api/generate-note/route.ts] *)

Module Route.

Import JS.

(** The six template strings of [CONTEXT_PROMPTS], character for
    character. *)

Definition PROMPT_hmhi_transfer : string :=
"You are a HIPAA-compliant AI clinical documentation assistant for Dr. Rufus Sweeney, a PGY-3 psychiatry resident at HMHI Downtown Clinic.

Generate a comprehensive transfer of care note for outpatient psychiatry.

CRITICAL: HMHI Downtown uses Epic EMR - include relevant Epic SmartPhrases and @SMARTPHRASE@ syntax where appropriate.

For transfer of care notes, follow these specific guidelines:
1. Copy forward unchanged sections from the previous note when appropriate
2. Update only sections that have new information from the session
3. Maintain continuity of care documentation
4. Use Epic-compatible formatting and SmartPhrases".

Definition PROMPT_hmhi_followup : string :=
"You are a HIPAA-compliant AI clinical documentation assistant for Dr. Rufus Sweeney, a PGY-3 psychiatry resident at HMHI Downtown Clinic.

Generate a concise but comprehensive outpatient psychiatry follow-up note.

CRITICAL: HMHI Downtown uses Epic EMR - include relevant Epic SmartPhrases and @SMARTPHRASE@ syntax where appropriate.".

Definition PROMPT_dbh_intake : string :=
"You are a HIPAA-compliant AI clinical documentation assistant for Dr. Rufus Sweeney, a PGY-3 psychiatry resident at Davis Behavioral Health.

Generate a comprehensive Credible EMR-compatible outpatient psychiatry intake assessment.

CRITICAL: Davis Behavioral Health uses Credible EMR - output PLAIN TEXT ONLY. Do NOT use Epic SmartPhrases, @SMARTPHRASE@ syntax, or .dotphrases.

Structure the note with comprehensive intake sections including detailed psychiatric history, mental status exam, and treatment plan.".

Definition PROMPT_dbh_followup : string :=
"You are a HIPAA-compliant AI clinical documentation assistant for Dr. Rufus Sweeney, a PGY-3 psychiatry resident at Davis Behavioral Health.

Generate a Credible EMR-compatible outpatient psychiatry follow-up note.

CRITICAL: Davis Behavioral Health uses Credible EMR - output PLAIN TEXT ONLY. Do NOT use Epic SmartPhrases, @SMARTPHRASE@ syntax, or .dotphrases.".

Definition PROMPT_redwood_intake : string :=
"You are a HIPAA-compliant AI clinical documentation assistant for Dr. Rufus Sweeney, a PGY-3 psychiatry resident at Redwood Clinic MH Integration.

Generate a mental health integration intake note for primary care setting.

Use clear, accessible language appropriate for integrated care documentation.".

Definition PROMPT_redwood_followup : string :=
"You are a HIPAA-compliant AI clinical documentation assistant for Dr. Rufus Sweeney, a PGY-3 psychiatry resident at Redwood Clinic MH Integration.

Generate a mental health integration follow-up note for primary care setting.

Use clear, accessible language appropriate for integrated care documentation.".


(** What reading a property of the object literal [CONTEXT_PROMPTS] can
    give: one of its own template strings, or something inherited
    from [Object.prototype], either a built-in function or (for
    [__proto__]) the prototype object itself.  A key found nowhere gives
    [undefined], here [None]. *)
Inductive property : Type :=
| PString (s : string)
| PFunction (name : string)
| PObject.

(** The own properties of [CONTEXT_PROMPTS], in source order. *)
Definition CONTEXT_PROMPTS : list (string * string) :=
  [ ("hmhi-transfer", PROMPT_hmhi_transfer);
    ("hmhi-followup", PROMPT_hmhi_followup);
    ("dbh-intake", PROMPT_dbh_intake);
    ("dbh-followup", PROMPT_dbh_followup);
    ("redwood-intake", PROMPT_redwood_intake);
    ("redwood-followup", PROMPT_redwood_followup) ].

(** The properties every object literal inherits from
    [Object.prototype]. *)
Definition Object_prototype : list (string * property) :=
  [ ("constructor", PFunction "Object");
    ("hasOwnProperty", PFunction "hasOwnProperty");
    ("isPrototypeOf", PFunction "isPrototypeOf");
    ("propertyIsEnumerable", PFunction "propertyIsEnumerable");
    ("toLocaleString", PFunction "toLocaleString");
    ("toString", PFunction "toString");
    ("valueOf", PFunction "valueOf");
    ("__defineGetter__", PFunction "__defineGetter__");
    ("__defineSetter__", PFunction "__defineSetter__");
    ("__lookupGetter__", PFunction "__lookupGetter__");
    ("__lookupSetter__", PFunction "__lookupSetter__");
    ("__proto__", PObject) ].

Fixpoint assoc {A : Type} (key : string) (l : list (string * A)) : option A :=
  match l with
  | [] => None
  | (k, v) :: l' => if k =? key then Some v else assoc key l'
  end.

(** [CONTEXT_PROMPTS[key]]: the own property when there is one, else
    the inherited one. *)
Definition get_property (key : string) : option property :=
  match assoc key CONTEXT_PROMPTS with
  | Some s => Some (PString s)
  | None => assoc key Object_prototype
  end.

(** The property key a [context] value denotes: the string itself, and
    ["undefined"] for a body without the field. *)
Definition property_key (context : option string) : string :=
  match context with
  | Some k => k
  | None => "undefined"
  end.

Definition property_truthy (p : option property) : bool :=
  match p with
  | Some (PString s) => truthy s
  | Some (PFunction _) | Some PObject => true
  | None => false
  end.

(** What a template literal makes of a property ([ToString]); a
    built-in function prints as V8 prints it. *)
Definition property_to_string (p : property) : string :=
  match p with
  | PString s => s
  | PFunction name => "function " +:+ name +:+ "() { [native code] }"
  | PObject => "[object Object]"
  end.

(** Line 81:
    [CONTEXT_PROMPTS[context] || CONTEXT_PROMPTS['hmhi-transfer']],
    as the string the template literal of line 83 interpolates. *)
Definition systemPrompt (context : option string) : string :=
  let p := get_property (property_key context) in
  if property_truthy p
  then match p with Some v => property_to_string v | None => "undefined" end
  else match get_property "hmhi-transfer" with
       | Some v => property_to_string v
       | None => "undefined"
       end.

Record PatientContext : Type := {
  patientId : string;
  patientName : string;
  patientMRN : option string;
  patientDOB : option string;
  patientGender : option string
}.

(** The fields [POST] destructures from the JSON body; [None] is a
    field that is not there. *)
Record NoteRequest : Type := {
  transcript : option string;
  context : option string;
  previousNote : option string;
  patientContext : option PatientContext
}.

Definition NEWLINE : string := String (ascii_of_N 10) EmptyString.

(** Lines 83-121 of [POST]: the prompt is built by successive
    [prompt += ...]. *)
Definition composePrompt (context : option string) (transcript : string)
    (previousNote : option string) (patientContext : option PatientContext)
    : string :=
  let prompt := systemPrompt context +:+ "

TRANSCRIPT:
" +:+ transcript in
  let prompt :=
    match patientContext with
    | Some pc =>
        let prompt := prompt +:+ "

PATIENT INFORMATION:
Name: " +:+ patientName pc in
        let prompt :=
          if truthy_opt (patientMRN pc)
          then prompt +:+ "
MRN: " +:+ default "" (patientMRN pc)
          else prompt in
        let prompt :=
          if truthy_opt (patientDOB pc)
          then prompt +:+ "
Date of Birth: " +:+ default "" (patientDOB pc)
          else prompt in
        let prompt :=
          if truthy_opt (patientGender pc)
          then prompt +:+ "
Gender: " +:+ default "" (patientGender pc)
          else prompt in
        prompt
    | None => prompt
    end in
  let prompt :=
    if bool_decide (context = Some "hmhi-transfer") && truthy_opt previousNote
    then prompt +:+ "

PREVIOUS PATIENT NOTE:
" +:+ default "" previousNote
    else prompt in
  prompt +:+ "

Generate the clinical note now:".

(** The body of a [NextResponse.json]. *)
Inductive ResponseBody : Type :=
| ErrorBody (error : string)
| NoteBody (note : string) (patientContext : option PatientContext).

Record Response : Type := {
  body : ResponseBody;
  status : Z
}.

(** What the handler depends on outside the request: the environment
    variable holding the credential and the external generator, which
    answers a prompt with a text or fails. *)
Record Env : Type := {
  GOOGLE_GEMINI_API_KEY : option string;
  generateContent : string -> outcome string
}.

(** The request as [request.json()] sees it: a body that does not parse
    (the call rejects), or the parsed fields. *)
Inductive Request : Type :=
| Malformed
| Json (fields : NoteRequest).

(** [POST]: the response, and the prompts the external generator was
    called with while handling the request, in order. *)
Definition POST (env : Env) (request : Request) : Response * list string :=
  let failed := {| body := ErrorBody "Failed to generate note"; status := 500 |} in
  match request with
  | Malformed => (failed, [])
  | Json r =>
      if negb (truthy_opt (transcript r))
      then ({| body := ErrorBody "Transcript is required"; status := 400 |}, [])
      else if negb (truthy_opt (GOOGLE_GEMINI_API_KEY env))
      then ({| body := ErrorBody "Gemini API key not configured"; status := 500 |}, [])
      else
        let prompt := composePrompt (context r) (default "" (transcript r))
                        (previousNote r) (patientContext r) in
        match generateContent env prompt with
        | Returned note =>
            ({| body := NoteBody note (patientContext r); status := 200 |}, [prompt])
        | Threw _ => (failed, [prompt])
        end
  end.

(** The sections of the composed prompt as the specification names
    them. *)

Definition TRANSCRIPT_HEADER : string := "

TRANSCRIPT:
".

Definition PATIENT_HEADER : string := "

PATIENT INFORMATION:
".

Definition PREVIOUS_NOTE_HEADER : string := "

PREVIOUS PATIENT NOTE:
".

Definition CLOSING : string := "

Generate the clinical note now:".

(** One line of the patient block for an optional field: the line when
    the field is present and not empty, nothing otherwise. *)
Definition optional_line (label : string) (field : option string) : string :=
  match field with
  | Some v => if truthy v then NEWLINE +:+ label +:+ v else ""
  | None => ""
  end.

(** The patient-information block of the specification. *)
Definition patient_block (patientContext : option PatientContext) : string :=
  match patientContext with
  | Some pc =>
      PATIENT_HEADER +:+ "Name: " +:+ patientName pc
      +:+ optional_line "MRN: " (patientMRN pc)
      +:+ optional_line "Date of Birth: " (patientDOB pc)
      +:+ optional_line "Gender: " (patientGender pc)
  | None => ""
  end.

(** The previous-note block of the specification. *)
Definition previous_note_block (previousNote : string) : string :=
  PREVIOUS_NOTE_HEADER +:+ previousNote.

(** The previous-note section of a prompt: the block when the context
    is the transfer of care and a note that is not empty was supplied,
    nothing otherwise. *)
Definition previous_note_section (context previousNote : option string) : string :=
  match previousNote with
  | Some note =>
      if bool_decide (context = Some "hmhi-transfer" /\ note <> "")
      then previous_note_block note
      else ""
  | None => ""
  end.

(** [prompt] is [without] with the previous-note block for [note] put
    in just before the closing line. *)
Definition has_previous_note_block (prompt without note : string) : Prop :=
  exists body : string,
    without = body +:+ CLOSING /\
    prompt = body +:+ previous_note_block note +:+ CLOSING.

(** A field of the snapshot that is absent or the empty string. *)
Definition absent_or_empty (field : option string) : Prop :=
  field = None \/ field = Some "".

End Route.

(** ** The document store behind the patient directory

    The part of the Firestore SDK that [patient-service.ts] calls
    ([getDoc], [getDocs], [setDoc], [updateDoc], [serverTimestamp],
    [query]/[where]/[orderBy]) on the one collection [patients]. *)

Module Firestore.

Import JS.

(** The values a field of a document or of a returned object holds. *)
Inductive value : Type :=
| VUndefined
| VNull
| VString (s : string)
| VTimestamp (seconds : Z)
| VDate (time : Z)
| VServerTimestamp.

#[export] Instance value_eq_dec : EqDecision value.
Proof. solve_decision. Defined.

(** An object: a document's data, or what a method returns. *)
Abbreviation object := (gmap string value).

Inductive direction : Type := asc | desc.

(** A query on the collection: the [where(field, '==', v)] constraints
    and the [orderBy(field, direction)] clauses, in the order they were
    added. *)
Record Query : Type := {
  filters : list (string * value);
  ordering : list (string * direction)
}.

(** The calls made to the store. *)
Inductive call : Type :=
| GetDoc (id : string)
| GetDocs (q : Query)
| SetDoc (id : string)
| UpdateDoc (id : string).

(** The state of the store: the documents of the collection by id, the
    time the server stamps writes with, whether the store can be reached
    (when it cannot, every call rejects), and the calls made so far,
    oldest first. *)
Record state : Type := {
  documents : gmap string object;
  serverTime : Z;
  available : bool;
  calls : list call
}.

(** Code that runs against the store and returns or throws. *)
Definition M (A : Type) : Type := state -> outcome A * state.

Definition ret {A : Type} (a : A) : M A := fun st => (Returned a, st).

Definition throw {A : Type} (message : string) : M A :=
  fun st => (Threw message, st).

Definition bind {A B : Type} (m : M A) (k : A -> M B) : M B :=
  fun st =>
    match m st with
    | (Returned a, st') => k a st'
    | (Threw message, st') => (Threw message, st')
    end.

(** [try { m } catch (error) { handler(error.message) }] *)
Definition try_catch {A : Type} (m : M A) (handler : string -> M A) : M A :=
  fun st =>
    match m st with
    | (Returned a, st') => (Returned a, st')
    | (Threw message, st') => handler message st'
    end.

(** A computation that touches no store but may throw. *)
Definition lift {A : Type} (o : outcome A) : M A := fun st => (o, st).

(** The store after one more call is logged. *)
Definition with_call (c : call) (st : state) : state :=
  {| documents := documents st; serverTime := serverTime st;
     available := available st; calls := calls st ++ [c] |}.

(** The store with its documents replaced. *)
Definition with_documents (docs : gmap string object) (st : state) : state :=
  {| documents := docs; serverTime := serverTime st;
     available := available st; calls := calls st |}.

Definition record_call (c : call) : M unit :=
  fun st => (Returned tt, with_call c st).

Definition reach : M unit :=
  fun st =>
    if available st then (Returned tt, st)
    else (Threw "Failed to get document because the client is offline.", st).

Definition set_documents (docs : gmap string object) : M unit :=
  fun st => (Returned tt, with_documents docs st).

End Firestore.

Declare Scope store_scope.
Delimit Scope store_scope with store.
Notation "x <- c1 ;; c2" := (Firestore.bind c1 (fun x => c2))
  (at level 100, c1 at next level, right associativity) : store_scope.
Notation "c1 ;;; c2" := (Firestore.bind c1 (fun _ => c2))
  (at level 100, right associativity) : store_scope.

Module FirestoreCalls.

Import JS Firestore.
Open Scope store_scope.

(** A field value as the server stores it: the [serverTimestamp()]
    sentinel becomes the server's time, a [Date] becomes a timestamp. *)
Definition resolve (time : Z) (v : value) : value :=
  match v with
  | VServerTimestamp => VTimestamp time
  | VDate t => VTimestamp t
  | _ => v
  end.

(** The SDK refuses data with an [undefined] field value. *)
Definition has_undefined (data : object) : bool :=
  bool_decide (map_Exists (fun _ v => v = VUndefined) data).

Definition validate (data : object) : M unit :=
  if has_undefined data
  then throw "Function called with invalid data. Unsupported field value: undefined"
  else ret tt.

(** [getDoc(doc(collectionRef, id))]: the data of the document, [None]
    when [exists()] is false. *)
Definition getDoc (id : string) : M (option object) :=
  record_call (GetDoc id) ;;;
  reach ;;;
  fun st => (Returned (documents st !! id), st).

(** [setDoc(doc(collectionRef, id), data)]: writes the document,
    replacing one that has this id. *)
Definition setDoc (id : string) (data : object) : M unit :=
  record_call (SetDoc id) ;;;
  validate data ;;;
  reach ;;;
  fun st => set_documents (<[id := resolve (serverTime st) <$> data]> (documents st)) st.

(** [updateDoc(doc(collectionRef, id), data)]: overwrites the given
    fields of a document that exists, and leaves its other fields. *)
Definition updateDoc (id : string) (data : object) : M unit :=
  record_call (UpdateDoc id) ;;;
  validate data ;;;
  reach ;;;
  fun st =>
    match documents st !! id with
    | Some old =>
        set_documents
          (<[id := (resolve (serverTime st) <$> data) ∪ old]> (documents st)) st
    | None => (Threw "No document to update", st)
    end.

(** The order of field values in a query: null, then timestamps, then
    strings; timestamps by time, strings by code unit. *)
Definition rank (v : value) : Z :=
  match v with
  | VUndefined => 0
  | VNull => 1
  | VTimestamp _ | VDate _ | VServerTimestamp => 2
  | VString _ => 3
  end.

Definition value_compare (a b : value) : comparison :=
  match a, b with
  | VString s, VString t => String.compare s t
  | (VTimestamp s | VDate s), (VTimestamp t | VDate t) => Z.compare s t
  | _, _ => Z.compare (rank a) (rank b)
  end.

(** Compares two documents by one [orderBy] clause. *)
Definition clause_compare (clause : string * direction)
    (a b : string * object) : comparison :=
  let c := value_compare (default VUndefined (a.2 !! clause.1))
                         (default VUndefined (b.2 !! clause.1)) in
  match clause.2 with
  | asc => c
  | desc => CompOpp c
  end.

(** Compares by the clauses in turn, and last by document id, in the
    direction of the last clause. *)
Fixpoint order_compare (clauses : list (string * direction)) (last : direction)
    (a b : string * object) : comparison :=
  match clauses with
  | [] => match last with
          | asc => String.compare a.1 b.1
          | desc => String.compare b.1 a.1
          end
  | clause :: rest =>
      match clause_compare clause a b with
      | Eq => order_compare rest clause.2 a b
      | c => c
      end
  end.

Definition order_le (clauses : list (string * direction))
    (a b : string * object) : Prop :=
  order_compare clauses asc a b <> Gt.

#[export] Instance order_le_dec clauses a b : Decision (order_le clauses a b).
Proof. unfold order_le. solve_decision. Defined.

(** A document is in the result of a query when every [where] field is
    there with the value asked for and every [orderBy] field is
    there. *)
Definition matches (q : Query) (entry : string * object) : bool :=
  forallb (fun f : string * value => bool_decide (entry.2 !! f.1 = Some f.2)) (filters q)
  && forallb (fun o : string * direction => bool_decide (is_Some (entry.2 !! o.1))) (ordering q).

Definition run_query (q : Query) (docs : gmap string object)
    : list (string * object) :=
  merge_sort (order_le (ordering q)) (List.filter (matches q) (map_to_list docs)).

(** [getDocs(q)]: the documents of the snapshot, as [forEach] visits
    them. *)
Definition getDocs (q : Query) : M (list (string * object)) :=
  record_call (GetDocs q) ;;;
  reach ;;;
  fun st => (Returned (run_query q (documents st)), st).

(** [query(collectionRef, where('createdBy', '==', userId))] and the
    two ways the source extends a query. *)
Definition query_where (q : Query) (field : string) (v : value) : Query :=
  {| filters := filters q ++ [(field, v)]; ordering := ordering q |}.

Definition query_orderBy (q : Query) (field : string) (d : direction) : Query :=
  {| filters := filters q; ordering := ordering q ++ [(field, d)] |}.

Definition collection_query : Query := {| filters := []; ordering := [] |}.

End FirestoreCalls.

(** ** The types of [src/lib/types/patient.ts] *)

Module PatientTypes.

Import JS Firestore.

Inductive Gender : Type := male | female | other | prefer_not_to_say.

Definition Gender_string (g : Gender) : string :=
  match g with
  | male => "male"
  | female => "female"
  | other => "other"
  | prefer_not_to_say => "prefer-not-to-say"
  end.

Inductive Status : Type := active | inactive.

Definition Status_string (s : Status) : string :=
  match s with
  | active => "active"
  | inactive => "inactive"
  end.

Inductive SortField : Type := sort_name | sort_createdAt | sort_lastModified.

Definition SortField_string (f : SortField) : string :=
  match f with
  | sort_name => "name"
  | sort_createdAt => "createdAt"
  | sort_lastModified => "lastModified"
  end.

#[export] Instance Gender_eq_dec : EqDecision Gender.
Proof. solve_decision. Defined.

#[export] Instance Status_eq_dec : EqDecision Status.
Proof. solve_decision. Defined.

End PatientTypes.

Module CreatePatientRequest.
Record t : Type := {
  name : string;
  mrn : option string;
  dob : option string;
  gender : option PatientTypes.Gender
}.
End CreatePatientRequest.

Module UpdatePatientRequest.
Record t : Type := {
  name : option string;
  mrn : option string;
  dob : option string;
  gender : option PatientTypes.Gender;
  status : option PatientTypes.Status
}.
End UpdatePatientRequest.

Module PatientSearchFilters.
Record t : Type := {
  searchTerm : option string;
  status : option PatientTypes.Status;
  sortBy : option PatientTypes.SortField;
  sortOrder : option Firestore.direction
}.
End PatientSearchFilters.

(** ** Helpers for the expressions both revisions of the service use *)

Module ServiceCommon.

Import JS Firestore FirestoreCalls PatientTypes.
Open Scope store_scope.

(** [v === s] for a field value [v] that may be missing and a string
    [s]. *)
Definition strict_eq_string (v : option value) (s : string) : bool :=
  match v with
  | Some (VString t) => t =? s
  | _ => false
  end.

(** [field?.toDate() || new Date()]: a timestamp converts, a field that
    is missing or null gives the current time, any other value has no
    [toDate] method. *)
Definition toDate_or_now (field : option value) (now : Z) : outcome value :=
  match field with
  | None | Some VUndefined | Some VNull => Returned (VDate now)
  | Some (VTimestamp t) => Returned (VDate t)
  | Some _ => Threw "toDate is not a function"
  end.

(** The object literal
    [{ id, ...data, createdAt: ..., lastModified: ... }] that
    [getPatient] and [getPatients] build from a snapshot. *)
Definition snapshot_patient (id : string) (data : object) (now : Z)
    : outcome object :=
  match toDate_or_now (data !! "createdAt") now with
  | Threw e => Threw e
  | Returned createdAt =>
      match toDate_or_now (data !! "lastModified") now with
      | Threw e => Threw e
      | Returned lastModified =>
          Returned (<["lastModified" := lastModified]>
                      (<["createdAt" := createdAt]>
                         (data ∪ {["id" := VString id]})))
      end
  end.

(** The body of [querySnapshot.forEach]: one patient pushed per
    document. *)
Fixpoint collect (snapshot : list (string * object)) (now : Z)
    : outcome (list object) :=
  match snapshot with
  | [] => Returned []
  | (id, data) :: rest =>
      match snapshot_patient id data now with
      | Threw e => Threw e
      | Returned patient =>
          match collect rest now with
          | Threw e => Threw e
          | Returned patients => Returned (patient :: patients)
          end
      end
  end.

(** The predicate of the client-side search:
    [patient.name.toLowerCase().includes(searchTerm) ||
     (patient.mrn && patient.mrn.toLowerCase().includes(searchTerm))]. *)
Definition matches_term (searchTerm : string) (patient : object) : outcome bool :=
  match patient !! "name" with
  | Some (VString n) =>
      if includes (toLowerCase n) searchTerm then Returned true
      else match patient !! "mrn" with
           | None | Some VUndefined | Some VNull => Returned false
           | Some (VString m) =>
               if truthy m then Returned (includes (toLowerCase m) searchTerm)
               else Returned false
           | Some _ => Threw "patient.mrn.toLowerCase is not a function"
           end
  | None | Some VUndefined | Some VNull =>
      Threw "Cannot read properties of undefined (reading 'toLowerCase')"
  | Some _ => Threw "patient.name.toLowerCase is not a function"
  end.

(** [patients.filter(predicate)] for a predicate that may throw. *)
Fixpoint filter_patients (predicate : object -> outcome bool)
    (patients : list object) : outcome (list object) :=
  match patients with
  | [] => Returned []
  | p :: rest =>
      match predicate p with
      | Threw e => Threw e
      | Returned keep =>
          match filter_patients predicate rest with
          | Threw e => Threw e
          | Returned kept => Returned (if keep then p :: kept else kept)
          end
      end
  end.

(** [list.slice(0, end)] *)
Definition slice_to {A : Type} (l : list A) (finish : Z) : list A :=
  let len := Z.of_nat (length l) in
  let final := if (finish <? 0)%Z then Z.max (len + finish) 0 else Z.min finish len in
  take (Z.to_nat final) l.

End ServiceCommon.

(** ** The patient directory, current revision:
    [src/lib/firebase/patient-service.ts] *)

Module PatientService.

Import JS Firestore FirestoreCalls PatientTypes ServiceCommon.
Open Scope store_scope.

(** [createPatient]; [newId] is the id [doc(this.collectionRef)]
    generates and [now] the client's clock. *)
Definition createPatient (userId : string) (patientData : CreatePatientRequest.t)
    (newId : string) (now : Z) : M object :=
  try_catch
    (if negb (truthy (trim (CreatePatientRequest.name patientData)))
     then throw "Patient name is required"
     else if negb (truthy userId)
     then throw "User ID is required for patient creation"
     else
       let patientRef := newId in
       let basePatient : object :=
         <["status" := VString "active"]>
           (<["createdBy" := VString userId]>
              (<["name" := VString (trim (CreatePatientRequest.name patientData))]> ∅)) in
       let optionalFields : object := ∅ in
       let optionalFields :=
         match CreatePatientRequest.mrn patientData with
         | Some mrn =>
             if truthy (trim mrn)
             then <["mrn" := VString (trim mrn)]> optionalFields
             else optionalFields
         | None => optionalFields
         end in
       let optionalFields :=
         match CreatePatientRequest.dob patientData with
         | Some dob =>
             if truthy (trim dob)
             then <["dob" := VString (trim dob)]> optionalFields
             else optionalFields
         | None => optionalFields
         end in
       let optionalFields :=
         match CreatePatientRequest.gender patientData with
         | Some gender =>
             if truthy (Gender_string gender) && negb (Gender_string gender =? "")
             then <["gender" := VString (Gender_string gender)]> optionalFields
             else optionalFields
         | None => optionalFields
         end in
       let patientToSave : object :=
         <["lastModified" := VServerTimestamp]>
           (<["createdAt" := VServerTimestamp]> (optionalFields ∪ basePatient)) in
       (setDoc patientRef patientToSave ;;;
        ret (<["lastModified" := VDate now]>
               (<["createdAt" := VDate now]>
                  (optionalFields ∪ (basePatient ∪ {["id" := VString patientRef]}))))))
    (fun message => throw ("Failed to create patient: " +:+ message)).

(** [getPatient]: the patient, or [None] for [null]. *)
Definition getPatient (userId patientId : string) (now : Z) : M (option object) :=
  try_catch
    (patientSnap <- getDoc patientId ;;
     match patientSnap with
     | None => ret None
     | Some data =>
         if negb (strict_eq_string (data !! "createdBy") userId)
         then ret None
         else (patient <- lift (snapshot_patient patientId data now) ;;
               ret (Some patient))
     end)
    (fun _ => ret None).

Definition getPatients (userId : string) (filters : PatientSearchFilters.t)
    (now : Z) : M (list object) :=
  try_catch
    (let q := query_where collection_query "createdBy" (VString userId) in
     let q :=
       match PatientSearchFilters.status filters with
       | Some s =>
           if truthy (Status_string s)
           then query_where q "status" (VString (Status_string s))
           else q
       | None => q
       end in
     let sortField :=
       match PatientSearchFilters.sortBy filters with
       | Some f => if truthy (SortField_string f) then SortField_string f else "lastModified"
       | None => "lastModified"
       end in
     let sortDirection := default desc (PatientSearchFilters.sortOrder filters) in
     let q := query_orderBy q sortField sortDirection in
     querySnapshot <- getDocs q ;;
     patients <- lift (collect querySnapshot now) ;;
     if truthy_opt (PatientSearchFilters.searchTerm filters)
     then
       let searchTerm :=
         trim (toLowerCase (default "" (PatientSearchFilters.searchTerm filters))) in
       lift (filter_patients (matches_term searchTerm) patients)
     else ret patients)
    (fun _ => ret []).

(** The object [updateData] that [updatePatient] builds from the
    request (lines 202-231). *)
Definition updateData (updates : UpdatePatientRequest.t) : object :=
  let updateData : object := <["lastModified" := VServerTimestamp]> ∅ in
  let updateData :=
    match UpdatePatientRequest.name updates with
    | Some name =>
        if negb (trim name =? "")
        then <["name" := VString (trim name)]> updateData
        else updateData
    | None => updateData
    end in
  let updateData :=
    match UpdatePatientRequest.mrn updates with
    | Some mrn =>
        if negb (trim mrn =? "")
        then <["mrn" := VString (trim mrn)]> updateData
        else updateData
    | None => updateData
    end in
  let updateData :=
    match UpdatePatientRequest.dob updates with
    | Some dob =>
        if negb (trim dob =? "")
        then <["dob" := VString (trim dob)]> updateData
        else updateData
    | None => updateData
    end in
  let updateData :=
    match UpdatePatientRequest.gender updates with
    | Some gender =>
        if negb (Gender_string gender =? "")
        then <["gender" := VString (Gender_string gender)]> updateData
        else updateData
    | None => updateData
    end in
  let updateData :=
    match UpdatePatientRequest.status updates with
    | Some status => <["status" := VString (Status_string status)]> updateData
    | None => updateData
    end in
  updateData.

Definition updatePatient (userId patientId : string)
    (updates : UpdatePatientRequest.t) (now : Z) : M unit :=
  try_catch
    (existingPatient <- getPatient userId patientId now ;;
     match existingPatient with
     | None => throw "Patient not found or access denied"
     | Some _ =>
         let patientRef := patientId in
         updateDoc patientRef (updateData updates)
     end)
    (fun message => throw ("Failed to update patient: " +:+ message)).

(** The literal [{ status: s }]. *)
Definition status_only (s : Status) : UpdatePatientRequest.t :=
  {| UpdatePatientRequest.name := None;
     UpdatePatientRequest.mrn := None;
     UpdatePatientRequest.dob := None;
     UpdatePatientRequest.gender := None;
     UpdatePatientRequest.status := Some s |}.

Definition deactivatePatient (userId patientId : string) (now : Z) : M unit :=
  updatePatient userId patientId (status_only inactive) now.

Definition reactivatePatient (userId patientId : string) (now : Z) : M unit :=
  updatePatient userId patientId (status_only active) now.

(** [searchPatients]; [maxResults] is [None] when the caller leaves it
    to its default of 10. *)
Definition searchPatients (userId : string) (searchTerm : string)
    (maxResults : option Z) (now : Z) : M (list object) :=
  let maxResults := default 10%Z maxResults in
  if negb (truthy (trim searchTerm)) then ret []
  else
    (patients <- getPatients userId
       {| PatientSearchFilters.searchTerm := Some (trim searchTerm);
          PatientSearchFilters.status := Some active;
          PatientSearchFilters.sortBy := Some sort_name;
          PatientSearchFilters.sortOrder := Some asc |} now ;;
     ret (slice_to patients maxResults)).

(** One thing that happens to the directory: a call of a method of the
    service, or a change of the store's surroundings (the server's
    clock moves, the store becomes reachable or unreachable). *)
Inductive operation : Type :=
| Create (userId : string) (patientData : CreatePatientRequest.t) (newId : string) (now : Z)
| Get (userId patientId : string) (now : Z)
| List (userId : string) (filters : PatientSearchFilters.t) (now : Z)
| Update (userId patientId : string) (updates : UpdatePatientRequest.t) (now : Z)
| Deactivate (userId patientId : string) (now : Z)
| Reactivate (userId patientId : string) (now : Z)
| Search (userId searchTerm : string) (maxResults : option Z) (now : Z)
| ServerTime (time : Z)
| Reachable (b : bool).

(** The store after an operation; what the call returned is dropped. *)
Definition perform (st : state) (op : operation) : state :=
  match op with
  | Create userId patientData newId now => (createPatient userId patientData newId now st).2
  | Get userId patientId now => (getPatient userId patientId now st).2
  | List userId filters now => (getPatients userId filters now st).2
  | Update userId patientId updates now => (updatePatient userId patientId updates now st).2
  | Deactivate userId patientId now => (deactivatePatient userId patientId now st).2
  | Reactivate userId patientId now => (reactivatePatient userId patientId now st).2
  | Search userId searchTerm maxResults now =>
      (searchPatients userId searchTerm maxResults now st).2
  | ServerTime time =>
      {| documents := documents st; serverTime := time;
         available := available st; calls := calls st |}
  | Reachable b =>
      {| documents := documents st; serverTime := serverTime st;
         available := b; calls := calls st |}
  end.

Definition perform_all (st : state) (ops : list operation) : state :=
  fold_left perform ops st.

End PatientService.

(** ** The patient directory, earlier revision (the second
    [patient-service.ts] of the repository) *)

Module EarlierPatientService.

Import JS Firestore FirestoreCalls PatientTypes ServiceCommon.
Open Scope store_scope.

(** [x || undefined] for an optional string. *)
Definition or_undefined (x : option string) : value :=
  match x with
  | Some s => if truthy s then VString s else VUndefined
  | None => VUndefined
  end.

(** [x || null] for an optional string. *)
Definition or_null (x : option string) : value :=
  match x with
  | Some s => if truthy s then VString s else VNull
  | None => VNull
  end.

Definition createPatient (userId : string) (patientData : CreatePatientRequest.t)
    (newId : string) (now : Z) : M object :=
  try_catch
    (let patientRef := newId in
     let patient : object :=
       <["status" := VString "active"]>
         (<["lastModified" := VDate now]>
            (<["createdAt" := VDate now]>
               (<["createdBy" := VString userId]>
                  (<["gender" := or_undefined (Gender_string <$> CreatePatientRequest.gender patientData)]>
                     (<["dob" := or_undefined (CreatePatientRequest.dob patientData)]>
                        (<["mrn" := or_undefined (trim <$> CreatePatientRequest.mrn patientData)]>
                           (<["name" := VString (trim (CreatePatientRequest.name patientData))]> ∅))))))) in
     setDoc patientRef
       (<["lastModified" := VServerTimestamp]>
          (<["createdAt" := VServerTimestamp]> patient)) ;;;
     ret (patient ∪ {["id" := VString patientRef]}))
    (fun _ => throw "Failed to create patient").

Definition getPatient (userId patientId : string) (now : Z) : M (option object) :=
  try_catch
    (patientSnap <- getDoc patientId ;;
     match patientSnap with
     | Some data =>
         if negb (strict_eq_string (data !! "createdBy") userId)
         then ret None
         else (patient <- lift (snapshot_patient patientId data now) ;;
               ret (Some patient))
     | None => ret None
     end)
    (fun _ => ret None).

Definition getPatients (userId : string) (filters : PatientSearchFilters.t)
    (now : Z) : M (list object) :=
  try_catch
    (let q := query_where collection_query "createdBy" (VString userId) in
     let q :=
       match PatientSearchFilters.status filters with
       | Some s =>
           if truthy (Status_string s)
           then query_where q "status" (VString (Status_string s))
           else q
       | None => q
       end in
     let sortField :=
       match PatientSearchFilters.sortBy filters with
       | Some f => if truthy (SortField_string f) then SortField_string f else "lastModified"
       | None => "lastModified"
       end in
     let sortDirection := default desc (PatientSearchFilters.sortOrder filters) in
     let q := query_orderBy q sortField sortDirection in
     querySnapshot <- getDocs q ;;
     patients <- lift (collect querySnapshot now) ;;
     if truthy_opt (PatientSearchFilters.searchTerm filters)
     then
       let searchTerm :=
         trim (toLowerCase (default "" (PatientSearchFilters.searchTerm filters))) in
       lift (filter_patients (matches_term searchTerm) patients)
     else ret patients)
    (fun _ => ret []).

(** The object [updateData] that [updatePatient] builds from the
    request. *)
Definition updateData (updates : UpdatePatientRequest.t) : object :=
  let updateData : object := <["lastModified" := VServerTimestamp]> ∅ in
  let updateData :=
    match UpdatePatientRequest.name updates with
    | Some name => <["name" := VString (trim name)]> updateData
    | None => updateData
    end in
  let updateData :=
    match UpdatePatientRequest.mrn updates with
    | Some mrn => <["mrn" := or_null (Some (trim mrn))]> updateData
    | None => updateData
    end in
  let updateData :=
    match UpdatePatientRequest.dob updates with
    | Some dob => <["dob" := or_null (Some dob)]> updateData
    | None => updateData
    end in
  let updateData :=
    match UpdatePatientRequest.gender updates with
    | Some gender => <["gender" := or_null (Some (Gender_string gender))]> updateData
    | None => updateData
    end in
  let updateData :=
    match UpdatePatientRequest.status updates with
    | Some status => <["status" := VString (Status_string status)]> updateData
    | None => updateData
    end in
  updateData.

Definition updatePatient (userId patientId : string)
    (updates : UpdatePatientRequest.t) (now : Z) : M unit :=
  try_catch
    (existingPatient <- getPatient userId patientId now ;;
     match existingPatient with
     | None => throw "Patient not found or access denied"
     | Some _ =>
         let patientRef := patientId in
         updateDoc patientRef (updateData updates)
     end)
    (fun _ => throw "Failed to update patient").

Definition deactivatePatient (userId patientId : string) (now : Z) : M unit :=
  updatePatient userId patientId (PatientService.status_only inactive) now.

Definition reactivatePatient (userId patientId : string) (now : Z) : M unit :=
  updatePatient userId patientId (PatientService.status_only active) now.

Definition searchPatients (userId : string) (searchTerm : string)
    (maxResults : option Z) (now : Z) : M (list object) :=
  let maxResults := default 10%Z maxResults in
  if negb (truthy (trim searchTerm)) then ret []
  else
    (patients <- getPatients userId
       {| PatientSearchFilters.searchTerm := Some (trim searchTerm);
          PatientSearchFilters.status := Some active;
          PatientSearchFilters.sortBy := Some sort_name;
          PatientSearchFilters.sortOrder := Some asc |} now ;;
     ret (slice_to patients maxResults)).

End EarlierPatientService.

(** ** Notions the properties of the directory are stated with *)

Module DirectorySpec.

Import JS Firestore FirestoreCalls PatientTypes ServiceCommon.

(** What a record holds for an optional text field of a request:
    nothing when the field was omitted or is blank, the trimmed text
    otherwise, and in no case the empty string. *)
Definition holds_optional (given : option string) (held : option value) : Prop :=
  (given = None \/ (exists text, given = Some text /\ blank text) -> held = None) /\
  (forall text, given = Some text -> ~ blank text ->
                held = Some (VString (trim text))) /\
  held <> Some (VString "").

(** The same for the gender, which is one of four words when given. *)
Definition holds_gender (given : option Gender) (held : option value) : Prop :=
  (given = None -> held = None) /\
  (forall g, given = Some g -> held = Some (VString (Gender_string g))) /\
  held <> Some (VString "").

(** A patient that [getPatients] may return for [userId] under
    [filters]: the object built from a document of the store that
    [userId] created and that has the status asked for, if one is. *)
Definition listed (st : state) (userId : string)
    (filters : PatientSearchFilters.t) (now : Z) (patient : object) : Prop :=
  exists (id : string) (data : object),
    documents st !! id = Some data /\
    data !! "createdBy" = Some (VString userId) /\
    (forall s, PatientSearchFilters.status filters = Some s ->
               data !! "status" = Some (VString (Status_string s))) /\
    snapshot_patient id data now = Returned patient.

(** The record [patientId] is in the store with status [s]. *)
Definition has_status (st : state) (patientId : string) (s : Status) : Prop :=
  exists data : object,
    documents st !! patientId = Some data /\
    data !! "status" = Some (VString (Status_string s)).

(** Every record of the store is in one of the two states. *)
Definition two_states (st : state) : Prop :=
  forall (id : string) (data : object),
    documents st !! id = Some data ->
    data !! "status" = Some (VString "active") \/
    data !! "status" = Some (VString "inactive").

(** The operations that can make the record [patientId] active: a
    reactivation of it, an update of it that sets the status to active,
    and a creation under its id (which the generated ids rule out). *)
Definition restores (patientId : string) (op : PatientService.operation) : bool :=
  match op with
  | PatientService.Create _ _ newId _ => bool_decide (newId = patientId)
  | PatientService.Update _ id updates _ =>
      bool_decide (id = patientId)
      && bool_decide (UpdatePatientRequest.status updates = Some active)
  | PatientService.Reactivate _ id _ => bool_decide (id = patientId)
  | _ => false
  end.

End DirectorySpec.

(** ** The note form: [generateNote] of [src/components/NoteGenerator.tsx] *)

Module NoteGenerator.

Import JS.

(** A patient as the component holds it, with the fields of the
    [Patient] interface that it reads. *)
Record Patient : Type := {
  id : string;
  name : string;
  mrn : option string;
  dob : option string;
  gender : option string
}.

(** The state of the component that [generateNote] reads and sets;
    [generatedNote] is [None] when it was set to [undefined]. *)
Record State : Type := {
  transcript : string;
  context : string;
  previousNote : string;
  generatedNote : option string;
  isGenerating : bool;
  error : string;
  selectedPatient : option Patient
}.

Definition setError (message : string) (s : State) : State :=
  {| transcript := transcript s; context := context s;
     previousNote := previousNote s; generatedNote := generatedNote s;
     isGenerating := isGenerating s; error := message;
     selectedPatient := selectedPatient s |}.

Definition setGeneratedNote (note : option string) (s : State) : State :=
  {| transcript := transcript s; context := context s;
     previousNote := previousNote s; generatedNote := note;
     isGenerating := isGenerating s; error := error s;
     selectedPatient := selectedPatient s |}.

Definition setIsGenerating (b : bool) (s : State) : State :=
  {| transcript := transcript s; context := context s;
     previousNote := previousNote s; generatedNote := generatedNote s;
     isGenerating := b; error := error s;
     selectedPatient := selectedPatient s |}.

(** The body of the request as the endpoint parses it back from
    [JSON.stringify(requestBody)]: a field set to [undefined] is not
    there. *)
Definition requestBody (s : State) : Route.NoteRequest :=
  {| Route.transcript := Some (transcript s);
     Route.context := Some (context s);
     Route.previousNote :=
       if bool_decide (context s = "hmhi-transfer")
       then Some (previousNote s) else None;
     Route.patientContext :=
       match selectedPatient s with
       | Some patient =>
           Some {| Route.patientId := id patient;
                   Route.patientName := name patient;
                   Route.patientMRN := mrn patient;
                   Route.patientDOB := dob patient;
                   Route.patientGender := gender patient |}
       | None => None
       end |}.

(** [response.ok] *)
Definition ok (response : Route.Response) : bool :=
  ((200 <=? Route.status response) && (Route.status response <=? 299))%Z.

(** What the [try] block can throw to its [catch]: an [Error] with its
    message, or a value that is not an [Error]. *)
Inductive Thrown : Type :=
| AnError (message : string)
| NotAnError.

(** [err instanceof Error ? err.message : 'An error occurred'] *)
Definition errorMessage (err : Thrown) : string :=
  match err with
  | AnError message => message
  | NotAnError => "An error occurred"
  end.

(** What becomes of the request between the form and the endpoint.
    [Unreached err]: [fetch] rejects with [err] and the endpoint never
    sees the request.  [Reached lost]: the endpoint handles the
    request; its answer comes back and is read as the JSON it is when
    [lost] is [None], and otherwise [fetch] or [response.json()]
    rejects with the value given.  What they reject with, and how its
    message is worded, is the browser's business, so it is an input
    here. *)
Inductive Transport : Type :=
| Unreached (err : Thrown)
| Reached (lost : option Thrown).


(** What [fetch] or [response.json()] rejects with, when one does. *)
Definition rejection (network : Transport) : option Thrown :=
  match network with
  | Unreached err => Some err
  | Reached lost => lost
  end.

(** [generateNote]: the state of the component when the call is over,
    and the prompts the generator was called with on the way.  [env] is
    the environment of the endpoint and [network] what becomes of the
    request on its way there and back. *)
Definition generateNote (env : Route.Env) (network : Transport) (s : State)
    : State * list string :=
  if negb (truthy (trim (transcript s)))
  then (setError "Please enter a transcript" s, [])
  else
    let s := setIsGenerating true s in
    let s := setError "" s in
    let s := setGeneratedNote (Some "") s in
    let attempt : (Thrown + option string) * list string :=
      match network with
      | Unreached err => (inl err, [])
      | Reached lost =>
          let answer := Route.POST env (Route.Json (requestBody s)) in
          let response := answer.1 in
          (match lost with
           | Some err => inl err
           | None =>
               if negb (ok response)
               then match Route.body response with
                    | Route.ErrorBody message =>
                        inl (AnError (if truthy message then message
                                      else "Failed to generate note"))
                    | Route.NoteBody _ _ => inl (AnError "Failed to generate note")
                    end
               else match Route.body response with
                    | Route.NoteBody note _ => inr (Some note)
                    | Route.ErrorBody _ => inr None
                    end
           end,
           answer.2)
      end in
    let s :=
      match attempt.1 with
      | inr note => setGeneratedNote note s
      | inl err => setError (errorMessage err) s
      end in
    (setIsGenerating false s, attempt.2).

End NoteGenerator.

(** ** The patient form: [validateForm] and [handleSubmit] of
    [src/components/patients/AddPatientModal.tsx] *)

Module AddPatientModal.

Import JS Firestore.

Record FormData : Type := {
  name : string;
  mrn : string;
  dob : string;
  gender : option PatientTypes.Gender
}.

(** The state of the component; [patientAdded] counts the calls of the
    callback [onPatientAdded]. *)
Record State : Type := {
  formData : FormData;
  errors : gmap string string;
  error : option string;
  loading : bool;
  patientAdded : nat
}.

(** What the form takes from [Date]: the time a text parses to ([None]
    for an invalid date), the current time, and the date 120 years
    before today. *)
Record Dates : Type := {
  parse : string -> option Z;
  today : Z;
  earliestDate : Z
}.

Definition emptyForm : FormData :=
  {| name := ""; mrn := ""; dob := ""; gender := None |}.

(** The object [newErrors] that [validateForm] builds. *)
Definition newErrors (dates : Dates) (form : FormData) : gmap string string :=
  let newErrors : gmap string string := ∅ in
  let newErrors :=
    if negb (truthy (trim (name form)))
    then <["name" := "Patient name is required"]> newErrors
    else if (String.length (trim (name form)) <? 2)%nat
    then <["name" := "Patient name must be at least 2 characters"]> newErrors
    else newErrors in
  let newErrors :=
    if truthy (trim (mrn form)) && (String.length (trim (mrn form)) <? 3)%nat
    then <["mrn" := "MRN must be at least 3 characters if provided"]> newErrors
    else newErrors in
  let newErrors :=
    if truthy (dob form)
    then match parse dates (dob form) with
         | Some dobDate =>
             if (today dates <? dobDate)%Z
             then <["dob" := "Date of birth cannot be in the future"]> newErrors
             else if (dobDate <? earliestDate dates)%Z
             then <["dob" := "Date of birth cannot be more than 120 years ago"]> newErrors
             else newErrors
         | None => newErrors
         end
    else newErrors in
  newErrors.

(** [validateForm]: the verdict, and the state with the errors set. *)
Definition validateForm (dates : Dates) (s : State) : bool * State :=
  let found := newErrors dates (formData s) in
  (bool_decide (size found = 0),
   {| formData := formData s; errors := found; error := error s;
      loading := loading s; patientAdded := patientAdded s |}).

(** The object [patientData] that [handleSubmit] builds from the
    form. *)
Definition patientData (form : FormData) : CreatePatientRequest.t :=
  {| CreatePatientRequest.name := trim (name form);
     CreatePatientRequest.mrn :=
       if truthy (trim (mrn form)) then Some (trim (mrn form)) else None;
     CreatePatientRequest.dob :=
       if truthy (trim (dob form)) then Some (trim (dob form)) else None;
     CreatePatientRequest.gender :=
       match gender form with
       | Some g =>
           if truthy (PatientTypes.Gender_string g)
              && negb (PatientTypes.Gender_string g =? "")
           then Some g else None
       | None => None
       end |}.

(** [handleSubmit]; [user] is the uid of the signed-in user, [None]
    when nobody is signed in. *)
Definition handleSubmit (dates : Dates) (user : option string) (newId : string)
    (now : Z) (s : State) (st : state) : State * state :=
  match user with
  | None =>
      ({| formData := formData s; errors := errors s;
          error := Some "User not authenticated";
          loading := loading s; patientAdded := patientAdded s |}, st)
  | Some uid =>
      let validated := validateForm dates s in
      if negb validated.1 then (validated.2, st)
      else
        let s := validated.2 in
        match PatientService.createPatient uid (patientData (formData s)) newId now st with
        | (Returned _, st') =>
            ({| formData := emptyForm; errors := ∅; error := None;
                loading := false; patientAdded := S (patientAdded s) |}, st')
        | (Threw message, st') =>
            ({| formData := formData s; errors := errors s;
                error := Some message;
                loading := false; patientAdded := patientAdded s |}, st')
        end
  end.

End AddPatientModal.

(** ** The private helper of the current revision of the service *)

Module PatientServicePrivate.

Import JS Firestore.

(** [value !== undefined && value !== null && value !== ''] *)
Definition has_value (v : value) : bool :=
  negb (bool_decide (v = VUndefined))
  && negb (bool_decide (v = VNull))
  && negb (bool_decide (v = VString "")).

(** [filterUndefinedValues]: the loop over [Object.entries(obj)] that
    copies the entries with a value into a new object. *)
Definition filterUndefinedValues (obj : object) : object :=
  fold_left
    (fun (filtered : object) (entry : string * value) =>
       if has_value entry.2 then <[entry.1 := entry.2]> filtered else filtered)
    (map_to_list obj) ∅.

End PatientServicePrivate.

(** ** Further notions for the properties of the directory *)

Module DirectoryNotions.

Import JS Firestore FirestoreCalls PatientTypes ServiceCommon.

(** A field that [toDate_or_now] accepts: missing, null or a
    timestamp. *)
Definition is_date_field (field : option value) : Prop :=
  match field with
  | None | Some VUndefined | Some VNull | Some (VTimestamp _) => True
  | Some _ => False
  end.

(** A document whose two dates the service can convert. *)
Definition well_dated (data : object) : Prop :=
  is_date_field (data !! "createdAt") /\ is_date_field (data !! "lastModified").

(** The field [getPatients] sorts by under [filters]. *)
Definition sort_field (filters : PatientSearchFilters.t) : string :=
  match PatientSearchFilters.sortBy filters with
  | Some f => SortField_string f
  | None => "lastModified"
  end.

(** The query [getPatients] builds for [userId] under [filters]. *)
Definition patients_query (userId : string) (filters : PatientSearchFilters.t)
    : Query :=
  {| filters :=
       ("createdBy", VString userId)
       :: match PatientSearchFilters.status filters with
          | Some s => [("status", VString (Status_string s))]
          | None => []
          end;
     ordering :=
       [(sort_field filters, default desc (PatientSearchFilters.sortOrder filters))] |}.

(** The term [getPatients] searches for under [filters], when there is
    one. *)
Definition search_key (filters : PatientSearchFilters.t) : option string :=
  match PatientSearchFilters.searchTerm filters with
  | Some term => if truthy term then Some (trim (toLowerCase term)) else None
  | None => None
  end.

(** A document that the query of [getPatients] for [userId] under
    [filters] selects. *)
Definition selected (userId : string) (filters : PatientSearchFilters.t)
    (data : object) : Prop :=
  data !! "createdBy" = Some (VString userId) /\
  (forall s, PatientSearchFilters.status filters = Some s ->
             data !! "status" = Some (VString (Status_string s))) /\
  is_Some (data !! sort_field filters).

(** The text of a patient's field contains [term], case ignored on the
    side of the field. *)
Definition field_contains (patient : object) (field term : string) : Prop :=
  exists text : string,
    patient !! field = Some (VString text) /\
    includes (toLowerCase text) term = true.

(** How an update treats a text field: left as it was when the request
    omits it or gives a blank text, set to the trimmed text
    otherwise. *)
Definition merged_text (given : option string) (before after : option value) : Prop :=
  (given = None \/ (exists text, given = Some text /\ blank text) -> after = before) /\
  (forall text, given = Some text -> ~ blank text ->
                after = Some (VString (trim text))).

(** How an update treats a field of an enumerated type, written as
    [show] prints it: left as it was when omitted, set otherwise. *)
Definition merged_choice {A : Type} (show : A -> string) (given : option A)
    (before after : option value) : Prop :=
  match given with
  | Some choice => after = Some (VString (show choice))
  | None => after = before
  end.

(** A form that [validateForm] finds no fault with: a name of two
    characters or more once trimmed, an MRN that is blank or of three
    characters or more once trimmed, and a date of birth that is empty,
    or does not parse, or lies between 120 years ago and today. *)
Definition acceptable (dates : AddPatientModal.Dates)
    (form : AddPatientModal.FormData) : Prop :=
  2 <= String.length (trim (AddPatientModal.name form)) /\
  (trim (AddPatientModal.mrn form) = "" \/
   3 <= String.length (trim (AddPatientModal.mrn form))) /\
  (AddPatientModal.dob form = "" \/
   match AddPatientModal.parse dates (AddPatientModal.dob form) with
   | Some dobDate =>
       (AddPatientModal.earliestDate dates <= dobDate <= AddPatientModal.today dates)%Z
   | None => True
   end).

(** The user who makes a call of the service. *)
Definition caller (op : PatientService.operation) : option string :=
  match op with
  | PatientService.Create userId _ _ _
  | PatientService.Get userId _ _
  | PatientService.List userId _ _
  | PatientService.Update userId _ _ _
  | PatientService.Deactivate userId _ _
  | PatientService.Reactivate userId _ _
  | PatientService.Search userId _ _ _ => Some userId
  | PatientService.ServerTime _ | PatientService.Reachable _ => None
  end.

(** An operation that creates a document under [patientId]. *)
Definition creates (patientId : string) (op : PatientService.operation) : bool :=
  match op with
  | PatientService.Create _ _ newId _ => bool_decide (newId = patientId)
  | _ => false
  end.

(** No document of the store holds an empty string. *)
Definition no_empty_strings (st : state) : Prop :=
  forall (id : string) (data : object) (field : string),
    documents st !! id = Some data -> data !! field <> Some (VString "").

End DirectoryNotions.

(** * Properties *)

(** ** Strings *)

Section StringFacts.

Lemma string_app_cons (x : ascii) (a b : string) :
  String x a +:+ b = String x (a +:+ b).
Proof. reflexivity. Qed.

Lemma string_app_nil (b : string) : "" +:+ b = b.
Proof. reflexivity. Qed.

Lemma string_app_assoc (a b c : string) : (a +:+ b) +:+ c = a +:+ (b +:+ c).
Proof.
  induction a as [| x a IH]; [reflexivity |].
  by rewrite !string_app_cons, IH.
Qed.

Lemma string_app_empty_r (a : string) : a +:+ "" = a.
Proof.
  induction a as [| x a IH]; [reflexivity |].
  by rewrite string_app_cons, IH.
Qed.

Lemma string_app_length (a b : string) :
  String.length (a +:+ b) = String.length a + String.length b.
Proof.
  induction a as [| x a IH]; [reflexivity |].
  rewrite string_app_cons. simpl. by rewrite IH.
Qed.

Lemma string_prefix_app (p s : string) : String.prefix p (p +:+ s) = true.
Proof.
  induction p as [| x p IH]; [by destruct s |].
  rewrite string_app_cons. simpl.
  destruct (Ascii.ascii_dec x x); [exact IH | congruence].
Qed.

Lemma string_prefix_head (p s : string) (x y : ascii) :
  x <> y -> String.prefix (String x p) (String y s) = false.
Proof. intros Hxy. simpl. destruct (Ascii.ascii_dec x y); [congruence | reflexivity]. Qed.

Lemma truthy_true (s : string) : JS.truthy s = true <-> s <> "".
Proof.
  unfold JS.truthy. destruct (String.eqb_spec s ""); simpl; split; congruence.
Qed.

Lemma truthy_false (s : string) : JS.truthy s = false <-> s = "".
Proof.
  unfold JS.truthy. destruct (String.eqb_spec s ""); simpl; split; congruence.
Qed.

Lemma occurs_in_middle (pre sub post : string) :
  occurs_in sub (pre +:+ sub +:+ post).
Proof. by exists pre, post. Qed.

End StringFacts.

(** ** The note-generation endpoint *)

Module RouteProperties.

Import JS Route.

Lemma truthy_opt_true (o : option string) :
  truthy_opt o = true <-> exists s, o = Some s /\ s <> "".
Proof.
  destruct o as [s |]; simpl.
  - rewrite truthy_true. split; [by exists s | by intros (? & [= ->] & ?)].
  - split; [done | by intros (? & ? & ?)].
Qed.

Lemma truthy_opt_false (o : option string) :
  truthy_opt o = false <-> absent_or_empty o.
Proof.
  unfold absent_or_empty. destruct o as [s |]; simpl.
  - rewrite truthy_false. split; [intros ->; by right | by intros [? | [= ->]]].
  - split; [by left | done].
Qed.

Lemma optional_line_present (label v : string) :
  v <> "" -> optional_line label (Some v) = NEWLINE +:+ label +:+ v.
Proof. intros Hv. unfold optional_line. by apply truthy_true in Hv as ->. Qed.

Lemma optional_line_absent (label : string) (field : option string) :
  absent_or_empty field -> optional_line label field = "".
Proof. by intros [-> | ->]. Qed.

Ltac flatten_appends :=
  rewrite ?string_app_assoc, ?string_app_empty_r, ?string_app_nil.

(** The prompt, section by section, in the order the handler appends
    them. *)
Lemma composePrompt_sections (context : option string) (transcript : string)
    (previousNote : option string) (patientContext : option PatientContext) :
  composePrompt context transcript previousNote patientContext =
  systemPrompt context +:+ TRANSCRIPT_HEADER +:+ transcript
  +:+ patient_block patientContext
  +:+ previous_note_section context previousNote
  +:+ CLOSING.
Proof.
  unfold composePrompt, patient_block, previous_note_section,
    previous_note_block, optional_line.
  generalize (systemPrompt context) as template. intros template.
  assert (Hprev :
    forall prompt : string,
      (if bool_decide (context = Some "hmhi-transfer") && truthy_opt previousNote
       then prompt +:+ PREVIOUS_NOTE_HEADER +:+ default "" previousNote
       else prompt)
      = prompt +:+
        match previousNote with
        | Some note =>
            if bool_decide (context = Some "hmhi-transfer" /\ note <> "")
            then PREVIOUS_NOTE_HEADER +:+ note else ""
        | None => ""
        end).
  { intros prompt. destruct previousNote as [note |]; simpl.
    - destruct (decide (context = Some "hmhi-transfer")) as [Hc | Hc],
        (decide (note = "")) as [Hn | Hn].
      + rewrite (bool_decide_eq_true_2 _ Hc).
        rewrite (proj2 (truthy_false note) Hn), bool_decide_eq_false_2 by tauto.
        simpl. by flatten_appends.
      + rewrite (bool_decide_eq_true_2 _ Hc).
        rewrite (proj2 (truthy_true note) Hn), bool_decide_eq_true_2 by tauto.
        reflexivity.
      + rewrite (bool_decide_eq_false_2 _ Hc), bool_decide_eq_false_2 by tauto.
        simpl. by flatten_appends.
      + rewrite (bool_decide_eq_false_2 _ Hc), bool_decide_eq_false_2 by tauto.
        simpl. by flatten_appends.
    - rewrite andb_false_r. by flatten_appends. }
  unfold PREVIOUS_NOTE_HEADER in Hprev. rewrite Hprev. clear Hprev.
  destruct patientContext as [[pid pname [mrn |] [dob |] [gender |]] |]; simpl;
    repeat match goal with |- context [truthy ?s] => destruct (truthy s) end;
    flatten_appends; reflexivity.
Qed.


Lemma composePrompt_without_note (context : option string) (transcript : string)
    (patientContext : option PatientContext) :
  composePrompt context transcript None patientContext =
  (systemPrompt context +:+ TRANSCRIPT_HEADER +:+ transcript
   +:+ patient_block patientContext) +:+ CLOSING.
Proof. rewrite composePrompt_sections. simpl. by flatten_appends. Qed.

Lemma previous_note_section_applies (context : option string) (note : string) :
  context = Some "hmhi-transfer" -> note <> "" ->
  previous_note_section context (Some note) = previous_note_block note.
Proof.
  intros Hc Hn. unfold previous_note_section.
  by rewrite bool_decide_eq_true_2.
Qed.

Lemma previous_note_section_skipped (context previousNote : option string) :
  ~ (context = Some "hmhi-transfer" /\ exists note, previousNote = Some note /\ note <> "") ->
  previous_note_section context previousNote = "".
Proof.
  intros Hno. unfold previous_note_section.
  destruct previousNote as [note |]; [| reflexivity].
  rewrite bool_decide_eq_false_2; [reflexivity |].
  intros [Hc Hn]. apply Hno. split; [exact Hc | by exists note].
Qed.

Lemma block_changes_prompt (body note : string) :
  body +:+ previous_note_block note +:+ CLOSING <> body +:+ CLOSING.
Proof.
  intros Heq. apply (f_equal String.length) in Heq.
  rewrite !string_app_length in Heq.
  unfold previous_note_block in Heq. rewrite string_app_length in Heq.
  unfold PREVIOUS_NOTE_HEADER in Heq. simpl in Heq. lia.
Qed.

(** C4.  The composed prompt carries the previous-note block exactly
    when the context is ['hmhi-transfer'] and a previous note that is
    not empty was supplied: the block then sits just before the closing
    line of what the prompt is without a note.  For every other context
    the prompt is the one composed with no previous note at all, so
    nothing of a supplied note reaches it. *)
Theorem previous_note_only_for_transfer (context : option string)
    (transcript : string) (previousNote : option string)
    (patientContext : option PatientContext) :
  let prompt := composePrompt context transcript previousNote patientContext in
  let without := composePrompt context transcript None patientContext in
  ((exists note, previousNote = Some note /\ has_previous_note_block prompt without note)
   <-> (context = Some "hmhi-transfer" /\
        exists note, previousNote = Some note /\ note <> ""))
  /\ (context <> Some "hmhi-transfer" -> prompt = without).
Proof.
  intros prompt without.
  assert (Hskip :
    ~ (context = Some "hmhi-transfer" /\ exists note, previousNote = Some note /\ note <> "") ->
    prompt = without).
  { intros Hno. unfold prompt, without.
    rewrite composePrompt_without_note, composePrompt_sections.
    rewrite (previous_note_section_skipped _ _ Hno). by flatten_appends. }
  split; [split |].
  - intros (note & Hnote & body & Hwithout & Hprompt).
    destruct (decide (context = Some "hmhi-transfer" /\ note <> ""))
      as [[Hc Hn] | Hno]; [split; [exact Hc | by exists note] |].
    exfalso. apply (block_changes_prompt body note).
    rewrite <- Hprompt, <- Hwithout. apply Hskip.
    intros (Hc & note' & Hnote' & Hn). apply Hno. by simplify_eq.
  - intros (Hc & note & Hnote & Hn). exists note. split; [exact Hnote |].
    exists (systemPrompt context +:+ TRANSCRIPT_HEADER +:+ transcript
            +:+ patient_block patientContext).
    split; [apply composePrompt_without_note |].
    unfold prompt. rewrite composePrompt_sections, Hnote.
    rewrite (previous_note_section_applies _ _ Hc Hn). by flatten_appends.
  - intros Hc. apply Hskip. by intros [? _].
Qed.


(** C5.  Whatever the context, the transcript, the snapshot and the
    previous note, the prompt is the selected template, then the
    transcript section with the transcript as it was given, then the
    patient block (nothing without a snapshot), then the previous-note
    section (nothing unless it applies), then the closing line, which
    ends the prompt. *)
Theorem composePrompt_section_order (context : option string)
    (transcript : string) (previousNote : option string)
    (patientContext : option PatientContext) :
  composePrompt context transcript previousNote patientContext =
  systemPrompt context
  +:+ (TRANSCRIPT_HEADER +:+ transcript)
  +:+ patient_block patientContext
  +:+ previous_note_section context previousNote
  +:+ CLOSING
  /\ patient_block None = ""
  /\ previous_note_section context None = ""
  /\ (context <> Some "hmhi-transfer" -> previous_note_section context previousNote = "").
Proof.
  split; [| split; [reflexivity | split; [reflexivity |]]].
  - rewrite composePrompt_sections. by flatten_appends.
  - intros Hc. apply previous_note_section_skipped. by intros [? _].
Qed.

(** The transcript section, with the transcript unchanged, occurs in
    the prompt, and so does the previous-note block when it applies. *)
Lemma transcript_occurs_verbatim (context : option string) (transcript : string)
    (previousNote : option string) (patientContext : option PatientContext) :
  occurs_in (TRANSCRIPT_HEADER +:+ transcript)
    (composePrompt context transcript previousNote patientContext).
Proof.
  rewrite composePrompt_sections.
  rewrite <- (string_app_assoc TRANSCRIPT_HEADER transcript).
  apply occurs_in_middle.
Qed.

Lemma previous_note_occurs (transcript note : string)
    (patientContext : option PatientContext) :
  note <> "" ->
  occurs_in (previous_note_block note)
    (composePrompt (Some "hmhi-transfer") transcript (Some note) patientContext).
Proof.
  intros Hnote. rewrite composePrompt_sections.
  rewrite (previous_note_section_applies _ _ eq_refl Hnote).
  rewrite <- !string_app_assoc. rewrite string_app_assoc.
  apply occurs_in_middle.
Qed.

(** C6.  With a snapshot, the patient block is its header, the name
    line, and one line for each of MRN, date of birth and gender that
    is present and not empty; a field that is absent or empty
    contributes nothing.  With only the name set the block is the
    header and the name line. *)
Theorem patient_block_lines (context : option string) (transcript : string)
    (previousNote : option string) (pc : PatientContext) :
  let prompt := composePrompt context transcript previousNote (Some pc) in
  let around (block : string) :=
    systemPrompt context +:+ (TRANSCRIPT_HEADER +:+ transcript) +:+ block
    +:+ previous_note_section context previousNote +:+ CLOSING in
  prompt = around (PATIENT_HEADER +:+ "Name: " +:+ patientName pc
                   +:+ optional_line "MRN: " (patientMRN pc)
                   +:+ optional_line "Date of Birth: " (patientDOB pc)
                   +:+ optional_line "Gender: " (patientGender pc))
  /\ (forall label field,
        (absent_or_empty field -> optional_line label field = "") /\
        (forall v, field = Some v -> v <> "" ->
           optional_line label field = NEWLINE +:+ label +:+ v))
  /\ (absent_or_empty (patientMRN pc) ->
      absent_or_empty (patientDOB pc) ->
      absent_or_empty (patientGender pc) ->
      prompt = around (PATIENT_HEADER +:+ "Name: " +:+ patientName pc)).
Proof.
  intros prompt around.
  assert (Hprompt : prompt = around (patient_block (Some pc))).
  { unfold prompt, around. rewrite composePrompt_sections. by flatten_appends. }
  split; [exact Hprompt | split].
  - intros label field. split; [apply optional_line_absent |].
    intros v -> Hv. by apply optional_line_present.
  - intros Hmrn Hdob Hgender. rewrite Hprompt. unfold patient_block.
    rewrite !optional_line_absent by assumption. by flatten_appends.
Qed.

(** Each of the six keys selects its own template, which the prompt
    begins with. *)
Lemma recognized_context_template (key template transcript : string)
    (previousNote : option string) (patientContext : option PatientContext) :
  In (key, template) CONTEXT_PROMPTS ->
  systemPrompt (Some key) = template /\
  startsWith (composePrompt (Some key) transcript previousNote patientContext)
    template = true.
Proof.
  intros Hin.
  assert (Hsel : systemPrompt (Some key) = template).
  { simpl in Hin.
    repeat (destruct Hin as [[= <- <-] | Hin]; [by vm_compute |]).
    destruct Hin. }
  split; [exact Hsel |].
  rewrite composePrompt_sections, Hsel. apply string_prefix_app.
Qed.

(** A context that names neither a template nor a property of
    [Object.prototype] (a missing context among them) selects the
    transfer-of-care template. *)
Lemma unknown_context_default (context : option string) (transcript : string)
    (previousNote : option string) (patientContext : option PatientContext) :
  assoc (property_key context) CONTEXT_PROMPTS = None ->
  assoc (property_key context) Object_prototype = None ->
  systemPrompt context = PROMPT_hmhi_transfer /\
  startsWith (composePrompt context transcript previousNote patientContext)
    PROMPT_hmhi_transfer = true.
Proof.
  intros Hown Hinherited.
  assert (Hsel : systemPrompt context = PROMPT_hmhi_transfer).
  { unfold systemPrompt, get_property. rewrite Hown, Hinherited. by vm_compute. }
  split; [exact Hsel |].
  rewrite composePrompt_sections, Hsel. apply string_prefix_app.
Qed.

(** C3, at the context ["toString"].  The key is none of the six, yet
    [CONTEXT_PROMPTS["toString"]] is the function every object inherits,
    which is truthy: the fallback of line 81 is not taken and the
    prompt begins with the text of that function, not with the
    transfer-of-care template. *)
Theorem inherited_key_bypasses_default (transcript : string)
    (previousNote : option string) (patientContext : option PatientContext) :
  let prompt := composePrompt (Some "toString") transcript previousNote patientContext in
  assoc "toString" CONTEXT_PROMPTS = None
  /\ startsWith prompt "function toString() { [native code] }" = true
  /\ startsWith prompt PROMPT_hmhi_transfer = false.
Proof.
  intros prompt. unfold prompt. rewrite composePrompt_sections.
  change (systemPrompt (Some "toString"))
    with (String "f" "unction toString() { [native code] }").
  split; [reflexivity | split].
  - apply string_prefix_app.
  - rewrite string_app_cons. by apply string_prefix_head.
Qed.

(** C1, as the code has it.  A request whose transcript is missing or
    the empty string is answered with status 400 and the error
    ['Transcript is required'], and the generator is not called. *)
Theorem empty_transcript_rejected (env : Env) (r : NoteRequest) :
  absent_or_empty (transcript r) ->
  POST env (Json r) =
  ({| body := ErrorBody "Transcript is required"; status := 400 |}, []).
Proof.
  intros Habsent. unfold POST.
  by rewrite (proj2 (truthy_opt_false _) Habsent).
Qed.

Lemma empty_transcript_rejected_witness :
  let env := {| GOOGLE_GEMINI_API_KEY := Some "key";
                generateContent := fun _ => Returned "note" |} in
  let r := {| transcript := Some ""; context := Some "dbh-intake";
              previousNote := None; patientContext := None |} in
  absent_or_empty (transcript r) /\
  POST env (Json r) =
  ({| body := ErrorBody "Transcript is required"; status := 400 |}, []).
Proof.
  split; [by right | apply empty_transcript_rejected; by right].
Defined.

(** C1 fails for a transcript of three spaces: it is blank, the
    credential is configured, and the handler answers 200 after calling
    the generator with the composed prompt. *)
Lemma whitespace_transcript_reaches_generator :
  let env := {| GOOGLE_GEMINI_API_KEY := Some "key";
                generateContent := fun _ => Returned "note" |} in
  let r := {| transcript := Some "   "; context := Some "dbh-intake";
              previousNote := None; patientContext := None |} in
  blank "   " /\
  (POST env (Json r)).1 = {| body := NoteBody "note" None; status := 200 |} /\
  (POST env (Json r)).2 = [composePrompt (Some "dbh-intake") "   " None None].
Proof. by vm_compute. Qed.

(** A transcript that is not empty passes the check of line 65 whatever
    it consists of: with the credential configured the generator is
    called once, with the composed prompt. *)
Lemma nonempty_transcript_calls_generator (env : Env) (r : NoteRequest) (t : string) :
  transcript r = Some t -> t <> "" ->
  truthy_opt (GOOGLE_GEMINI_API_KEY env) = true ->
  (POST env (Json r)).2 =
  [composePrompt (context r) t (previousNote r) (patientContext r)].
Proof.
  intros Ht Hne Hkey. unfold POST. rewrite Ht, Hkey. simpl.
  apply truthy_true in Hne as ->. simpl.
  by destruct (generateContent env _).
Qed.

End RouteProperties.

(** ** The patient directory *)

Module DirectoryProperties.

Import JS Firestore FirestoreCalls PatientTypes ServiceCommon DirectorySpec.

(** *** The calls to the store *)

Lemma getDoc_run (id : string) (st : state) :
  getDoc id st =
  (if available st then Returned (documents st !! id)
   else Threw "Failed to get document because the client is offline.",
   with_call (GetDoc id) st).
Proof. unfold getDoc, bind, record_call, reach. simpl. by destruct (available st). Qed.

Lemma getDocs_run (q : Query) (st : state) :
  getDocs q st =
  (if available st then Returned (run_query q (documents st))
   else Threw "Failed to get document because the client is offline.",
   with_call (GetDocs q) st).
Proof. unfold getDocs, bind, record_call, reach. simpl. by destruct (available st). Qed.

Lemma strict_eq_string_true (v : option value) (s : string) :
  strict_eq_string v s = true <-> v = Some (VString s).
Proof.
  unfold strict_eq_string. destruct v as [[| | t | | |] |]; try (split; [done | by intros [=]]).
  rewrite String.eqb_eq. split; [by intros -> | by intros [= ->]].
Qed.

(** The two revisions of [getPatient] are the same function. *)
Lemma getPatient_same :
  EarlierPatientService.getPatient = PatientService.getPatient.
Proof. reflexivity. Qed.

(** C2.  When the document exists and was created by another user,
    [getPatient] returns [null]: it neither returns the record nor
    throws, in either revision and whether or not the store can be
    reached. *)
Theorem getPatient_hides_foreign_record (st : state)
    (userA userB patientId : string) (data : object) (now : Z) :
  documents st !! patientId = Some data ->
  data !! "createdBy" = Some (VString userB) ->
  userA <> userB ->
  (PatientService.getPatient userA patientId now st).1 = Returned None /\
  (EarlierPatientService.getPatient userA patientId now st).1 = Returned None.
Proof.
  intros Hdoc Howner Hother. rewrite getPatient_same.
  assert (Hne : strict_eq_string (data !! "createdBy") userA = false).
  { apply not_true_is_false. rewrite strict_eq_string_true, Howner. congruence. }
  assert ((PatientService.getPatient userA patientId now st).1 = Returned None);
    [| done].
  unfold PatientService.getPatient, try_catch, bind. rewrite getDoc_run.
  destruct (available st); [| reflexivity].
  rewrite Hdoc, Hne. reflexivity.
Qed.


Lemma getPatient_hides_foreign_record_witness :
  let data : object := <["createdBy" := VString "userB"]> (<["name" := VString "Jane Doe"]> ∅) in
  let st := {| documents := <["p1" := data]> ∅; serverTime := 0;
               available := true; calls := [] |} in
  (PatientService.getPatient "userA" "p1" 0 st).1 = Returned None /\
  (EarlierPatientService.getPatient "userA" "p1" 0 st).1 = Returned None.
Proof.
  intros data st.
  apply (getPatient_hides_foreign_record st "userA" "userB" "p1" data 0);
    [reflexivity | reflexivity | discriminate].
Defined.

(** *** What a query returns *)

Lemma run_query_sound (q : Query) (docs : gmap string object) (entry : string * object) :
  entry ∈ run_query q docs ->
  docs !! entry.1 = Some entry.2 /\ matches q entry = true.
Proof.
  unfold run_query. rewrite merge_sort_Permutation.
  rewrite list_elem_of_In, filter_In, <- list_elem_of_In.
  intros [Hin Hmatch]. split; [| exact Hmatch].
  by apply elem_of_map_to_list'.
Qed.

Lemma matches_filter (q : Query) (entry : string * object) (field : string) (v : value) :
  matches q entry = true -> (field, v) ∈ filters q -> entry.2 !! field = Some v.
Proof.
  unfold matches. rewrite andb_true_iff, forallb_forall.
  intros [Hall _] Hin. apply list_elem_of_In in Hin.
  apply Hall in Hin. by apply bool_decide_eq_true_1 in Hin.
Qed.

(** *** What the service makes of a snapshot *)

Lemma snapshot_patient_lookup (id : string) (data patient : object) (now : Z)
    (field : string) :
  snapshot_patient id data now = Returned patient ->
  field <> "createdAt" -> field <> "lastModified" -> field <> "id" ->
  patient !! field = data !! field.
Proof.
  unfold snapshot_patient. intros Hsnap H1 H2 H3.
  destruct (toDate_or_now (data !! "createdAt") now); [| discriminate].
  destruct (toDate_or_now (data !! "lastModified") now); [| discriminate].
  injection Hsnap as <-.
  rewrite !lookup_insert_ne by done.
  rewrite lookup_union, lookup_singleton_ne by done.
  by destruct (data !! field).
Qed.

Lemma collect_sound (snapshot : list (string * object)) (now : Z)
    (patients : list object) :
  collect snapshot now = Returned patients ->
  Forall (fun patient => exists entry,
            entry ∈ snapshot /\
            snapshot_patient entry.1 entry.2 now = Returned patient) patients.
Proof.
  revert patients. induction snapshot as [| [id data] rest IH]; intros patients; simpl.
  - intros [= <-]. constructor.
  - destruct (snapshot_patient id data now) as [patient |] eqn:Hsnap; [| discriminate].
    destruct (collect rest now) as [others |]; [| discriminate].
    intros [= <-]. constructor.
    + exists (id, data). split; [left | exact Hsnap].
    + eapply Forall_impl; [by apply IH |].
      intros p (entry & Hin & Hp). exists entry. split; [by right | exact Hp].
Qed.

Lemma Forall_sublist_of {A : Type} (P : A -> Prop) (l1 l2 : list A) :
  sublist l1 l2 -> Forall P l2 -> Forall P l1.
Proof.
  rewrite !Forall_forall. intros Hsub Hall x Hx.
  apply Hall. by eapply elem_of_sublist.
Qed.

Lemma filter_patients_sublist (predicate : object -> outcome bool)
    (patients kept : list object) :
  filter_patients predicate patients = Returned kept -> sublist kept patients.
Proof.
  revert kept. induction patients as [| p rest IH]; intros kept; simpl.
  - intros [= <-]. constructor.
  - destruct (predicate p) as [keep |]; [| discriminate].
    destruct (filter_patients predicate rest) as [kept' |]; [| discriminate].
    intros [= <-]. destruct keep.
    + apply sublist_skip. by apply IH.
    + apply sublist_cons. by apply IH.
Qed.

Lemma slice_to_sublist {A : Type} (l : list A) (finish : Z) :
  sublist (slice_to l finish) l.
Proof. unfold slice_to. apply sublist_take. Qed.

Lemma slice_to_length {A : Type} (l : list A) (finish : Z) :
  (0 <= finish)%Z -> (Z.of_nat (length (slice_to l finish)) <= finish)%Z.
Proof.
  intros Hpos. unfold slice_to.
  destruct (Z.ltb_spec finish 0) as [Hneg | _]; [lia |].
  rewrite length_take. lia.
Qed.


Lemma getPatients_sound (userId : string) (filters : PatientSearchFilters.t)
    (now : Z) (st : state) :
  exists patients,
    (PatientService.getPatients userId filters now st).1 = Returned patients /\
    Forall (listed st userId filters now) patients.
Proof.
  unfold PatientService.getPatients, try_catch, bind.
  set (q := query_orderBy _ _ _). rewrite getDocs_run.
  destruct (available st); [| by exists []].
  unfold lift.
  destruct (collect (run_query q (documents st)) now) as [patients |] eqn:Hcollect;
    [| by exists []].
  assert (Hall : Forall (listed st userId filters now) patients).
  { eapply Forall_impl; [by apply collect_sound in Hcollect |].
    intros patient ([id data] & Hin & Hsnap). simpl in Hsnap.
    apply run_query_sound in Hin as [Hdoc Hmatch]. simpl in Hdoc.
    exists id, data. split; [exact Hdoc | split; [| split; [| exact Hsnap]]].
    - apply (matches_filter q (id, data) "createdBy" _ Hmatch).
      unfold q. simpl. destruct (PatientSearchFilters.status filters) as [[] |];
        simpl; set_solver.
    - intros s Hs.
      apply (matches_filter q (id, data) "status" _ Hmatch).
      unfold q. simpl. rewrite Hs. destruct s; simpl; set_solver. }
  destruct (truthy_opt (PatientSearchFilters.searchTerm filters)).
  - destruct (filter_patients _ patients) as [kept |] eqn:Hkept; [| by exists []].
    exists kept. split; [reflexivity |].
    apply filter_patients_sublist in Hkept.
    by eapply Forall_sublist_of.
  - by exists patients.
Qed.

Lemma getPatients_returns (userId : string) (filters : PatientSearchFilters.t)
    (now : Z) (st : state) :
  exists patients q,
    PatientService.getPatients userId filters now st
    = (Returned patients, with_call (GetDocs q) st).
Proof.
  unfold PatientService.getPatients, try_catch, bind.
  set (q := query_orderBy _ _ _). rewrite getDocs_run.
  destruct (available st); [| by exists [], q].
  unfold lift.
  destruct (collect (run_query q (documents st)) now) as [patients |];
    [| by exists [], q].
  destruct (truthy_opt (PatientSearchFilters.searchTerm filters)).
  - destruct (filter_patients _ patients) as [kept |]; [by exists kept, q | by exists [], q].
  - by exists patients, q.
Qed.

(** The two revisions of [getPatients] and of [searchPatients] are the
    same functions. *)
Lemma getPatients_same :
  EarlierPatientService.getPatients = PatientService.getPatients.
Proof. reflexivity. Qed.

Lemma searchPatients_same :
  EarlierPatientService.searchPatients = PatientService.searchPatients.
Proof. reflexivity. Qed.

Lemma listed_fields (st : state) (userId : string)
    (filters : PatientSearchFilters.t) (now : Z) (patient : object) (s : Status) :
  PatientSearchFilters.status filters = Some s ->
  listed st userId filters now patient ->
  patient !! "createdBy" = Some (VString userId) /\
  patient !! "status" = Some (VString (Status_string s)).
Proof.
  intros Hs (id & data & _ & Howner & Hstatus & Hsnap).
  rewrite !(snapshot_patient_lookup _ _ _ _ _ Hsnap) by done.
  by rewrite Howner, (Hstatus s Hs).
Qed.

(** C10.  For every bound [n], [searchPatients] returns (it does not
    throw) a list of patients each created by the requesting user and
    with status ['active'], of at most [n] patients when [n] is not
    negative; for a search term that is blank it returns the empty list
    and leaves the store as it was, the log of calls included.  The
    earlier revision is the same function. *)
Theorem searchPatients_bounded_own_active (st : state) (userId searchTerm : string)
    (n : Z) (now : Z) :
  EarlierPatientService.searchPatients = PatientService.searchPatients /\
  (exists patients,
     (PatientService.searchPatients userId searchTerm (Some n) now st).1
     = Returned patients /\
     ((0 <= n)%Z -> (Z.of_nat (length patients) <= n)%Z) /\
     Forall (fun patient =>
               patient !! "createdBy" = Some (VString userId) /\
               patient !! "status" = Some (VString "active")) patients) /\
  (blank searchTerm ->
   PatientService.searchPatients userId searchTerm (Some n) now st
   = (Returned [], st)).
Proof.
  split; [reflexivity | split].
  - unfold PatientService.searchPatients. simpl.
    destruct (truthy (trim searchTerm)); simpl.
    + set (filters := {| PatientSearchFilters.searchTerm := _ |}).
      unfold bind.
      destruct (getPatients_sound userId filters now st) as (patients & Hret & Hall).
      destruct (PatientService.getPatients userId filters now st) as [result st'].
      simpl in Hret. subst result. simpl.
      exists (slice_to patients n). split; [reflexivity | split].
      * apply slice_to_length.
      * eapply Forall_impl.
        -- eapply Forall_sublist_of; [apply slice_to_sublist | exact Hall].
        -- intros patient Hlisted.
           by apply (listed_fields st userId filters now patient active).
    + exists []. split; [reflexivity | split; [simpl; lia | constructor]].
  - intros Hblank. unfold PatientService.searchPatients. simpl.
    unfold blank in Hblank. by rewrite Hblank.
Qed.

Lemma searchPatients_bounded_own_active_witness :
  let doe (name : string) : object :=
    <["status" := VString "active"]>
      (<["createdBy" := VString "userA"]> (<["name" := VString name]> ∅)) in
  let st := {| documents :=
                 <["p1" := doe "Ann Doe"]>
                   (<["p2" := doe "Bob Doe"]> (<["p3" := doe "Cy Doe"]> ∅));
               serverTime := 0; available := true; calls := [] |} in
  (exists patients,
     (PatientService.searchPatients "userA" "doe" (Some 2%Z) 0 st).1
     = Returned patients /\
     (Z.of_nat (length patients) <= 2)%Z /\
     Forall (fun patient =>
               patient !! "createdBy" = Some (VString "userA") /\
               patient !! "status" = Some (VString "active")) patients) /\
  PatientService.searchPatients "userA" "   " (Some 2%Z) 0 st = (Returned [], st).
Proof.
  intros doe st.
  destruct (searchPatients_bounded_own_active st "userA" "doe" 2 0)
    as (_ & (patients & Hret & Hlen & Hall) & _).
  split.
  - exists patients. split; [exact Hret | split; [apply Hlen; lia | exact Hall]].
  - exact (proj2 (proj2 (searchPatients_bounded_own_active st "userA" "   " 2 0))
             eq_refl).
Defined.

(** C10 fails for the bound [-1]: [slice(0, -1)] leaves out the last
    of the matches only, so of three matching patients two are
    returned, which is more than the bound. *)
Lemma negative_bound_exceeded :
  let doe (name : string) : object :=
    <["status" := VString "active"]>
      (<["createdBy" := VString "userA"]> (<["name" := VString name]> ∅)) in
  let st := {| documents :=
                 <["p1" := doe "Ann Doe"]>
                   (<["p2" := doe "Bob Doe"]> (<["p3" := doe "Cy Doe"]> ∅));
               serverTime := 0; available := true; calls := [] |} in
  match (PatientService.searchPatients "userA" "doe" (Some (-1)%Z) 0 st).1 with
  | Returned patients =>
      (fun patient : object => patient !! "name") <$> patients
      = [Some (VString "Ann Doe"); Some (VString "Bob Doe")] /\
      ~ (Z.of_nat (length patients) <= -1)%Z
  | Threw _ => False
  end.
Proof.
  intros doe st. vm_compute. split; [reflexivity |].
  intros Hle. apply Hle. reflexivity.
Qed.


(** *** Creating a patient *)

Lemma has_undefined_false (data : object) :
  has_undefined data = false <-> forall k, data !! k <> Some VUndefined.
Proof.
  unfold has_undefined. rewrite bool_decide_eq_false, map_Exists_lookup. split.
  - intros Hno k Hk. apply Hno. by exists k, VUndefined.
  - intros Hall (k & v & Hk & ->). by apply (Hall k).
Qed.

Lemma has_undefined_empty : has_undefined ∅ = false.
Proof. apply has_undefined_false. intros k. by rewrite lookup_empty. Qed.

Lemma has_undefined_insert (data : object) (k : string) (v : value) :
  v <> VUndefined -> has_undefined data = false ->
  has_undefined (<[k := v]> data) = false.
Proof.
  rewrite !has_undefined_false. intros Hv Hdata k'.
  destruct (decide (k = k')) as [<- | Hne].
  - rewrite lookup_insert_eq. congruence.
  - rewrite lookup_insert_ne by done. apply Hdata.
Qed.

Lemma has_undefined_union (a b : object) :
  has_undefined a = false -> has_undefined b = false ->
  has_undefined (a ∪ b) = false.
Proof.
  rewrite !has_undefined_false. intros Ha Hb k Hk.
  apply lookup_union_Some_raw in Hk as [Hk | [_ Hk]]; [by apply (Ha k) | by apply (Hb k)].
Qed.

Ltac no_undefined :=
  repeat first
    [ apply has_undefined_empty
    | apply has_undefined_insert; [discriminate |]
    | apply has_undefined_union ].

Lemma setDoc_run (id : string) (data : object) (st : state) :
  has_undefined data = false -> available st = true ->
  setDoc id data st =
  (Returned tt,
   with_documents (<[id := resolve (serverTime st) <$> data]> (documents st))
     (with_call (SetDoc id) st)).
Proof.
  intros Hdata Hup. unfold setDoc, bind, record_call, validate, reach, set_documents.
  rewrite Hdata. simpl. by rewrite Hup.
Qed.

Lemma trim_truthy (s : string) : truthy (trim s) = true <-> ~ blank s.
Proof. unfold blank. apply truthy_true. Qed.

Lemma trim_falsy (s : string) : truthy (trim s) = false <-> blank s.
Proof. unfold blank. apply truthy_false. Qed.

Lemma holds_optional_absent (given : option string) :
  given = None \/ (exists text, given = Some text /\ blank text) ->
  holds_optional given None.
Proof.
  intros Habsent. split; [done | split; [| done]].
  intros text -> Hnb. destruct Habsent as [[=] | (t & [= <-] & Hb)]. by destruct Hnb.
Qed.

Lemma holds_optional_present (text : string) :
  ~ blank text -> holds_optional (Some text) (Some (VString (trim text))).
Proof.
  intros Hnb. split; [| split].
  - intros [[=] | (t & [= <-] & Hb)]. by destruct Hnb.
  - by intros t [= <-] _.
  - intros [= Hempty]. by apply Hnb.
Qed.


Lemma holds_optional_shape (given : option string) (held : option value) :
  holds_optional given held ->
  held = None \/ exists text, held = Some (VString text).
Proof.
  intros (Habsent & Hpresent & _). destruct given as [text |].
  - destruct (decide (trim text = "")) as [Hb | Hnb].
    + left. apply Habsent. right. by exists text.
    + right. exists (trim text). by apply Hpresent.
  - left. apply Habsent. by left.
Qed.

Lemma holds_gender_shape (given : option Gender) (held : option value) :
  holds_gender given held ->
  held = None \/ exists text, held = Some (VString text).
Proof.
  intros (Habsent & Hpresent & _). destruct given as [g |].
  - right. exists (Gender_string g). by apply Hpresent.
  - left. by apply Habsent.
Qed.

(** C7.  A request with a name that is not blank, made for a user id
    that is not empty against a store that can be reached, creates the
    patient: the document written under the new id and the record
    returned both hold the trimmed name, and for each of MRN, date of
    birth and gender they hold the (trimmed) value when one was given
    and nothing at all, in particular no empty string, when it was
    omitted or blank. *)
Theorem createPatient_trims_and_omits (st : state) (userId : string)
    (patientData : CreatePatientRequest.t) (newId : string) (now : Z) :
  ~ blank (CreatePatientRequest.name patientData) ->
  userId <> "" ->
  available st = true ->
  exists patient stored : object,
    PatientService.createPatient userId patientData newId now st
    = (Returned patient,
       with_documents (<[newId := stored]> (documents st))
         (with_call (SetDoc newId) st)) /\
    patient !! "name" = Some (VString (trim (CreatePatientRequest.name patientData))) /\
    stored !! "name" = Some (VString (trim (CreatePatientRequest.name patientData))) /\
    holds_optional (CreatePatientRequest.mrn patientData) (patient !! "mrn") /\
    holds_optional (CreatePatientRequest.mrn patientData) (stored !! "mrn") /\
    holds_optional (CreatePatientRequest.dob patientData) (patient !! "dob") /\
    holds_optional (CreatePatientRequest.dob patientData) (stored !! "dob") /\
    holds_gender (CreatePatientRequest.gender patientData) (patient !! "gender") /\
    holds_gender (CreatePatientRequest.gender patientData) (stored !! "gender").
Proof.
  intros Hname Huser Hup.
  destruct patientData as [name mrn dob gender]. simpl in *.
  unfold PatientService.createPatient, try_catch, bind. simpl.
  rewrite (proj2 (trim_truthy name) Hname), (proj2 (truthy_true userId) Huser). simpl.
  set (with_mrn := match mrn with Some _ => _ | None => _ end).
  set (with_dob := match dob with Some _ => _ | None => _ end).
  set (optionalFields := match gender with Some _ => _ | None => _ end).
  assert (Hmrn : holds_optional mrn (with_mrn !! "mrn") /\
                 with_mrn !! "dob" = None /\ with_mrn !! "gender" = None /\
                 with_mrn !! "name" = None /\ has_undefined with_mrn = false).
  { unfold with_mrn. destruct mrn as [text |].
    - destruct (truthy (trim text)) eqn:Htext.
      + apply trim_truthy in Htext. rewrite lookup_insert_eq.
        split; [by apply holds_optional_present |].
        repeat split; try done; by no_undefined.
      + apply trim_falsy in Htext.
        split; [apply holds_optional_absent; right; by exists text |].
        repeat split; try done; by no_undefined.
    - split; [apply holds_optional_absent; by left |].
      repeat split; try done; by no_undefined. }
  destruct Hmrn as (Hmrn & Hmrn_dob & Hmrn_gender & Hmrn_name & Hmrn_def).
  assert (Hdob : with_dob !! "mrn" = with_mrn !! "mrn" /\
                 holds_optional dob (with_dob !! "dob") /\
                 with_dob !! "gender" = None /\
                 with_dob !! "name" = None /\ has_undefined with_dob = false).
  { unfold with_dob. destruct dob as [text |].
    - destruct (truthy (trim text)) eqn:Htext.
      + apply trim_truthy in Htext. rewrite lookup_insert_eq.
        rewrite !lookup_insert_ne by done.
        split; [done |]. split; [by apply holds_optional_present |].
        repeat split; try done; by no_undefined.
      + apply trim_falsy in Htext. rewrite Hmrn_dob.
        split; [done |].
        split; [apply holds_optional_absent; right; by exists text |].
        by repeat split.
    - rewrite Hmrn_dob. split; [done |].
      split; [apply holds_optional_absent; by left |]. by repeat split. }
  destruct Hdob as (Hdob_mrn & Hdob & Hdob_gender & Hdob_name & Hdob_def).
  assert (Hopt : optionalFields !! "mrn" = with_mrn !! "mrn" /\
                 optionalFields !! "dob" = with_dob !! "dob" /\
                 holds_gender gender (optionalFields !! "gender") /\
                 optionalFields !! "name" = None /\
                 has_undefined optionalFields = false).
  { unfold optionalFields. destruct gender as [g |].
    - assert (Hg : truthy (Gender_string g) && negb (Gender_string g =? "") = true)
        by by destruct g.
      rewrite Hg. rewrite lookup_insert_eq, !lookup_insert_ne by done.
      repeat split; try done; try by no_undefined.
      * by intros g' [= <-].
      * by destruct g.
    - rewrite Hdob_gender. by repeat split. }
  destruct Hopt as (Hopt_mrn & Hopt_dob & Hgender & Hopt_name & Hopt_def).
  rewrite <- Hopt_mrn in Hmrn. rewrite <- Hopt_dob in Hdob.
  clear Hopt_mrn Hopt_dob Hmrn_dob Hmrn_gender Hmrn_name Hmrn_def
    Hdob_gender Hdob_name Hdob_def Hdob_mrn.
  clearbody optionalFields. clear with_mrn with_dob.
  rewrite setDoc_run; [| by no_undefined | exact Hup].
  eexists _, _. split; [reflexivity |].
  rewrite !lookup_fmap. simpl_map. rewrite !lookup_union. simpl_map.
  rewrite ?lookup_union. simpl_map. rewrite Hopt_name.
  destruct (holds_optional_shape _ _ Hmrn) as [Em | [vm Em]],
           (holds_optional_shape _ _ Hdob) as [Ed | [vd Ed]],
           (holds_gender_shape _ _ Hgender) as [Eg | [vg Eg]];
    rewrite Em in *; rewrite Ed in *; rewrite Eg in *; by split_and!.
Qed.


Lemma createPatient_trims_and_omits_witness :
  let st := {| documents := ∅; serverTime := 0; available := true; calls := [] |} in
  let patientData :=
    {| CreatePatientRequest.name := "  Jane Doe  ";
       CreatePatientRequest.mrn := None;
       CreatePatientRequest.dob := Some "  ";
       CreatePatientRequest.gender := Some female |} in
  (~ blank "  Jane Doe  " /\ "userA" <> "" /\ available st = true) /\
  exists patient stored : object,
    PatientService.createPatient "userA" patientData "p1" 0 st
    = (Returned patient,
       with_documents (<["p1" := stored]> (documents st))
         (with_call (SetDoc "p1") st)) /\
    patient !! "name" = Some (VString "Jane Doe") /\
    stored !! "name" = Some (VString "Jane Doe") /\
    holds_optional None (patient !! "mrn") /\
    holds_optional None (stored !! "mrn") /\
    holds_optional (Some "  ") (patient !! "dob") /\
    holds_optional (Some "  ") (stored !! "dob") /\
    holds_gender (Some female) (patient !! "gender") /\
    holds_gender (Some female) (stored !! "gender").
Proof.
  intros st patientData.
  assert (Hname : ~ blank "  Jane Doe  ") by (by vm_compute).
  assert (Huser : "userA" <> "") by discriminate.
  split; [by split_and! |].
  exact (createPatient_trims_and_omits st "userA" patientData "p1" 0
           Hname Huser eq_refl).
Defined.

(** *** Updating a patient *)

Lemma getPatient_cases (userId patientId : string) (now : Z) (st : state) :
  PatientService.getPatient userId patientId now st
  = (Returned None, with_call (GetDoc patientId) st)
  \/ exists data patient : object,
       available st = true /\
       documents st !! patientId = Some data /\
       data !! "createdBy" = Some (VString userId) /\
       snapshot_patient patientId data now = Returned patient /\
       PatientService.getPatient userId patientId now st
       = (Returned (Some patient), with_call (GetDoc patientId) st).
Proof.
  unfold PatientService.getPatient, try_catch, bind. rewrite getDoc_run.
  destruct (available st) eqn:Hup; [| by left].
  destruct (documents st !! patientId) as [data |] eqn:Hdoc; [| by left].
  destruct (strict_eq_string (data !! "createdBy") userId) eqn:Howner; [| by left].
  simpl. unfold lift.
  destruct (snapshot_patient patientId data now) as [patient |] eqn:Hsnap; [| by left].
  right. exists data, patient. apply strict_eq_string_true in Howner. by split_and!.
Qed.

Lemma updateDoc_run (id : string) (data : object) (st : state) :
  has_undefined data = false ->
  updateDoc id data st =
  if available st
  then match documents st !! id with
       | Some old =>
           (Returned tt,
            with_documents
              (<[id := (resolve (serverTime st) <$> data) ∪ old]> (documents st))
              (with_call (UpdateDoc id) st))
       | None => (Threw "No document to update", with_call (UpdateDoc id) st)
       end
  else (Threw "Failed to get document because the client is offline.",
        with_call (UpdateDoc id) st).
Proof.
  intros Hdata. unfold updateDoc, bind, record_call, validate, reach, set_documents.
  rewrite Hdata. simpl. by destruct (available st).
Qed.

(** What a call of [updatePatient] comes to, in either revision: it
    throws and writes nothing, or it returns after merging the update
    object into the document, which exists and belongs to the caller. *)
Lemma update_cases (userId patientId : string) (data : object)
    (handler : string -> M unit) (now : Z) (st : state) :
  (forall message s, exists message', handler message s = (Threw message', s)) ->
  has_undefined data = false ->
  let result :=
    try_catch
      (bind (PatientService.getPatient userId patientId now)
         (fun existingPatient =>
            match existingPatient with
            | None => throw "Patient not found or access denied"
            | Some _ => updateDoc patientId data
            end))
      handler st in
  (exists message st',
     result = (Threw message, st') /\ documents st' = documents st)
  \/ exists old : object,
       available st = true /\
       documents st !! patientId = Some old /\
       old !! "createdBy" = Some (VString userId) /\
       (exists patient, snapshot_patient patientId old now = Returned patient) /\
       result =
       (Returned tt,
        with_documents
          (<[patientId := (resolve (serverTime st) <$> data) ∪ old]> (documents st))
          (with_call (UpdateDoc patientId) (with_call (GetDoc patientId) st))).
Proof.
  intros Hhandler Hdata result. unfold result, try_catch, bind.
  destruct (getPatient_cases userId patientId now st)
    as [-> | (old & patient & Hup & Hdoc & Howner & Hsnap & ->)].
  - left. unfold throw.
    destruct (Hhandler "Patient not found or access denied"
                (with_call (GetDoc patientId) st)) as [message' ->].
    by eexists _, _.
  - rewrite updateDoc_run by done. simpl. rewrite Hup, Hdoc.
    right. exists old. split_and!; [done | done | done | by exists patient | done].
Qed.

Lemma updateData_defined (updates : UpdatePatientRequest.t) :
  has_undefined (PatientService.updateData updates) = false.
Proof.
  destruct updates as [[name |] [mrn |] [dob |] [gender |] [status |]];
    unfold PatientService.updateData; simpl;
    repeat match goal with |- context [negb ?b] => destruct b; simpl end;
    by no_undefined.
Qed.

Lemma earlier_updateData_defined (updates : UpdatePatientRequest.t) :
  has_undefined (EarlierPatientService.updateData updates) = false.
Proof.
  destruct updates as [[name |] [mrn |] [dob |] [gender |] [status |]];
    unfold EarlierPatientService.updateData, EarlierPatientService.or_null; simpl;
    repeat match goal with |- context [truthy ?b] => destruct (truthy b); simpl end;
    by no_undefined.
Qed.

Lemma updateData_status (updates : UpdatePatientRequest.t) :
  PatientService.updateData updates !! "status"
  = (fun s => VString (Status_string s)) <$> UpdatePatientRequest.status updates.
Proof.
  destruct updates as [[name |] [mrn |] [dob |] [gender |] [status |]];
    unfold PatientService.updateData; simpl;
    repeat match goal with |- context [negb ?b] => destruct b; simpl end;
    by simpl_map.
Qed.

Lemma updateData_blank_mrn (updates : UpdatePatientRequest.t) (text : string) :
  UpdatePatientRequest.mrn updates = Some text -> blank text ->
  PatientService.updateData updates !! "mrn" = None.
Proof.
  intros Hmrn Hblank. unfold blank in Hblank.
  destruct updates as [[name |] mrn [dob |] [gender |] [status |]];
    simpl in Hmrn; subst mrn;
    unfold PatientService.updateData; simpl; rewrite Hblank; simpl;
    repeat match goal with |- context [negb ?b] => destruct b; simpl end;
    by simpl_map.
Qed.

Lemma earlier_updateData_blank_mrn (updates : UpdatePatientRequest.t) (text : string) :
  UpdatePatientRequest.mrn updates = Some text -> blank text ->
  EarlierPatientService.updateData updates !! "mrn" = Some VNull.
Proof.
  intros Hmrn Hblank. unfold blank in Hblank.
  destruct updates as [[name |] mrn [dob |] [gender |] [status |]];
    simpl in Hmrn; subst mrn;
    unfold EarlierPatientService.updateData, EarlierPatientService.or_null;
    simpl; rewrite Hblank; simpl;
    by simpl_map.
Qed.


Lemma updatePatient_cases (userId patientId : string)
    (updates : UpdatePatientRequest.t) (now : Z) (st : state) :
  let result := PatientService.updatePatient userId patientId updates now st in
  (exists message st',
     result = (Threw message, st') /\ documents st' = documents st)
  \/ exists old : object,
       available st = true /\
       documents st !! patientId = Some old /\
       old !! "createdBy" = Some (VString userId) /\
       (exists patient, snapshot_patient patientId old now = Returned patient) /\
       result =
       (Returned tt,
        with_documents
          (<[patientId := (resolve (serverTime st) <$> PatientService.updateData updates) ∪ old]>
             (documents st))
          (with_call (UpdateDoc patientId) (with_call (GetDoc patientId) st))).
Proof.
  apply update_cases; [| apply updateData_defined].
  intros message s. by eexists.
Qed.

Lemma earlier_updatePatient_cases (userId patientId : string)
    (updates : UpdatePatientRequest.t) (now : Z) (st : state) :
  let result := EarlierPatientService.updatePatient userId patientId updates now st in
  (exists message st',
     result = (Threw message, st') /\ documents st' = documents st)
  \/ exists old : object,
       available st = true /\
       documents st !! patientId = Some old /\
       old !! "createdBy" = Some (VString userId) /\
       (exists patient, snapshot_patient patientId old now = Returned patient) /\
       result =
       (Returned tt,
        with_documents
          (<[patientId := (resolve (serverTime st) <$> EarlierPatientService.updateData updates) ∪ old]>
             (documents st))
          (with_call (UpdateDoc patientId) (with_call (GetDoc patientId) st))).
Proof.
  apply update_cases; [| apply earlier_updateData_defined].
  intros message s. by eexists.
Qed.

(** The status of a document after the update object is merged in. *)
Lemma merged_status (time : Z) (updates : UpdatePatientRequest.t) (old : object) :
  ((resolve time <$> PatientService.updateData updates) ∪ old) !! "status"
  = match UpdatePatientRequest.status updates with
    | Some s => Some (VString (Status_string s))
    | None => old !! "status"
    end.
Proof.
  rewrite lookup_union, lookup_fmap, updateData_status.
  by destruct (UpdatePatientRequest.status updates), (old !! "status").
Qed.

(** *** The directory over sequences of operations *)

Lemma createPatient_documents (userId : string) (patientData : CreatePatientRequest.t)
    (newId : string) (now : Z) (st : state) :
  let st' := (PatientService.createPatient userId patientData newId now st).2 in
  documents st' = documents st
  \/ exists stored : object,
       documents st' = <[newId := stored]> (documents st) /\
       stored !! "status" = Some (VString "active").
Proof.
  unfold PatientService.createPatient, try_catch, bind.
  destruct (negb (truthy (trim (CreatePatientRequest.name patientData))));
    [by left |].
  destruct (negb (truthy userId)); [by left |].
  set (optionalFields := match CreatePatientRequest.gender patientData with
                         | Some _ => _ | None => _ end).
  set (patientToSave := <["lastModified" := VServerTimestamp]> _).
  unfold setDoc, bind, record_call, validate, reach, set_documents. simpl.
  destruct (has_undefined patientToSave); [by left |]. simpl.
  destruct (available st); [| by left]. simpl.
  right. eexists. split; [reflexivity |].
  rewrite lookup_fmap. unfold patientToSave.
  rewrite !lookup_insert_ne by done.
  rewrite lookup_union_r.
  - by simpl_map.
  - unfold optionalFields.
    repeat match goal with
           | |- context [match ?o with Some _ => _ | None => _ end] => destruct o
           | |- context [if ?b then _ else _] => destruct b
           end; by simpl_map.
Qed.

Lemma getPatient_documents (userId patientId : string) (now : Z) (st : state) :
  documents (PatientService.getPatient userId patientId now st).2 = documents st.
Proof.
  by destruct (getPatient_cases userId patientId now st)
    as [-> | (? & ? & _ & _ & _ & _ & ->)].
Qed.

Lemma getPatients_documents (userId : string) (filters : PatientSearchFilters.t)
    (now : Z) (st : state) :
  documents (PatientService.getPatients userId filters now st).2 = documents st.
Proof. by destruct (getPatients_returns userId filters now st) as (? & ? & ->). Qed.

Lemma searchPatients_documents (userId searchTerm : string) (maxResults : option Z)
    (now : Z) (st : state) :
  documents (PatientService.searchPatients userId searchTerm maxResults now st).2
  = documents st.
Proof.
  unfold PatientService.searchPatients.
  destruct (negb (truthy (trim searchTerm))); [reflexivity |].
  unfold bind.
  set (filters := {| PatientSearchFilters.searchTerm := _ |}).
  by destruct (getPatients_returns userId filters now st) as (? & ? & ->).
Qed.

(** What an operation does to the document under [id]: nothing, or it
    creates a document there, active, or it merges an update into the
    document that is there. *)
Lemma perform_lookup (st : state) (op : PatientService.operation) (id : string) :
  documents (PatientService.perform st op) !! id = documents st !! id
  \/ (exists userId patientData now stored,
        op = PatientService.Create userId patientData id now /\
        documents (PatientService.perform st op) !! id = Some stored /\
        stored !! "status" = Some (VString "active"))
  \/ (exists userId updates now old,
        (op = PatientService.Update userId id updates now \/
         op = PatientService.Deactivate userId id now /\
           updates = PatientService.status_only inactive \/
         op = PatientService.Reactivate userId id now /\
           updates = PatientService.status_only active) /\
        documents st !! id = Some old /\
        documents (PatientService.perform st op) !! id
        = Some ((resolve (serverTime st) <$> PatientService.updateData updates) ∪ old)).
Proof.
  assert (Hupdate :
    forall userId patientId updates now,
      documents (PatientService.updatePatient userId patientId updates now st).2 !! id
      = documents st !! id
      \/ patientId = id /\ exists old,
           documents st !! id = Some old /\
           documents (PatientService.updatePatient userId patientId updates now st).2 !! id
           = Some ((resolve (serverTime st) <$> PatientService.updateData updates) ∪ old)).
  { intros userId patientId updates now.
    destruct (updatePatient_cases userId patientId updates now st)
      as [(message & st' & -> & Hdocs) | (old & _ & Hdoc & _ & _ & ->)]; simpl.
    - left. by rewrite Hdocs.
    - destruct (decide (patientId = id)) as [-> | Hne].
      + right. split; [done |]. exists old. by rewrite lookup_insert_eq.
      + left. by rewrite lookup_insert_ne. }
  destruct op as [userId patientData newId now | userId patientId now
                 | userId filters now | userId patientId updates now
                 | userId patientId now | userId patientId now
                 | userId searchTerm maxResults now | time | b]; simpl.
  - destruct (createPatient_documents userId patientData newId now st)
      as [-> | (stored & -> & Hstatus)]; [by left |].
    destruct (decide (newId = id)) as [-> | Hne].
    + right. left. exists userId, patientData, now, stored.
      by rewrite lookup_insert_eq.
    + left. by rewrite lookup_insert_ne.
  - left. by rewrite getPatient_documents.
  - left. by rewrite getPatients_documents.
  - destruct (Hupdate userId patientId updates now) as [? | (-> & old & ? & ?)];
      [by left |].
    right. right. exists userId, updates, now, old. by split_and!; [left | |].
  - destruct (Hupdate userId patientId (PatientService.status_only inactive) now)
      as [? | (-> & old & ? & ?)]; [by left |].
    right. right. exists userId, (PatientService.status_only inactive), now, old.
    split_and!; [right; by left | done | done].
  - destruct (Hupdate userId patientId (PatientService.status_only active) now)
      as [? | (-> & old & ? & ?)]; [by left |].
    right. right. exists userId, (PatientService.status_only active), now, old.
    split_and!; [right; by right | done | done].
  - left. by rewrite searchPatients_documents.
  - by left.
  - by left.
Qed.


Lemma perform_all_cons (st : state) (op : PatientService.operation)
    (ops : list PatientService.operation) :
  PatientService.perform_all st (op :: ops)
  = PatientService.perform_all (PatientService.perform st op) ops.
Proof. reflexivity. Qed.

(** No operation removes a document. *)
Lemma perform_keeps_documents (st : state) (op : PatientService.operation) :
  dom (documents st) ⊆ dom (documents (PatientService.perform st op)).
Proof.
  intros id. rewrite !elem_of_dom. intros Hid.
  destruct (perform_lookup st op id)
    as [-> | [(? & ? & ? & ? & _ & -> & _) | (? & ? & ? & ? & _ & _ & ->)]]; by eauto.
Qed.

Lemma perform_all_keeps_documents (st : state) (ops : list PatientService.operation) :
  dom (documents st) ⊆ dom (documents (PatientService.perform_all st ops)).
Proof.
  revert st. induction ops as [| op ops IH]; intros st; [done |].
  rewrite perform_all_cons. etrans; [apply perform_keeps_documents | apply IH].
Qed.

(** No operation takes a record out of the two states. *)
Lemma perform_two_states (st : state) (op : PatientService.operation) :
  two_states st -> two_states (PatientService.perform st op).
Proof.
  intros Hst id data Hdata.
  destruct (perform_lookup st op id)
    as [Hsame | [(? & ? & ? & stored & _ & Hnew & Hstatus)
                | (? & updates & ? & old & _ & Hold & Hnew)]].
  - rewrite Hsame in Hdata. by apply (Hst id).
  - rewrite Hnew in Hdata. injection Hdata as <-. by left.
  - rewrite Hnew in Hdata. injection Hdata as <-. rewrite merged_status.
    destruct (UpdatePatientRequest.status updates) as [[] |];
      [by left | by right | by apply (Hst id)].
Qed.

Lemma perform_all_two_states (st : state) (ops : list PatientService.operation) :
  two_states st -> two_states (PatientService.perform_all st ops).
Proof.
  revert st. induction ops as [| op ops IH]; intros st Hst; [done |].
  rewrite perform_all_cons. by apply IH, perform_two_states.
Qed.

(** A record that is inactive stays so under an operation that does not
    restore it. *)
Lemma perform_keeps_inactive (st : state) (op : PatientService.operation)
    (patientId : string) :
  restores patientId op = false ->
  has_status st patientId inactive ->
  has_status (PatientService.perform st op) patientId inactive.
Proof.
  intros Hop (data & Hdata & Hstatus). unfold has_status.
  destruct (perform_lookup st op patientId)
    as [-> | [(? & ? & ? & ? & -> & _ & _)
             | (? & updates & ? & old & Hkind & Hold & ->)]].
  - by exists data.
  - simpl in Hop. by rewrite bool_decide_eq_true_2 in Hop.
  - eexists. split; [reflexivity |]. rewrite merged_status.
    rewrite Hdata in Hold. injection Hold as <-.
    destruct Hkind as [-> | [[-> ->] | [-> ->]]]; simpl in Hop.
    + rewrite bool_decide_eq_true_2 in Hop by done. simpl in Hop.
      apply bool_decide_eq_false_1 in Hop.
      by destruct (UpdatePatientRequest.status updates) as [[] |].
    + done.
    + by rewrite bool_decide_eq_true_2 in Hop.
Qed.

Lemma perform_all_keeps_inactive (st : state) (ops : list PatientService.operation)
    (patientId : string) :
  Forall (fun op => restores patientId op = false) ops ->
  has_status st patientId inactive ->
  has_status (PatientService.perform_all st ops) patientId inactive.
Proof.
  revert st. induction ops as [| op ops IH]; intros st Hops Hst; [done |].
  apply Forall_cons in Hops as [Hop Hops].
  rewrite perform_all_cons. by apply IH, perform_keeps_inactive.
Qed.

(** A call of [updatePatient], in either revision, goes through when
    the store can be reached and the document is the caller's and has
    well-formed dates. *)
Lemma update_succeeds (userId patientId : string) (data : object)
    (handler : string -> M unit) (now : Z) (st : state) (old : object) :
  has_undefined data = false ->
  available st = true ->
  documents st !! patientId = Some old ->
  old !! "createdBy" = Some (VString userId) ->
  (exists patient, snapshot_patient patientId old now = Returned patient) ->
  try_catch
    (bind (PatientService.getPatient userId patientId now)
       (fun existingPatient =>
          match existingPatient with
          | None => throw "Patient not found or access denied"
          | Some _ => updateDoc patientId data
          end))
    handler st =
  (Returned tt,
   with_documents
     (<[patientId := (resolve (serverTime st) <$> data) ∪ old]> (documents st))
     (with_call (UpdateDoc patientId) (with_call (GetDoc patientId) st))).
Proof.
  intros Hdata Hup Hdoc Howner [patient Hsnap].
  unfold PatientService.getPatient, try_catch, bind.
  rewrite getDoc_run, Hup, Hdoc.
  rewrite (proj2 (strict_eq_string_true _ _) Howner). simpl.
  unfold lift. rewrite Hsnap. simpl.
  rewrite updateDoc_run by done. simpl.
  by rewrite Hup, Hdoc.
Qed.

Lemma updatePatient_succeeds (userId patientId : string)
    (updates : UpdatePatientRequest.t) (now : Z) (st : state) (old : object) :
  available st = true ->
  documents st !! patientId = Some old ->
  old !! "createdBy" = Some (VString userId) ->
  (exists patient, snapshot_patient patientId old now = Returned patient) ->
  PatientService.updatePatient userId patientId updates now st =
  (Returned tt,
   with_documents
     (<[patientId := (resolve (serverTime st) <$> PatientService.updateData updates) ∪ old]>
        (documents st))
     (with_call (UpdateDoc patientId) (with_call (GetDoc patientId) st))).
Proof. apply update_succeeds, updateData_defined. Qed.

Lemma earlier_updatePatient_succeeds (userId patientId : string)
    (updates : UpdatePatientRequest.t) (now : Z) (st : state) (old : object) :
  available st = true ->
  documents st !! patientId = Some old ->
  old !! "createdBy" = Some (VString userId) ->
  (exists patient, snapshot_patient patientId old now = Returned patient) ->
  EarlierPatientService.updatePatient userId patientId updates now st =
  (Returned tt,
   with_documents
     (<[patientId := (resolve (serverTime st) <$> EarlierPatientService.updateData updates) ∪ old]>
        (documents st))
     (with_call (UpdateDoc patientId) (with_call (GetDoc patientId) st))).
Proof. apply update_succeeds, earlier_updateData_defined. Qed.

Lemma toDate_or_now_any_time (field : option value) (now now' : Z) (v : value) :
  toDate_or_now field now = Returned v ->
  exists v', toDate_or_now field now' = Returned v'.
Proof. destruct field as [[] |]; simpl; intros [=]; by eexists. Qed.

(** A merge of an update object leaves the owner, and leaves the dates
    well formed. *)
Lemma merged_record (time : Z) (updates : UpdatePatientRequest.t) (old : object)
    (patientId : string) (now now' : Z) :
  let new := (resolve time <$> PatientService.updateData updates) ∪ old in
  (exists patient, snapshot_patient patientId old now = Returned patient) ->
  new !! "createdBy" = old !! "createdBy" /\
  exists patient', snapshot_patient patientId new now' = Returned patient'.
Proof.
  intros new [patient Hsnap].
  assert (Hfields :
    new !! "createdBy" = old !! "createdBy" /\
    new !! "createdAt" = old !! "createdAt" /\
    new !! "lastModified" = Some (VTimestamp time)).
  { unfold new. rewrite !lookup_union, !lookup_fmap.
    destruct updates as [[name |] [mrn |] [dob |] [gender |] [status |]];
      unfold PatientService.updateData; simpl;
      repeat match goal with |- context [negb ?b] => destruct b; simpl end;
      simpl_map; simpl;
      by destruct (old !! "createdBy"), (old !! "createdAt"), (old !! "lastModified"). }
  destruct Hfields as (Howner & Hcreated & Hmodified).
  split; [exact Howner |].
  unfold snapshot_patient in *. rewrite Hcreated, Hmodified.
  destruct (toDate_or_now (old !! "createdAt") now) as [v |] eqn:Hv; [| discriminate].
  destruct (toDate_or_now_any_time _ now now' v Hv) as [v' ->].
  simpl. by eexists.
Qed.


(** C8.  Once [deactivatePatient] has gone through for a record, and
    for as long as no later operation restores it, the record is in the
    store with status ['inactive'] and no listing with the filter
    [status: 'active'], by any user, returns it: every patient listed
    has status ['active'] and comes from another document.  Along the
    way no document is removed, the records stay within the two states
    ['active'] and ['inactive'], and [reactivatePatient] takes the
    record back to ['active']. *)
Theorem deactivated_never_listed_active (st st1 : state)
    (userId patientId : string) (now : Z) (ops : list PatientService.operation) :
  PatientService.deactivatePatient userId patientId now st = (Returned tt, st1) ->
  Forall (fun op => restores patientId op = false) ops ->
  let st2 := PatientService.perform_all st1 ops in
  has_status st2 patientId inactive /\
  (forall viewer filters now',
     PatientSearchFilters.status filters = Some active ->
     exists patients,
       (PatientService.getPatients viewer filters now' st2).1 = Returned patients /\
       Forall (fun patient =>
                 patient !! "status" = Some (VString "active") /\
                 exists id data,
                   id <> patientId /\
                   documents st2 !! id = Some data /\
                   snapshot_patient id data now' = Returned patient) patients) /\
  dom (documents st) ⊆ dom (documents st2) /\
  (two_states st -> two_states st2) /\
  (exists st3,
     PatientService.reactivatePatient userId patientId now st1 = (Returned tt, st3) /\
     has_status st3 patientId active).
Proof.
  intros Hdeactivate Hops st2.
  unfold PatientService.deactivatePatient in Hdeactivate.
  destruct (updatePatient_cases userId patientId (PatientService.status_only inactive) now st)
    as [(message & st' & Hthrew & _) | (old & Hup & Hold & Howner & Hsnap & Hdone)].
  { rewrite Hthrew in Hdeactivate. discriminate. }
  rewrite Hdone in Hdeactivate. injection Hdeactivate as Hst1.
  set (new := (resolve (serverTime st) <$>
               PatientService.updateData (PatientService.status_only inactive)) ∪ old)
    in Hst1.
  assert (Hnew : documents st1 !! patientId = Some new).
  { rewrite <- Hst1. simpl. by rewrite lookup_insert_eq. }
  assert (Hinactive1 : has_status st1 patientId inactive).
  { exists new. split; [exact Hnew |]. unfold new. by rewrite merged_status. }
  assert (Hinactive2 : has_status st2 patientId inactive)
    by by apply perform_all_keeps_inactive.
  assert (Hstep : st1 = PatientService.perform st (PatientService.Deactivate userId patientId now)).
  { simpl. unfold PatientService.deactivatePatient. by rewrite Hdone. }
  split_and!.
  - exact Hinactive2.
  - intros viewer filters now' Hfilter.
    destruct (getPatients_sound viewer filters now' st2) as (patients & Hret & Hall).
    exists patients. split; [exact Hret |].
    eapply Forall_impl; [exact Hall |].
    intros patient Hlisted.
    split; [by apply (listed_fields st2 viewer filters now' patient active) |].
    destruct Hlisted as (id & data & Hdata & _ & Hstatus & Hpatient).
    exists id, data. split_and!; [| done | done].
    intros ->. destruct Hinactive2 as (data' & Hdata' & Hstatus').
    rewrite Hdata in Hdata'. injection Hdata' as <-.
    rewrite (Hstatus active Hfilter) in Hstatus'. discriminate.
  - etrans; [| apply perform_all_keeps_documents].
    rewrite Hstep. apply perform_keeps_documents.
  - intros Htwo. apply perform_all_two_states. rewrite Hstep.
    by apply perform_two_states.
  - destruct (merged_record (serverTime st) (PatientService.status_only inactive)
                old patientId now now Hsnap) as [Howner' Hsnap'].
    fold new in Howner', Hsnap'.
    eexists. split.
    + unfold PatientService.reactivatePatient.
      apply (updatePatient_succeeds _ _ _ _ _ new); [| done | | done].
      * by rewrite <- Hst1.
      * by rewrite Howner'.
    + eexists. split; [simpl; by rewrite lookup_insert_eq |].
      by rewrite merged_status.
Qed.


Lemma deactivated_never_listed_active_witness :
  let data : object :=
    <["status" := VString "active"]>
      (<["createdBy" := VString "userA"]> (<["name" := VString "Jane Doe"]> ∅)) in
  let st := {| documents := <["p1" := data]> ∅; serverTime := 7;
               available := true; calls := [] |} in
  let st1 := (PatientService.deactivatePatient "userA" "p1" 0 st).2 in
  let rename :=
    {| UpdatePatientRequest.name := Some "Jane Roe";
       UpdatePatientRequest.mrn := None;
       UpdatePatientRequest.dob := None;
       UpdatePatientRequest.gender := None;
       UpdatePatientRequest.status := None |} in
  let ops := [PatientService.Update "userA" "p1" rename 1;
              PatientService.Reactivate "userB" "p2" 2] in
  let st2 := PatientService.perform_all st1 ops in
  PatientService.deactivatePatient "userA" "p1" 0 st = (Returned tt, st1) /\
  Forall (fun op => restores "p1" op = false) ops /\
  has_status st2 "p1" inactive /\
  (forall viewer filters now',
     PatientSearchFilters.status filters = Some active ->
     exists patients,
       (PatientService.getPatients viewer filters now' st2).1 = Returned patients /\
       Forall (fun patient =>
                 patient !! "status" = Some (VString "active") /\
                 exists id data,
                   id <> "p1" /\
                   documents st2 !! id = Some data /\
                   snapshot_patient id data now' = Returned patient) patients).
Proof.
  intros data st st1 rename ops st2.
  assert (Hdeactivate :
    PatientService.deactivatePatient "userA" "p1" 0 st = (Returned tt, st1))
    by (by vm_compute).
  assert (Hops : Forall (fun op => restores "p1" op = false) ops)
    by (repeat constructor).
  split; [exact Hdeactivate | split; [exact Hops |]].
  destruct (deactivated_never_listed_active st st1 "userA" "p1" 0 ops Hdeactivate Hops)
    as (Hinactive & Hlisting & _).
  split; [exact Hinactive | exact Hlisting].
Defined.

(** *** The two revisions of [updatePatient] *)

(** An update that gives the MRN as a blank string, and goes through:
    the current revision leaves the stored MRN as it was, the earlier
    one overwrites it with [null]. *)
Lemma blank_mrn_update (st : state) (userId patientId : string)
    (updates : UpdatePatientRequest.t) (now : Z) (old : object) (text : string) :
  available st = true ->
  documents st !! patientId = Some old ->
  old !! "createdBy" = Some (VString userId) ->
  (exists patient, snapshot_patient patientId old now = Returned patient) ->
  UpdatePatientRequest.mrn updates = Some text ->
  blank text ->
  (exists st' new,
     PatientService.updatePatient userId patientId updates now st = (Returned tt, st') /\
     documents st' !! patientId = Some new /\
     new !! "mrn" = old !! "mrn") /\
  (exists st' new,
     EarlierPatientService.updatePatient userId patientId updates now st = (Returned tt, st') /\
     documents st' !! patientId = Some new /\
     new !! "mrn" = Some VNull).
Proof.
  intros Hup Hdoc Howner Hsnap Hmrn Hblank. split.
  - eexists _, _. split; [by apply updatePatient_succeeds |].
    split; [simpl; by rewrite lookup_insert_eq |].
    rewrite lookup_union, lookup_fmap.
    rewrite (updateData_blank_mrn updates text Hmrn Hblank).
    by destruct (old !! "mrn").
  - eexists _, _. split; [by apply earlier_updatePatient_succeeds |].
    split; [simpl; by rewrite lookup_insert_eq |].
    rewrite lookup_union, lookup_fmap.
    rewrite (earlier_updateData_blank_mrn updates text Hmrn Hblank).
    by destruct (old !! "mrn").
Qed.

(** C9.  The two revisions of [updatePatient] differ: on a record whose
    MRN is ["MRN-1"], the update [{ mrn: '' }] goes through in both, and
    afterwards the stored MRN is still ["MRN-1"] in the current
    revision and is [null] in the earlier one. *)
Theorem updatePatient_revisions_differ :
  exists (st : state) (userId patientId : string)
         (updates : UpdatePatientRequest.t) (now : Z) (old : object),
    documents st !! patientId = Some old /\
    old !! "mrn" = Some (VString "MRN-1") /\
    UpdatePatientRequest.mrn updates = Some "" /\
    (exists st' new,
       PatientService.updatePatient userId patientId updates now st = (Returned tt, st') /\
       documents st' !! patientId = Some new /\
       new !! "mrn" = Some (VString "MRN-1")) /\
    (exists st' new,
       EarlierPatientService.updatePatient userId patientId updates now st = (Returned tt, st') /\
       documents st' !! patientId = Some new /\
       new !! "mrn" = Some VNull).
Proof.
  set (old := (<["mrn" := VString "MRN-1"]>
                 (<["status" := VString "active"]>
                    (<["createdBy" := VString "userA"]>
                       (<["name" := VString "Jane Doe"]> ∅))) : object)).
  set (st := {| documents := <["p1" := old]> ∅; serverTime := 7;
                available := true; calls := [] |}).
  set (updates := {| UpdatePatientRequest.name := None;
                     UpdatePatientRequest.mrn := Some "";
                     UpdatePatientRequest.dob := None;
                     UpdatePatientRequest.gender := None;
                     UpdatePatientRequest.status := None |}).
  exists st, "userA", "p1", updates, 0%Z, old.
  assert (Hold : old !! "mrn" = Some (VString "MRN-1")) by (vm_compute; reflexivity).
  assert (Hdoc : documents st !! "p1" = Some old) by apply lookup_insert_eq.
  split; [exact Hdoc | split; [exact Hold | split; [reflexivity |]]].
  rewrite <- Hold.
  apply (blank_mrn_update st "userA" "p1" updates 0 old "").
  - reflexivity.
  - exact Hdoc.
  - vm_compute. reflexivity.
  - exists (match snapshot_patient "p1" old 0 with
            | Returned patient => patient
            | Threw _ => ∅
            end).
    vm_compute. reflexivity.
  - reflexivity.
  - reflexivity.
Qed.

(** *** The earlier revision of [createPatient] *)

(** The earlier revision puts [undefined] under every optional field
    that is omitted or empty, and the store refuses such data: the call
    throws and nothing is written. *)
Lemma earlier_createPatient_rejects_omitted (st : state) (userId : string)
    (patientData : CreatePatientRequest.t) (newId : string) (now : Z) :
  truthy_opt (trim <$> CreatePatientRequest.mrn patientData) = false \/
  truthy_opt (CreatePatientRequest.dob patientData) = false \/
  CreatePatientRequest.gender patientData = None ->
  exists st',
    EarlierPatientService.createPatient userId patientData newId now st
    = (Threw "Failed to create patient", st') /\
    documents st' = documents st.
Proof.
  intros Homitted.
  unfold EarlierPatientService.createPatient, try_catch, bind.
  set (patient := <["status" := VString "active"]> _).
  assert (Hundef : has_undefined
            (<["lastModified" := VServerTimestamp]>
               (<["createdAt" := VServerTimestamp]> patient)) = true).
  { unfold has_undefined. apply bool_decide_eq_true_2, map_Exists_lookup.
    assert (Hor : forall o, truthy_opt o = false ->
                            EarlierPatientService.or_undefined o = VUndefined).
    { intros [x |]; simpl; [by intros -> | done]. }
    destruct Homitted as [Hmrn | [Hdob | Hgender]].
    - exists "mrn", VUndefined. split; [| reflexivity].
      unfold patient. rewrite !lookup_insert_ne by done.
      rewrite lookup_insert_eq. by rewrite (Hor _ Hmrn).
    - exists "dob", VUndefined. split; [| reflexivity].
      unfold patient. rewrite !lookup_insert_ne by done.
      rewrite lookup_insert_eq. by rewrite (Hor _ Hdob).
    - exists "gender", VUndefined. split; [| reflexivity].
      unfold patient. rewrite !lookup_insert_ne by done.
      rewrite lookup_insert_eq. by rewrite Hgender. }
  unfold setDoc, bind, record_call, validate. rewrite Hundef. simpl.
  eexists. split; reflexivity.
Qed.

(** With the three optional fields given, the earlier revision stores
    the date of birth as it is, a blank one included. *)
Lemma earlier_createPatient_keeps_blank_dob :
  let st := {| documents := ∅; serverTime := 7; available := true; calls := [] |} in
  let patientData :=
    {| CreatePatientRequest.name := "Jane Doe";
       CreatePatientRequest.mrn := Some "MRN-1";
       CreatePatientRequest.dob := Some "  ";
       CreatePatientRequest.gender := Some female |} in
  let result := EarlierPatientService.createPatient "userA" patientData "p1" 0 st in
  blank "  " /\
  match result.1 with
  | Returned patient => patient !! "dob" = Some (VString "  ")
  | Threw _ => False
  end /\
  (documents result.2 !! "p1") ≫= (fun stored => stored !! "dob")
  = Some (VString "  ").
Proof.
  intros st patientData result. split; [reflexivity |].
  split; vm_compute; reflexivity.
Qed.

(** A bound below zero counts from the end of the list, as
    [Array.prototype.slice] does. *)
Lemma slice_to_negative :
  slice_to ["a"; "b"; "c"] (-1) = ["a"; "b"].
Proof. reflexivity. Qed.

End DirectoryProperties.

(** * Further properties *)

(** ** The endpoint *)

Module RouteExtras.

Import JS Route RouteProperties.

Lemma string_app_inv_tail (a b c : string) : a +:+ c = b +:+ c -> a = b.
Proof.
  revert b. induction a as [| x a IH]; intros [| y b] Heq.
  - reflexivity.
  - apply (f_equal String.length) in Heq.
    rewrite string_app_nil, string_app_cons in Heq. simpl in Heq.
    rewrite string_app_length in Heq. lia.
  - apply (f_equal String.length) in Heq.
    rewrite string_app_nil, string_app_cons in Heq. simpl in Heq.
    rewrite string_app_length in Heq. lia.
  - rewrite !string_app_cons in Heq. injection Heq as -> Heq.
    f_equal. by apply IH.
Qed.

(** X1.  What [POST] answers, for any environment and request: 400 for
    a missing transcript and 500 for a missing credential, both
    without calling the generator; 500 with the fixed message after at
    most one call; or 200 with the very text the generator returned for
    the one prompt it was called with.  So the generator is never
    called twice, and an error body is one of three fixed messages. *)
Theorem POST_responses (env : Env) (request : Request) :
  let response := (POST env request).1 in
  let prompts := (POST env request).2 in
  (response = {| body := ErrorBody "Transcript is required"; status := 400 |}
   /\ prompts = [])
  \/ (response = {| body := ErrorBody "Gemini API key not configured"; status := 500 |}
      /\ prompts = [])
  \/ (response = {| body := ErrorBody "Failed to generate note"; status := 500 |}
      /\ (prompts = [] \/
          exists prompt message,
            prompts = [prompt] /\ generateContent env prompt = Threw message))
  \/ (exists note prompt r,
        request = Json r /\
        response = {| body := NoteBody note (patientContext r); status := 200 |} /\
        prompts = [prompt] /\
        generateContent env prompt = Returned note).
Proof.
  destruct request as [| r]; simpl.
  - right. right. left. split; [reflexivity | by left].
  - destruct (truthy_opt (transcript r)); simpl; [| by left].
    destruct (truthy_opt (GOOGLE_GEMINI_API_KEY env)); simpl; [| right; by left].
    destruct (generateContent env _) as [note | message] eqn:Hgen; simpl.
    + right. right. right. by eexists note, _, r.
    + right. right. left. split; [reflexivity |]. right. by eexists _, message.
Qed.

(** X2.  The transcript goes into the prompt whole: with the context,
    the snapshot and the previous note fixed, two transcripts that give
    the same prompt are the same transcript. *)
Theorem composePrompt_transcript_injective (context : option string)
    (previousNote : option string) (patientContext : option PatientContext)
    (t1 t2 : string) :
  composePrompt context t1 previousNote patientContext
  = composePrompt context t2 previousNote patientContext ->
  t1 = t2.
Proof.
  rewrite !composePrompt_sections. intros Heq.
  apply String.app_inj in Heq. apply String.app_inj in Heq.
  by apply string_app_inv_tail in Heq.
Qed.

Lemma composePrompt_transcript_injective_witness :
  composePrompt (Some "dbh-intake") "a" None None
  = composePrompt (Some "dbh-intake") "a" None None /\ "a" = "a".
Proof.
  split; [reflexivity |].
  exact (composePrompt_transcript_injective (Some "dbh-intake") None None "a" "a" eq_refl).
Defined.

(** The fields of a snapshot that reach the prompt: the name, and each
    optional field that is present and not empty. *)
Lemma patient_block_depends (pc pc' : PatientContext) :
  patientName pc = patientName pc' ->
  (forall field, field ∈ [patientMRN; patientDOB; patientGender] ->
     truthy_opt (field pc) = truthy_opt (field pc') /\
     (truthy_opt (field pc) = true -> field pc = field pc')) ->
  patient_block (Some pc) = patient_block (Some pc').
Proof.
  intros Hname Hfields. unfold patient_block. rewrite Hname.
  assert (Hline : forall label field,
            field ∈ [patientMRN; patientDOB; patientGender] ->
            optional_line label (field pc) = optional_line label (field pc')).
  { intros label field Hin. destruct (Hfields field Hin) as [Htruthy Hsame].
    unfold optional_line.
    destruct (field pc) as [v |] eqn:Hv, (field pc') as [v' |] eqn:Hv';
      simpl in *.
    - destruct (truthy v) eqn:Ht.
      + specialize (Hsame eq_refl). injection Hsame as <-. by rewrite Ht.
      + by rewrite <- Htruthy.
    - by rewrite Htruthy.
    - by rewrite <- Htruthy.
    - reflexivity. }
  rewrite (Hline "MRN: " patientMRN), (Hline "Date of Birth: " patientDOB),
    (Hline "Gender: " patientGender); [reflexivity | by repeat constructor..].
Qed.

(** X3.  The prompt depends on the patient snapshot only through the
    name and the optional fields that are present and not empty: the
    patient id never reaches it, and a field given as the empty string
    is the same as a field left out. *)
Theorem composePrompt_snapshot_dependence (context : option string)
    (transcript : string) (previousNote : option string) (pc pc' : PatientContext) :
  patientName pc = patientName pc' ->
  (forall field, field ∈ [patientMRN; patientDOB; patientGender] ->
     truthy_opt (field pc) = truthy_opt (field pc') /\
     (truthy_opt (field pc) = true -> field pc = field pc')) ->
  composePrompt context transcript previousNote (Some pc)
  = composePrompt context transcript previousNote (Some pc').
Proof.
  intros Hname Hfields. rewrite !composePrompt_sections.
  by rewrite (patient_block_depends pc pc' Hname Hfields).
Qed.

Lemma composePrompt_snapshot_dependence_witness :
  let pc := {| patientId := "p1"; patientName := "Jane Doe";
               patientMRN := Some ""; patientDOB := None;
               patientGender := Some "female" |} in
  let pc' := {| patientId := "p2"; patientName := "Jane Doe";
                patientMRN := None; patientDOB := Some "";
                patientGender := Some "female" |} in
  composePrompt (Some "dbh-intake") "text" None (Some pc)
  = composePrompt (Some "dbh-intake") "text" None (Some pc').
Proof.
  intros pc pc'.
  apply (composePrompt_snapshot_dependence (Some "dbh-intake") "text" None pc pc').
  - reflexivity.
  - intros field Hin.
    apply elem_of_cons in Hin as [-> | Hin]; [by split |].
    apply elem_of_cons in Hin as [-> | Hin]; [by split |].
    apply elem_of_cons in Hin as [-> | Hin]; [by split |].
    by apply elem_of_nil in Hin.
Defined.

End RouteExtras.

(** ** The directory *)

Module DirectoryExtras.

Import JS Firestore FirestoreCalls PatientTypes ServiceCommon DirectorySpec.
Import DirectoryProperties DirectoryNotions.

(** *** Creating and reading back *)

(** The document a valid [createPatient] writes and the record it
    returns: the three base fields, the two dates, and the optional
    fields as the request gives them. *)
Lemma createPatient_valid (st : state) (userId : string)
    (patientData : CreatePatientRequest.t) (newId : string) (now : Z) :
  ~ blank (CreatePatientRequest.name patientData) ->
  userId <> "" ->
  available st = true ->
  exists optionalFields : object,
    holds_optional (CreatePatientRequest.mrn patientData) (optionalFields !! "mrn") /\
    holds_optional (CreatePatientRequest.dob patientData) (optionalFields !! "dob") /\
    holds_gender (CreatePatientRequest.gender patientData) (optionalFields !! "gender") /\
    (forall k, k <> "mrn" -> k <> "dob" -> k <> "gender" -> optionalFields !! k = None) /\
    (forall k, optionalFields !! k <> Some (VString "")) /\
    (forall k v, optionalFields !! k = Some v -> resolve (serverTime st) v = v) /\
    let base : object :=
      <["status" := VString "active"]>
        (<["createdBy" := VString userId]>
           (<["name" := VString (trim (CreatePatientRequest.name patientData))]> ∅)) in
    PatientService.createPatient userId patientData newId now st
    = (Returned (<["lastModified" := VDate now]>
                   (<["createdAt" := VDate now]>
                      (optionalFields ∪ (base ∪ {["id" := VString newId]})))),
       with_documents
         (<[newId := resolve (serverTime st) <$>
                     <["lastModified" := VServerTimestamp]>
                       (<["createdAt" := VServerTimestamp]> (optionalFields ∪ base))]>
            (documents st))
         (with_call (SetDoc newId) st)).
Proof.
  intros Hname Huser Hup.
  destruct patientData as [name mrn dob gender]. simpl in *.
  unfold PatientService.createPatient, try_catch, bind. simpl.
  rewrite (proj2 (trim_truthy name) Hname), (proj2 (truthy_true userId) Huser). simpl.
  set (optionalFields := match gender with Some _ => _ | None => _ end).
  assert (Hfields :
    holds_optional mrn (optionalFields !! "mrn") /\
    holds_optional dob (optionalFields !! "dob") /\
    holds_gender gender (optionalFields !! "gender") /\
    (forall k, k <> "mrn" -> k <> "dob" -> k <> "gender" -> optionalFields !! k = None) /\
    (forall k, optionalFields !! k <> Some (VString "")) /\
    (forall k v, optionalFields !! k = Some v -> resolve (serverTime st) v = v) /\
    has_undefined optionalFields = false).
  { assert (Hcases :
      exists om od og : option string,
        optionalFields
        = (match og with Some g => <["gender" := VString g]> | None => id end)
            ((match od with Some d => <["dob" := VString d]> | None => id end)
               ((match om with Some m => <["mrn" := VString m]> | None => id end) ∅))
        /\ holds_optional mrn (VString <$> om)
        /\ holds_optional dob (VString <$> od)
        /\ holds_gender gender (VString <$> og)
        /\ om <> Some "" /\ od <> Some "" /\ og <> Some "").
    { exists (match mrn with
              | Some text => if truthy (trim text) then Some (trim text) else None
              | None => None
              end),
             (match dob with
              | Some text => if truthy (trim text) then Some (trim text) else None
              | None => None
              end),
             (Gender_string <$> gender).
      split_and!.
      - unfold optionalFields.
        destruct gender as [[] |], dob as [d |], mrn as [m |]; simpl;
          repeat match goal with |- context [truthy ?s] => destruct (truthy s) end;
          reflexivity.
      - destruct mrn as [text |]; [| apply holds_optional_absent; by left].
        destruct (truthy (trim text)) eqn:Ht.
        + apply holds_optional_present. by apply trim_truthy.
        + apply holds_optional_absent. right. exists text.
          split; [done | by apply trim_falsy].
      - destruct dob as [text |]; [| apply holds_optional_absent; by left].
        destruct (truthy (trim text)) eqn:Ht.
        + apply holds_optional_present. by apply trim_truthy.
        + apply holds_optional_absent. right. exists text.
          split; [done | by apply trim_falsy].
      - destruct gender as [g |]; simpl.
        + split_and!; [done | by intros g' [= <-] | by destruct g].
        + by split_and!.
      - destruct mrn as [text |]; [| done].
        destruct (truthy (trim text)) eqn:Ht; [| done].
        apply truthy_true in Ht. congruence.
      - destruct dob as [text |]; [| done].
        destruct (truthy (trim text)) eqn:Ht; [| done].
        apply truthy_true in Ht. congruence.
      - by destruct gender as [[] |]. }
    destruct Hcases as (om & od & og & -> & Hm & Hd & Hg & Hmne & Hdne & Hgne).
    destruct om as [m |], od as [d |], og as [g |]; simpl;
      (split_and!;
       [ by simpl_map | by simpl_map | by simpl_map
       | intros k ? ? ?; by simpl_map
       | intros k;
         destruct (decide (k = "mrn")) as [-> |];
         [simpl_map; congruence |];
         destruct (decide (k = "dob")) as [-> |];
         [simpl_map; congruence |];
         destruct (decide (k = "gender")) as [-> |];
         [simpl_map; congruence |];
         by simpl_map
       | intros k v;
         destruct (decide (k = "mrn")) as [-> |];
         [simpl_map; by intros; simplify_eq |];
         destruct (decide (k = "dob")) as [-> |];
         [simpl_map; by intros; simplify_eq |];
         destruct (decide (k = "gender")) as [-> |];
         [simpl_map; by intros; simplify_eq |];
         by simpl_map
       | by no_undefined ]). }
  destruct Hfields as (Hm & Hd & Hg & Hother & Hne & Hres & Hdef).
  clearbody optionalFields.
  exists optionalFields. split_and!; try done.
  simpl. rewrite setDoc_run; [reflexivity | by no_undefined | exact Hup].
Qed.


(** [getPatient] as one expression. *)
Lemma getPatient_run (userId patientId : string) (now : Z) (st : state) :
  PatientService.getPatient userId patientId now st =
  (Returned
     (if available st
      then match documents st !! patientId with
           | Some data =>
               if strict_eq_string (data !! "createdBy") userId
               then match snapshot_patient patientId data now with
                    | Returned patient => Some patient
                    | Threw _ => None
                    end
               else None
           | None => None
           end
      else None),
   with_call (GetDoc patientId) st).
Proof.
  unfold PatientService.getPatient, try_catch, bind. rewrite getDoc_run.
  destruct (available st); [| reflexivity].
  destruct (documents st !! patientId) as [data |]; [| reflexivity].
  destruct (strict_eq_string (data !! "createdBy") userId); [| reflexivity].
  simpl. unfold lift. by destruct (snapshot_patient patientId data now).
Qed.

(** X4.  [createPatient] with a blank name, or for an empty user id,
    throws with the message of the check that failed and does nothing
    else: the store is as it was and no call to it was made. *)
Theorem createPatient_rejects_invalid (st : state) (userId : string)
    (patientData : CreatePatientRequest.t) (newId : string) (now : Z) :
  blank (CreatePatientRequest.name patientData) \/ userId = "" ->
  PatientService.createPatient userId patientData newId now st =
  (Threw (if truthy (trim (CreatePatientRequest.name patientData))
          then "Failed to create patient: User ID is required for patient creation"
          else "Failed to create patient: Patient name is required"),
   st).
Proof.
  intros Hinvalid.
  unfold PatientService.createPatient, try_catch, bind.
  destruct (truthy (trim (CreatePatientRequest.name patientData))) eqn:Hname; simpl.
  - destruct Hinvalid as [Hblank | ->]; [| reflexivity].
    apply trim_falsy in Hblank. congruence.
  - reflexivity.
Qed.

Lemma createPatient_rejects_invalid_witness :
  let st := {| documents := ∅; serverTime := 0; available := true; calls := [] |} in
  let patientData :=
    {| CreatePatientRequest.name := "   ";
       CreatePatientRequest.mrn := Some "MRN-1";
       CreatePatientRequest.dob := None;
       CreatePatientRequest.gender := None |} in
  (blank "   " \/ "userA" = "") /\
  PatientService.createPatient "userA" patientData "p1" 0 st =
  (Threw "Failed to create patient: Patient name is required", st).
Proof.
  intros st patientData.
  assert (Hinvalid : blank "   " \/ "userA" = "") by (left; reflexivity).
  split; [exact Hinvalid |].
  exact (createPatient_rejects_invalid st "userA" patientData "p1" 0 Hinvalid).
Defined.

(** X5.  A patient that was created can be read back by its creator:
    [getPatient] returns a record with the new id, the trimmed name,
    the creator, status ['active'], the server's time of the write as
    both dates, and the optional fields as they were stored.  Any other
    user gets [null] for the same id. *)
Theorem created_patient_reads_back (st : state) (userId other : string)
    (patientData : CreatePatientRequest.t) (newId : string) (now now' : Z) :
  ~ blank (CreatePatientRequest.name patientData) ->
  userId <> "" ->
  available st = true ->
  other <> userId ->
  let st' := (PatientService.createPatient userId patientData newId now st).2 in
  (exists patient : object,
     (PatientService.getPatient userId newId now' st').1 = Returned (Some patient) /\
     patient !! "id" = Some (VString newId) /\
     patient !! "name" = Some (VString (trim (CreatePatientRequest.name patientData))) /\
     patient !! "createdBy" = Some (VString userId) /\
     patient !! "status" = Some (VString "active") /\
     patient !! "createdAt" = Some (VDate (serverTime st)) /\
     patient !! "lastModified" = Some (VDate (serverTime st)) /\
     holds_optional (CreatePatientRequest.mrn patientData) (patient !! "mrn") /\
     holds_optional (CreatePatientRequest.dob patientData) (patient !! "dob") /\
     holds_gender (CreatePatientRequest.gender patientData) (patient !! "gender")) /\
  (PatientService.getPatient other newId now' st').1 = Returned None.
Proof.
  intros Hname Huser Hup Hother st'.
  destruct (createPatient_valid st userId patientData newId now Hname Huser Hup)
    as (optionalFields & Hm & Hd & Hg & Hrest & _ & Hres & Hrun).
  simpl in Hrun. unfold st'. rewrite Hrun. clear Hrun st'. simpl.
  set (stored := resolve (serverTime st) <$> _).
  assert (Hopt : forall k, k <> "lastModified" -> k <> "createdAt" ->
                 is_Some (optionalFields !! k) ->
                 stored !! k = optionalFields !! k).
  { intros k H1 H2 [v Hv]. unfold stored.
    rewrite lookup_fmap, !lookup_insert_ne by done.
    rewrite (lookup_union_Some_l _ _ _ _ Hv), Hv. simpl. f_equal. by eapply Hres. }
  assert (Hnone : forall k, k <> "lastModified" -> k <> "createdAt" ->
                  k <> "status" -> k <> "createdBy" -> k <> "name" ->
                  optionalFields !! k = None -> stored !! k = None).
  { intros k H1 H2 H3 H4 H5 Hk. unfold stored.
    rewrite lookup_fmap, !lookup_insert_ne by done.
    rewrite lookup_union_r by done. by simpl_map. }
  assert (Hsame : forall k, k = "mrn" \/ k = "dob" \/ k = "gender" ->
                  stored !! k = optionalFields !! k).
  { intros k Hk. destruct (optionalFields !! k) as [v |] eqn:Hv.
    - rewrite <- Hv. apply Hopt; [| | by rewrite Hv];
        by destruct Hk as [-> | [-> | ->]].
    - apply Hnone; [..| exact Hv]; by destruct Hk as [-> | [-> | ->]]. }
  assert (Hbase :
    stored !! "name" = Some (VString (trim (CreatePatientRequest.name patientData))) /\
    stored !! "createdBy" = Some (VString userId) /\
    stored !! "status" = Some (VString "active") /\
    stored !! "createdAt" = Some (VTimestamp (serverTime st)) /\
    stored !! "lastModified" = Some (VTimestamp (serverTime st)) /\
    stored !! "id" = None).
  { unfold stored. rewrite !lookup_fmap. simpl_map.
    rewrite !lookup_union, !(Hrest "name"), !(Hrest "createdBy"),
      !(Hrest "status"), !(Hrest "id") by done.
    by simpl_map. }
  destruct Hbase as (Hsname & Hsowner & Hsstatus & Hscreated & Hsmodified & Hsid).
  clearbody stored.
  rewrite !getPatient_run. simpl. rewrite Hup, !lookup_insert_eq, Hsowner. simpl.
  rewrite String.eqb_refl.
  assert (Hne : (userId =? other) = false)
    by (apply String.eqb_neq; congruence).
  rewrite Hne. split; [| reflexivity].
  unfold snapshot_patient. rewrite Hscreated, Hsmodified. simpl.
  eexists. split; [reflexivity |].
  simpl_map. rewrite !lookup_union, !Hsame by tauto.
  rewrite !lookup_singleton_ne by done.
  split_and!; try done.
  - by destruct (optionalFields !! "mrn").
  - by destruct (optionalFields !! "dob").
  - by destruct (optionalFields !! "gender").
Qed.


Lemma created_patient_reads_back_witness :
  let st := {| documents := ∅; serverTime := 7; available := true; calls := [] |} in
  let patientData :=
    {| CreatePatientRequest.name := "  Jane Doe  ";
       CreatePatientRequest.mrn := Some "MRN-1";
       CreatePatientRequest.dob := None;
       CreatePatientRequest.gender := None |} in
  let st' := (PatientService.createPatient "userA" patientData "p1" 0 st).2 in
  (~ blank "  Jane Doe  " /\ "userA" <> "" /\ available st = true /\ "userB" <> "userA") /\
  (exists patient : object,
     (PatientService.getPatient "userA" "p1" 1 st').1 = Returned (Some patient) /\
     patient !! "id" = Some (VString "p1") /\
     patient !! "name" = Some (VString "Jane Doe")) /\
  (PatientService.getPatient "userB" "p1" 1 st').1 = Returned None.
Proof.
  intros st patientData st'.
  assert (Hname : ~ blank "  Jane Doe  ") by (intros Hb; vm_compute in Hb; discriminate).
  assert (Huser : "userA" <> "") by discriminate.
  assert (Hother : "userB" <> "userA") by discriminate.
  split; [by split_and! |].
  destruct (created_patient_reads_back st "userA" "userB" patientData "p1" 0 1
              Hname Huser eq_refl Hother)
    as [(patient & Hget & Hid & Hpname & _) Hforeign].
  split; [| exact Hforeign].
  exists patient. by split_and!.
Defined.

(** X6.  [getPatient] never throws and only reads: it makes one
    [getDoc] call and leaves the documents alone.  It returns a record
    exactly when the store can be reached, the document exists, its
    [createdBy] is the caller and its dates convert; the record is then
    the one built from that document. *)
Theorem getPatient_returns_own_record (st : state) (userId patientId : string)
    (now : Z) :
  exists result : option object,
    PatientService.getPatient userId patientId now st
    = (Returned result, with_call (GetDoc patientId) st) /\
    forall patient : object,
      result = Some patient <->
      available st = true /\
      exists data : object,
        documents st !! patientId = Some data /\
        data !! "createdBy" = Some (VString userId) /\
        snapshot_patient patientId data now = Returned patient.
Proof.
  eexists. split; [apply getPatient_run |].
  intros patient. destruct (available st); [| split; [done | by intros [? _]]].
  destruct (documents st !! patientId) as [data |];
    [| split; [done | by intros (_ & ? & ? & _)]].
  destruct (strict_eq_string (data !! "createdBy") userId) eqn:Howner.
  - apply strict_eq_string_true in Howner.
    destruct (snapshot_patient patientId data now) as [p | message] eqn:Hsnap.
    + split.
      * intros [= <-]. split; [done |]. by exists data.
      * intros (_ & data' & [= <-] & _ & Hsnap').
        rewrite Hsnap in Hsnap'. by injection Hsnap' as <-.
    + split; [done |]. intros (_ & data' & [= <-] & _ & Hsnap').
      by rewrite Hsnap in Hsnap'.
  - split; [done |]. intros (_ & data' & [= <-] & Howner' & _).
    apply strict_eq_string_true in Howner'. congruence.
Qed.

(** *** Listing *)

Lemma run_query_spec (q : Query) (docs : gmap string object) (entry : string * object) :
  entry ∈ run_query q docs <->
  docs !! entry.1 = Some entry.2 /\ matches q entry = true.
Proof.
  unfold run_query. rewrite merge_sort_Permutation.
  rewrite list_elem_of_In, filter_In, <- list_elem_of_In.
  by rewrite elem_of_map_to_list'.
Qed.

(** [getPatients] as one expression. *)
Lemma getPatients_run (userId : string) (filters : PatientSearchFilters.t)
    (now : Z) (st : state) :
  PatientService.getPatients userId filters now st =
  (Returned
     (if available st
      then match collect (run_query (patients_query userId filters) (documents st)) now with
           | Returned patients =>
               match search_key filters with
               | Some key =>
                   match filter_patients (matches_term key) patients with
                   | Returned kept => kept
                   | Threw _ => []
                   end
               | None => patients
               end
           | Threw _ => []
           end
      else []),
   with_call (GetDocs (patients_query userId filters)) st).
Proof.
  unfold PatientService.getPatients, try_catch, bind.
  assert (Hq : query_orderBy
            match PatientSearchFilters.status filters with
            | Some s =>
                if truthy (Status_string s)
                then query_where
                       (query_where collection_query "createdBy" (VString userId))
                       "status" (VString (Status_string s))
                else query_where collection_query "createdBy" (VString userId)
            | None => query_where collection_query "createdBy" (VString userId)
            end
            match PatientSearchFilters.sortBy filters with
            | Some f => if truthy (SortField_string f) then SortField_string f
                        else "lastModified"
            | None => "lastModified"
            end
            (default desc (PatientSearchFilters.sortOrder filters))
          = patients_query userId filters).
  { unfold patients_query, sort_field.
    by destruct (PatientSearchFilters.status filters) as [[] |],
                (PatientSearchFilters.sortBy filters) as [[] |]. }
  rewrite Hq, getDocs_run. clear Hq.
  destruct (available st); [| reflexivity]. unfold lift.
  destruct (collect _ now) as [patients |]; [| reflexivity].
  unfold search_key.
  destruct (PatientSearchFilters.searchTerm filters) as [term |]; simpl;
    [| reflexivity].
  destruct (truthy term); [| reflexivity].
  by destruct (filter_patients _ patients).
Qed.

Lemma filter_patients_kept (predicate : object -> outcome bool)
    (patients kept : list object) :
  filter_patients predicate patients = Returned kept ->
  Forall (fun patient => predicate patient = Returned true) kept.
Proof.
  revert kept. induction patients as [| p rest IH]; intros kept; simpl.
  - intros [= <-]. constructor.
  - destruct (predicate p) as [keep |] eqn:Hp; [| discriminate].
    destruct (filter_patients predicate rest) as [kept' |]; [| discriminate].
    intros [= <-]. destruct keep; [constructor |]; by auto.
Qed.

Lemma matches_term_true (key : string) (patient : object) :
  matches_term key patient = Returned true ->
  field_contains patient "name" key \/ field_contains patient "mrn" key.
Proof.
  unfold matches_term, field_contains.
  destruct (patient !! "name") as [[| | n | | |] |]; try discriminate.
  destruct (includes (toLowerCase n) key) eqn:Hn; [intros _; left; by exists n |].
  destruct (patient !! "mrn") as [[| | m | | |] |]; try discriminate.
  destruct (truthy m); [| discriminate].
  intros [= Hm]. right. by exists m.
Qed.

Lemma selected_matches (userId : string) (filters : PatientSearchFilters.t)
    (id : string) (data : object) :
  matches (patients_query userId filters) (id, data) = true <->
  selected userId filters data.
Proof.
  unfold matches, selected, patients_query. simpl.
  rewrite !andb_true_iff, !bool_decide_eq_true.
  destruct (PatientSearchFilters.status filters) as [s |]; simpl;
    rewrite ?andb_true_iff, ?bool_decide_eq_true; split.
  - intros [(Howner & Hstatus & _) [Hsort _]]. split_and!; [done | | done].
    by intros s' [= <-].
  - intros (Howner & Hstatus & Hsort). split_and!; try done. by apply Hstatus.
  - intros [(Howner & _) [Hsort _]]. by split_and!.
  - intros (Howner & _ & Hsort). by split_and!.
Qed.

Lemma collect_kept (snapshot : list (string * object)) (now : Z)
    (patients : list object) (entry : string * object) :
  collect snapshot now = Returned patients ->
  entry ∈ snapshot ->
  exists patient, patient ∈ patients /\
                  snapshot_patient entry.1 entry.2 now = Returned patient.
Proof.
  revert patients. induction snapshot as [| [id data] rest IH]; intros patients; simpl.
  - intros _ Hin. by apply elem_of_nil in Hin.
  - destruct (snapshot_patient id data now) as [patient |] eqn:Hsnap; [| discriminate].
    destruct (collect rest now) as [others |]; [| discriminate].
    intros [= <-] Hin. apply elem_of_cons in Hin as [-> | Hin].
    + exists patient. split; [left | exact Hsnap].
    + destruct (IH others eq_refl Hin) as (p & Hp & Hsnap').
      exists p. split; [by right | exact Hsnap'].
Qed.

Lemma collect_throws (snapshot : list (string * object)) (now : Z)
    (entry : string * object) (message : string) :
  entry ∈ snapshot ->
  snapshot_patient entry.1 entry.2 now = Threw message ->
  exists message', collect snapshot now = Threw message'.
Proof.
  induction snapshot as [| [id data] rest IH]; intros Hin Hthrow; simpl.
  - by apply elem_of_nil in Hin.
  - apply elem_of_cons in Hin as [-> | Hin].
    + simpl in Hthrow. rewrite Hthrow. by eexists.
    + destruct (snapshot_patient id data now); [| by eexists].
      destruct (IH Hin Hthrow) as [message' ->]. by eexists.
Qed.

Lemma snapshot_patient_well_dated (id : string) (data : object) (now : Z) :
  well_dated data <-> exists patient, snapshot_patient id data now = Returned patient.
Proof.
  unfold well_dated, snapshot_patient, is_date_field, toDate_or_now. split.
  - intros [Hc Hm].
    destruct (data !! "createdAt") as [[] |]; try done;
      destruct (data !! "lastModified") as [[] |]; try done; by eexists.
  - intros [patient Hp].
    destruct (data !! "createdAt") as [[] |]; try done;
      destruct (data !! "lastModified") as [[] |]; try done.
Qed.

Lemma collect_returns (snapshot : list (string * object)) (now : Z) :
  Forall (fun entry : string * object => well_dated entry.2) snapshot ->
  exists patients, collect snapshot now = Returned patients.
Proof.
  induction 1 as [| [id data] rest Hdata _ IH]; simpl; [by eexists |].
  apply (snapshot_patient_well_dated id data now) in Hdata as [patient ->].
  destruct IH as [patients ->]. by eexists.
Qed.


(** X7.  [getPatients] never throws and only reads (one [getDocs]
    call).  Every patient it returns was created by the caller, has the
    status asked for if one was, and, when a search term is given,
    contains the trimmed, lower-cased term in its name or its MRN. *)
Theorem getPatients_only_own_matching (st : state) (userId : string)
    (filters : PatientSearchFilters.t) (now : Z) :
  exists patients : list object,
    PatientService.getPatients userId filters now st
    = (Returned patients, with_call (GetDocs (patients_query userId filters)) st) /\
    Forall (fun patient =>
              patient !! "createdBy" = Some (VString userId) /\
              (forall s, PatientSearchFilters.status filters = Some s ->
                         patient !! "status" = Some (VString (Status_string s))) /\
              (forall key, search_key filters = Some key ->
                           field_contains patient "name" key \/
                           field_contains patient "mrn" key)) patients.
Proof.
  eexists. split; [apply getPatients_run |].
  destruct (available st); [| constructor].
  destruct (collect _ now) as [patients |] eqn:Hcollect; [| constructor].
  assert (Hall : Forall (fun patient =>
              patient !! "createdBy" = Some (VString userId) /\
              (forall s, PatientSearchFilters.status filters = Some s ->
                         patient !! "status" = Some (VString (Status_string s)))) patients).
  { eapply Forall_impl; [by apply collect_sound in Hcollect |].
    intros patient ([id data] & Hin & Hsnap). simpl in Hsnap.
    apply run_query_spec in Hin as [_ Hmatch].
    apply selected_matches in Hmatch as (Howner & Hstatus & _).
    rewrite !(snapshot_patient_lookup _ _ _ _ _ Hsnap) by done.
    split; [exact Howner | exact Hstatus]. }
  destruct (search_key filters) as [key |].
  - destruct (filter_patients _ patients) as [kept |] eqn:Hkept; [| constructor].
    apply Forall_forall. intros patient Hin.
    pose proof (filter_patients_kept _ _ _ Hkept) as Hmatch.
    pose proof (filter_patients_sublist _ _ _ Hkept) as Hsub.
    rewrite Forall_forall in Hmatch, Hall.
    destruct (Hall patient (elem_of_sublist _ _ _ Hin Hsub)) as [Howner Hstatus].
    split_and!; [done | done |].
    intros key' [= <-]. by apply matches_term_true, Hmatch.
  - eapply Forall_impl; [exact Hall |].
    intros patient [Howner Hstatus]. by split_and!.
Qed.

(** X8.  With the store reachable, no search term, and the dates of
    every document the query selects convertible, [getPatients] leaves
    nothing out: each document the caller created, with the status
    asked for and with the sort field, is in the list it returns. *)
Theorem getPatients_lists_every_selected (st : state) (userId : string)
    (filters : PatientSearchFilters.t) (now : Z) (id : string) (data : object) :
  available st = true ->
  search_key filters = None ->
  (forall id' data', documents st !! id' = Some data' ->
                     selected userId filters data' -> well_dated data') ->
  documents st !! id = Some data ->
  selected userId filters data ->
  exists (patients : list object) (patient : object),
    (PatientService.getPatients userId filters now st).1 = Returned patients /\
    patient ∈ patients /\
    snapshot_patient id data now = Returned patient.
Proof.
  intros Hup Hkey Hdated Hdoc Hselected.
  rewrite getPatients_run, Hup, Hkey. simpl.
  set (q := patients_query userId filters).
  destruct (collect_returns (run_query q (documents st)) now) as [patients Hcollect].
  { apply Forall_forall. intros [id' data'] Hin.
    apply run_query_spec in Hin as [Hdoc' Hmatch]. simpl in *.
    apply (Hdated id' data' Hdoc'). by apply (selected_matches userId filters id'). }
  rewrite Hcollect.
  destruct (collect_kept _ _ _ (id, data) Hcollect) as (patient & Hin & Hsnap).
  { apply run_query_spec. split; [exact Hdoc |]. by apply selected_matches. }
  by exists patients, patient.
Qed.

Lemma getPatients_lists_every_selected_witness :
  let data : object :=
    <["lastModified" := VTimestamp 5]>
      (<["status" := VString "active"]>
         (<["createdBy" := VString "userA"]> (<["name" := VString "Jane Doe"]> ∅))) in
  let st := {| documents := <["p1" := data]> ∅; serverTime := 7;
               available := true; calls := [] |} in
  let filters :=
    {| PatientSearchFilters.searchTerm := None;
       PatientSearchFilters.status := Some active;
       PatientSearchFilters.sortBy := None;
       PatientSearchFilters.sortOrder := None |} in
  exists (patients : list object) (patient : object),
    (PatientService.getPatients "userA" filters 0 st).1 = Returned patients /\
    patient ∈ patients /\
    snapshot_patient "p1" data 0 = Returned patient.
Proof.
  intros data st filters.
  apply (getPatients_lists_every_selected st "userA" filters 0 "p1" data).
  - reflexivity.
  - reflexivity.
  - intros id' data' Hdoc' _.
    unfold st in Hdoc'. simpl in Hdoc'.
    destruct (decide (id' = "p1")) as [-> | Hne].
    + rewrite lookup_insert_eq in Hdoc'. injection Hdoc' as <-.
      split; vm_compute; exact I.
    + by rewrite lookup_insert_ne, lookup_empty in Hdoc'.
  - apply lookup_insert_eq.
  - split_and!.
    + vm_compute. reflexivity.
    + intros s [= <-]. vm_compute. reflexivity.
    + exists (VTimestamp 5). reflexivity.
Defined.

(** X9.  One document is enough to empty a listing: if a document the
    query selects has a date that does not convert (a string, say),
    the conversion throws, [getPatients] catches it, and the caller
    gets the empty list, whatever else the store holds. *)
Theorem getPatients_emptied_by_bad_date (st : state) (userId : string)
    (filters : PatientSearchFilters.t) (now : Z) (id : string) (data : object) :
  documents st !! id = Some data ->
  selected userId filters data ->
  ~ well_dated data ->
  (PatientService.getPatients userId filters now st).1 = Returned [].
Proof.
  intros Hdoc Hselected Hbad.
  rewrite getPatients_run. simpl.
  destruct (available st); [| reflexivity].
  destruct (snapshot_patient id data now) as [patient | message] eqn:Hsnap.
  { destruct Hbad. apply (snapshot_patient_well_dated id data now). by exists patient. }
  destruct (collect_throws (run_query (patients_query userId filters) (documents st))
              now (id, data) message) as [message' ->]; [| exact Hsnap | reflexivity].
  apply run_query_spec. split; [exact Hdoc |]. by apply selected_matches.
Qed.

Lemma getPatients_emptied_by_bad_date_witness :
  let good : object :=
    <["lastModified" := VTimestamp 5]>
      (<["status" := VString "active"]>
         (<["createdBy" := VString "userA"]> (<["name" := VString "Jane Doe"]> ∅))) in
  let bad : object :=
    <["createdAt" := VString "2025-07-28"]>
      (<["lastModified" := VTimestamp 6]>
         (<["status" := VString "active"]>
            (<["createdBy" := VString "userA"]> (<["name" := VString "John Roe"]> ∅)))) in
  let st := {| documents := <["p2" := bad]> (<["p1" := good]> ∅); serverTime := 7;
               available := true; calls := [] |} in
  let filters :=
    {| PatientSearchFilters.searchTerm := None;
       PatientSearchFilters.status := Some active;
       PatientSearchFilters.sortBy := None;
       PatientSearchFilters.sortOrder := None |} in
  (PatientService.getPatients "userA" filters 0 st).1 = Returned [].
Proof.
  intros good bad st filters.
  apply (getPatients_emptied_by_bad_date st "userA" filters 0 "p2" bad).
  - apply lookup_insert_eq.
  - split_and!.
    + vm_compute. reflexivity.
    + intros s [= <-]. vm_compute. reflexivity.
    + exists (VTimestamp 6). reflexivity.
  - intros [Hcreated _]. vm_compute in Hcreated. exact Hcreated.
Defined.


(** *** Updating *)

Ltac updateData_cases updates :=
  destruct updates as [[name |] [mrn |] [dob |] [gender |] [status |]];
  unfold PatientService.updateData; simpl;
  repeat match goal with
         | |- context [negb (?s =? "")] =>
             let E := fresh "E" in destruct (String.eqb_spec s "") as [E | E]; simpl
         end.

Lemma updateData_text_fields (updates : UpdatePatientRequest.t) :
  let written (given : option string) : option value :=
    match given with
    | Some text => if truthy (trim text) then Some (VString (trim text)) else None
    | None => None
    end in
  PatientService.updateData updates !! "name" = written (UpdatePatientRequest.name updates) /\
  PatientService.updateData updates !! "mrn" = written (UpdatePatientRequest.mrn updates) /\
  PatientService.updateData updates !! "dob" = written (UpdatePatientRequest.dob updates).
Proof.
  intros written. unfold written, truthy.
  updateData_cases updates; simpl;
    repeat match goal with
           | H : ?s = "" |- context [?s =? ""] =>
               rewrite (proj2 (String.eqb_eq s "") H)
           | H : ?s <> "" |- context [?s =? ""] =>
               rewrite (proj2 (String.eqb_neq s "") H)
           end; simpl; by simpl_map.
Qed.

Lemma updateData_gender (updates : UpdatePatientRequest.t) :
  PatientService.updateData updates !! "gender"
  = (fun g => VString (Gender_string g)) <$> UpdatePatientRequest.gender updates.
Proof.
  updateData_cases updates; try by simpl_map.
  all: by destruct gender.
Qed.

Lemma updateData_lastModified (updates : UpdatePatientRequest.t) :
  PatientService.updateData updates !! "lastModified" = Some VServerTimestamp.
Proof. updateData_cases updates; by simpl_map. Qed.

Lemma updateData_other (updates : UpdatePatientRequest.t) (k : string) :
  k ∉ ["name"; "mrn"; "dob"; "gender"; "status"; "lastModified"] ->
  PatientService.updateData updates !! k = None.
Proof.
  intros Hk.
  assert (k <> "name" /\ k <> "mrn" /\ k <> "dob" /\ k <> "gender" /\
          k <> "status" /\ k <> "lastModified") as (? & ? & ? & ? & ? & ?).
  { split_and!; intros ->; apply Hk; by repeat constructor. }
  updateData_cases updates; by simpl_map.
Qed.

Lemma updateData_no_empty_string (updates : UpdatePatientRequest.t) (k : string) :
  PatientService.updateData updates !! k <> Some (VString "").
Proof.
  destruct (decide (k = "name")) as [-> | ?];
    [destruct (updateData_text_fields updates) as (-> & _ & _) |].
  { destruct (UpdatePatientRequest.name updates) as [text |]; [| done].
    destruct (truthy (trim text)) eqn:Ht; [| done].
    apply truthy_true in Ht. congruence. }
  destruct (decide (k = "mrn")) as [-> | ?];
    [destruct (updateData_text_fields updates) as (_ & -> & _) |].
  { destruct (UpdatePatientRequest.mrn updates) as [text |]; [| done].
    destruct (truthy (trim text)) eqn:Ht; [| done].
    apply truthy_true in Ht. congruence. }
  destruct (decide (k = "dob")) as [-> | ?];
    [destruct (updateData_text_fields updates) as (_ & _ & ->) |].
  { destruct (UpdatePatientRequest.dob updates) as [text |]; [| done].
    destruct (truthy (trim text)) eqn:Ht; [| done].
    apply truthy_true in Ht. congruence. }
  destruct (decide (k = "gender")) as [-> | ?].
  { rewrite updateData_gender. by destruct (UpdatePatientRequest.gender updates) as [[] |]. }
  destruct (decide (k = "status")) as [-> | ?].
  { rewrite updateData_status. by destruct (UpdatePatientRequest.status updates) as [[] |]. }
  destruct (decide (k = "lastModified")) as [-> | ?].
  { by rewrite updateData_lastModified. }
  rewrite updateData_other; [done |].
  intros Hin. repeat (apply elem_of_cons in Hin as [-> | Hin]; [done |]).
  by apply elem_of_nil in Hin.
Qed.


(** X10.  [updatePatient] for a record that is missing, or that another
    user created, throws the one message that covers both, in either
    revision, after a single read: the documents are as they were and
    [updateDoc] is not called. *)
Theorem updatePatient_denied (st : state) (userId patientId : string)
    (updates : UpdatePatientRequest.t) (now : Z) :
  (forall data, documents st !! patientId = Some data ->
                data !! "createdBy" <> Some (VString userId)) ->
  PatientService.updatePatient userId patientId updates now st
  = (Threw "Failed to update patient: Patient not found or access denied",
     with_call (GetDoc patientId) st) /\
  EarlierPatientService.updatePatient userId patientId updates now st
  = (Threw "Failed to update patient", with_call (GetDoc patientId) st).
Proof.
  intros Hforeign.
  assert (Hget : PatientService.getPatient userId patientId now st
                 = (Returned None, with_call (GetDoc patientId) st)).
  { rewrite getPatient_run. destruct (available st); [| reflexivity].
    destruct (documents st !! patientId) as [data |] eqn:Hdoc; [| reflexivity].
    destruct (strict_eq_string (data !! "createdBy") userId) eqn:Howner;
      [| reflexivity].
    apply strict_eq_string_true in Howner. by destruct (Hforeign data). }
  unfold PatientService.updatePatient, EarlierPatientService.updatePatient,
    try_catch, bind.
  rewrite getPatient_same, Hget. by split.
Qed.

Lemma updatePatient_denied_witness :
  let data : object :=
    <["createdBy" := VString "userB"]> (<["name" := VString "Jane Doe"]> ∅) in
  let st := {| documents := <["p1" := data]> ∅; serverTime := 0;
               available := true; calls := [] |} in
  let updates := PatientService.status_only inactive in
  PatientService.updatePatient "userA" "p1" updates 0 st
  = (Threw "Failed to update patient: Patient not found or access denied",
     with_call (GetDoc "p1") st) /\
  EarlierPatientService.updatePatient "userA" "p1" updates 0 st
  = (Threw "Failed to update patient", with_call (GetDoc "p1") st).
Proof.
  intros data st updates.
  apply (updatePatient_denied st "userA" "p1" updates 0).
  intros data' Hdoc. unfold st in Hdoc. simpl in Hdoc.
  rewrite lookup_insert_eq in Hdoc. injection Hdoc as <-.
  vm_compute. discriminate.
Defined.

(** The record after an update that went through, field by field. *)
Lemma merged_fields (time : Z) (updates : UpdatePatientRequest.t) (old : object) :
  let new := (resolve time <$> PatientService.updateData updates) ∪ old in
  new !! "lastModified" = Some (VTimestamp time) /\
  merged_text (UpdatePatientRequest.name updates) (old !! "name") (new !! "name") /\
  merged_text (UpdatePatientRequest.mrn updates) (old !! "mrn") (new !! "mrn") /\
  merged_text (UpdatePatientRequest.dob updates) (old !! "dob") (new !! "dob") /\
  merged_choice Gender_string (UpdatePatientRequest.gender updates)
    (old !! "gender") (new !! "gender") /\
  merged_choice Status_string (UpdatePatientRequest.status updates)
    (old !! "status") (new !! "status") /\
  (forall k, k ∉ ["name"; "mrn"; "dob"; "gender"; "status"; "lastModified"] ->
             new !! k = old !! k).
Proof.
  intros new.
  assert (Htext : forall given field,
    PatientService.updateData updates !! field
    = match given with
      | Some text => if truthy (trim text) then Some (VString (trim text)) else None
      | None => None
      end ->
    merged_text given (old !! field) (new !! field)).
  { intros given field Hfield. unfold new.
    rewrite lookup_union, lookup_fmap, Hfield. split.
    - intros [-> | (text & -> & Hblank)].
      + simpl. by destruct (old !! field).
      + apply trim_falsy in Hblank. rewrite Hblank. simpl.
        by destruct (old !! field).
    - intros text -> Hnb. apply trim_truthy in Hnb. rewrite Hnb. simpl.
      by destruct (old !! field). }
  destruct (updateData_text_fields updates) as (Hname & Hmrn & Hdob).
  split_and!.
  - unfold new. rewrite lookup_union, lookup_fmap, updateData_lastModified.
    simpl. by destruct (old !! "lastModified").
  - by apply Htext.
  - by apply Htext.
  - by apply Htext.
  - unfold new, merged_choice.
    rewrite lookup_union, lookup_fmap, updateData_gender.
    by destruct (UpdatePatientRequest.gender updates), (old !! "gender").
  - unfold new, merged_choice.
    rewrite lookup_union, lookup_fmap, updateData_status.
    by destruct (UpdatePatientRequest.status updates), (old !! "status").
  - intros k Hk. unfold new.
    rewrite lookup_union, lookup_fmap, (updateData_other updates k Hk).
    simpl. by destruct (old !! k).
Qed.

(** X11.  An [updatePatient] by the creator of a record, with the store
    reachable and the record's dates convertible, goes through with one
    read and one write, and changes that record alone: [lastModified]
    becomes the server's time; each of name, MRN and date of birth is
    set to the trimmed text when one is given and kept when it is
    omitted or blank; gender and status are set when given and kept
    otherwise; every other field, [createdBy] and [createdAt] among
    them, and every other document stays as it was. *)
Theorem updatePatient_merges (st : state) (userId patientId : string)
    (updates : UpdatePatientRequest.t) (now : Z) (old : object) :
  available st = true ->
  documents st !! patientId = Some old ->
  old !! "createdBy" = Some (VString userId) ->
  well_dated old ->
  exists (st' : state) (new : object),
    PatientService.updatePatient userId patientId updates now st = (Returned tt, st') /\
    calls st' = (calls st ++ [GetDoc patientId; UpdateDoc patientId])%list /\
    documents st' = <[patientId := new]> (documents st) /\
    new !! "lastModified" = Some (VTimestamp (serverTime st)) /\
    merged_text (UpdatePatientRequest.name updates) (old !! "name") (new !! "name") /\
    merged_text (UpdatePatientRequest.mrn updates) (old !! "mrn") (new !! "mrn") /\
    merged_text (UpdatePatientRequest.dob updates) (old !! "dob") (new !! "dob") /\
    merged_choice Gender_string (UpdatePatientRequest.gender updates)
      (old !! "gender") (new !! "gender") /\
    merged_choice Status_string (UpdatePatientRequest.status updates)
      (old !! "status") (new !! "status") /\
    (forall k, k ∉ ["name"; "mrn"; "dob"; "gender"; "status"; "lastModified"] ->
               new !! k = old !! k).
Proof.
  intros Hup Hdoc Howner Hdated.
  apply (snapshot_patient_well_dated patientId old now) in Hdated.
  eexists _, _. split; [by apply updatePatient_succeeds |].
  split; [simpl; by rewrite <- app_assoc |].
  split; [reflexivity |].
  apply merged_fields.
Qed.

Lemma updatePatient_merges_witness :
  let old : object :=
    <["mrn" := VString "MRN-1"]>
      (<["status" := VString "active"]>
         (<["createdBy" := VString "userA"]> (<["name" := VString "Jane Doe"]> ∅))) in
  let st := {| documents := <["p1" := old]> ∅; serverTime := 7;
               available := true; calls := [] |} in
  let updates :=
    {| UpdatePatientRequest.name := Some " Jane Roe ";
       UpdatePatientRequest.mrn := Some "  ";
       UpdatePatientRequest.dob := None;
       UpdatePatientRequest.gender := None;
       UpdatePatientRequest.status := None |} in
  exists (st' : state) (new : object),
    PatientService.updatePatient "userA" "p1" updates 0 st = (Returned tt, st') /\
    documents st' = <["p1" := new]> (documents st) /\
    new !! "name" = Some (VString "Jane Roe") /\
    new !! "mrn" = Some (VString "MRN-1") /\
    new !! "createdBy" = Some (VString "userA").
Proof.
  intros old st updates.
  assert (Hdated : well_dated old) by (split; vm_compute; exact I).
  destruct (updatePatient_merges st "userA" "p1" updates 0 old
              eq_refl (lookup_insert_eq _ _ _) eq_refl Hdated)
    as (st' & new & Hrun & _ & Hdocs & _ & Hname & Hmrn & _ & _ & _ & Hother).
  exists st', new. split_and!; [exact Hrun | exact Hdocs | | |].
  - apply (proj2 Hname " Jane Roe "); [reflexivity |].
    intros Hb. vm_compute in Hb. discriminate.
  - rewrite (proj1 Hmrn); [reflexivity |]. right. exists "  ". split; reflexivity.
  - rewrite Hother; [reflexivity |].
    intros Hin. repeat (apply elem_of_cons in Hin as [Hin | Hin]; [discriminate |]).
    by apply elem_of_nil in Hin.
Defined.


(** *** Sequences of operations *)

(** What [createPatient] writes, if anything: a document without empty
    strings. *)
Lemma createPatient_writes (st : state) (userId : string)
    (patientData : CreatePatientRequest.t) (newId : string) (now : Z) :
  let st' := (PatientService.createPatient userId patientData newId now st).2 in
  documents st' = documents st
  \/ exists stored : object,
       documents st' = <[newId := stored]> (documents st) /\
       forall k, stored !! k <> Some (VString "").
Proof.
  destruct (truthy (trim (CreatePatientRequest.name patientData))) eqn:Hname;
    [| left; unfold PatientService.createPatient, try_catch, bind;
       by rewrite Hname].
  destruct (truthy userId) eqn:Huser;
    [| left; unfold PatientService.createPatient, try_catch, bind;
       by rewrite Hname, Huser].
  destruct (available st) eqn:Hup.
  - right. apply trim_truthy in Hname. apply truthy_true in Huser.
    destruct (createPatient_valid st userId patientData newId now Hname Huser Hup)
      as (optionalFields & _ & _ & _ & _ & Hne & Hres & Hrun).
    simpl in Hrun. rewrite Hrun. simpl. eexists. split; [reflexivity |].
    intros k. rewrite lookup_fmap.
    destruct (decide (k = "lastModified")) as [-> |]; [by simpl_map |].
    destruct (decide (k = "createdAt")) as [-> |]; [by simpl_map |].
    rewrite !lookup_insert_ne by done.
    destruct (optionalFields !! k) as [v |] eqn:Hv.
    + rewrite (lookup_union_Some_l _ _ _ _ Hv). simpl.
      rewrite (Hres k v Hv). rewrite <- Hv. apply Hne.
    + rewrite lookup_union_r by done.
      destruct (decide (k = "status")) as [-> |]; [by simpl_map |].
      destruct (decide (k = "createdBy")) as [-> |];
        [simpl_map; simpl; congruence |].
      destruct (decide (k = "name")) as [-> |];
        [simpl_map; simpl; unfold blank in Hname; congruence |].
      by simpl_map.
  - left. unfold PatientService.createPatient, try_catch, bind.
    rewrite Hname, Huser. simpl.
    unfold setDoc, bind, record_call, validate, reach. simpl.
    destruct (has_undefined _); simpl; [reflexivity |]. by rewrite Hup.
Qed.

(** What an operation does to the document under [id]: nothing; or it
    is a creation under that id; or it is an update by the user who
    created the document, merged into it. *)
Lemma perform_document (st : state) (op : PatientService.operation) (id : string) :
  documents (PatientService.perform st op) !! id = documents st !! id
  \/ (creates id op = true /\
      exists stored : object,
        documents (PatientService.perform st op) !! id = Some stored /\
        forall k, stored !! k <> Some (VString ""))
  \/ (exists (userId : string) (updates : UpdatePatientRequest.t) (old : object),
        caller op = Some userId /\
        documents st !! id = Some old /\
        old !! "createdBy" = Some (VString userId) /\
        documents (PatientService.perform st op) !! id
        = Some ((resolve (serverTime st) <$> PatientService.updateData updates) ∪ old)).
Proof.
  assert (Hupdate :
    forall userId patientId updates now,
      documents (PatientService.updatePatient userId patientId updates now st).2 !! id
      = documents st !! id
      \/ exists old,
           documents st !! id = Some old /\
           old !! "createdBy" = Some (VString userId) /\
           documents (PatientService.updatePatient userId patientId updates now st).2 !! id
           = Some ((resolve (serverTime st) <$> PatientService.updateData updates) ∪ old)).
  { intros userId patientId updates now.
    destruct (updatePatient_cases userId patientId updates now st)
      as [(message & st' & -> & Hdocs) | (old & _ & Hdoc & Howner & _ & ->)]; simpl.
    - left. by rewrite Hdocs.
    - destruct (decide (patientId = id)) as [-> | Hne].
      + right. exists old. by rewrite lookup_insert_eq.
      + left. by rewrite lookup_insert_ne. }
  destruct op as [userId patientData newId now | userId patientId now
                 | userId filters now | userId patientId updates now
                 | userId patientId now | userId patientId now
                 | userId searchTerm maxResults now | time | b]; simpl.
  - destruct (createPatient_writes st userId patientData newId now)
      as [-> | (stored & -> & Hstored)]; [by left |].
    destruct (decide (newId = id)) as [-> | Hne].
    + right. left. rewrite bool_decide_eq_true_2 by done. split; [done |].
      exists stored. by rewrite lookup_insert_eq.
    + left. by rewrite lookup_insert_ne.
  - left. by rewrite getPatient_documents.
  - left. by rewrite getPatients_documents.
  - destruct (Hupdate userId patientId updates now) as [? | (old & ? & ? & ?)];
      [by left |].
    right. right. by exists userId, updates, old.
  - destruct (Hupdate userId patientId (PatientService.status_only inactive) now)
      as [? | (old & ? & ? & ?)]; [by left |].
    right. right. by exists userId, (PatientService.status_only inactive), old.
  - destruct (Hupdate userId patientId (PatientService.status_only active) now)
      as [? | (old & ? & ? & ?)]; [by left |].
    right. right. by exists userId, (PatientService.status_only active), old.
  - left. by rewrite searchPatients_documents.
  - by left.
  - by left.
Qed.

(** X12.  The calls of other users never change a record: over any
    sequence of operations none of which is made by the record's
    creator (and none of which creates a document under its id), the
    document stays exactly as it was. *)
Theorem others_cannot_change_record (st : state)
    (ops : list PatientService.operation) (patientId owner : string) (data : object) :
  documents st !! patientId = Some data ->
  data !! "createdBy" = Some (VString owner) ->
  Forall (fun op => caller op <> Some owner /\ creates patientId op = false) ops ->
  documents (PatientService.perform_all st ops) !! patientId = Some data.
Proof.
  intros Hdoc Howner Hops. revert st Hdoc.
  induction Hops as [| op ops [Hcaller Hcreates] _ IH]; intros st Hdoc; [exact Hdoc |].
  rewrite perform_all_cons. apply IH.
  destruct (perform_document st op patientId)
    as [-> | [[Hc _] | (userId & updates & old & Hcall & Hold & Howner' & _)]].
  - exact Hdoc.
  - congruence.
  - rewrite Hdoc in Hold. injection Hold as <-.
    rewrite Howner in Howner'. injection Howner' as <-. by destruct Hcaller.
Qed.

Lemma others_cannot_change_record_witness :
  let data : object :=
    <["status" := VString "active"]>
      (<["createdBy" := VString "userA"]> (<["name" := VString "Jane Doe"]> ∅)) in
  let st := {| documents := <["p1" := data]> ∅; serverTime := 7;
               available := true; calls := [] |} in
  let ops := [PatientService.Deactivate "userB" "p1" 1;
              PatientService.Update "userB" "p1" (PatientService.status_only inactive) 2] in
  documents (PatientService.perform_all st ops) !! "p1" = Some data.
Proof.
  intros data st ops.
  apply (others_cannot_change_record st ops "p1" "userA" data).
  - apply lookup_insert_eq.
  - reflexivity.
  - repeat constructor; discriminate.
Defined.

(** X13.  Whatever is done to the directory, a record keeps its creator
    and its creation date: over any sequence of operations that does
    not create a document under its id, the record is still there with
    the [createdBy] and [createdAt] it had. *)
Theorem creator_and_creation_date_kept (st : state)
    (ops : list PatientService.operation) (patientId : string) (data : object) :
  documents st !! patientId = Some data ->
  Forall (fun op => creates patientId op = false) ops ->
  exists data' : object,
    documents (PatientService.perform_all st ops) !! patientId = Some data' /\
    data' !! "createdBy" = data !! "createdBy" /\
    data' !! "createdAt" = data !! "createdAt".
Proof.
  intros Hdoc Hops. revert st data Hdoc.
  induction Hops as [| op ops Hcreates _ IH]; intros st data Hdoc; [by exists data |].
  rewrite perform_all_cons.
  destruct (perform_document st op patientId)
    as [Hsame | [[Hc _] | (userId & updates & old & _ & Hold & _ & Hnew)]].
  - rewrite Hdoc in Hsame. by apply IH.
  - congruence.
  - rewrite Hdoc in Hold. injection Hold as <-.
    destruct (IH _ _ Hnew) as (data' & Hdata' & Hby & Hat).
    exists data'. split; [exact Hdata' |].
    destruct (merged_fields (serverTime st) updates data)
      as (_ & _ & _ & _ & _ & _ & Hother).
    rewrite Hby, Hat.
    split; apply Hother; intros Hin;
      repeat (apply elem_of_cons in Hin as [Hin | Hin]; [discriminate |]);
      by apply elem_of_nil in Hin.
Qed.

Lemma creator_and_creation_date_kept_witness :
  let data : object :=
    <["createdAt" := VTimestamp 3]>
      (<["status" := VString "active"]>
         (<["createdBy" := VString "userA"]> (<["name" := VString "Jane Doe"]> ∅))) in
  let st := {| documents := <["p1" := data]> ∅; serverTime := 7;
               available := true; calls := [] |} in
  let ops := [PatientService.Deactivate "userA" "p1" 1;
              PatientService.ServerTime 9;
              PatientService.Reactivate "userA" "p1" 2] in
  exists data' : object,
    documents (PatientService.perform_all st ops) !! "p1" = Some data' /\
    data' !! "createdBy" = Some (VString "userA") /\
    data' !! "createdAt" = Some (VTimestamp 3).
Proof.
  intros data st ops.
  apply (creator_and_creation_date_kept st ops "p1" data).
  - apply lookup_insert_eq.
  - repeat constructor.
Defined.

(** X14.  The current revision never puts an empty string into the
    store: if no document holds one, none does after any sequence of
    operations. *)
Theorem no_empty_strings_kept (st : state) (ops : list PatientService.operation) :
  no_empty_strings st -> no_empty_strings (PatientService.perform_all st ops).
Proof.
  revert st. induction ops as [| op ops IH]; intros st Hst; [exact Hst |].
  rewrite perform_all_cons. apply IH. clear IH.
  intros id data field Hdata.
  destruct (perform_document st op id)
    as [Hsame | [(_ & stored & Hnew & Hstored)
                | (userId & updates & old & _ & Hold & _ & Hnew)]].
  - rewrite Hsame in Hdata. by apply (Hst id).
  - rewrite Hnew in Hdata. injection Hdata as <-. apply Hstored.
  - rewrite Hnew in Hdata. injection Hdata as <-.
    rewrite lookup_union, lookup_fmap.
    pose proof (updateData_no_empty_string updates field) as Hupd.
    pose proof (Hst id old field Hold) as Hfield.
    intros Hempty.
    destruct (PatientService.updateData updates !! field) as [[] |],
             (old !! field) as [v |]; cbv in Hempty; congruence.
Qed.

Lemma no_empty_strings_kept_witness :
  let st := {| documents := ∅; serverTime := 7; available := true; calls := [] |} in
  let patientData :=
    {| CreatePatientRequest.name := " Jane Doe ";
       CreatePatientRequest.mrn := Some "  ";
       CreatePatientRequest.dob := None;
       CreatePatientRequest.gender := None |} in
  let blank_name :=
    {| UpdatePatientRequest.name := Some "  ";
       UpdatePatientRequest.mrn := Some "";
       UpdatePatientRequest.dob := None;
       UpdatePatientRequest.gender := None;
       UpdatePatientRequest.status := None |} in
  let ops := [PatientService.Create "userA" patientData "p1" 0;
              PatientService.Update "userA" "p1" blank_name 1] in
  no_empty_strings (PatientService.perform_all st ops).
Proof.
  intros st patientData blank_name ops.
  apply (no_empty_strings_kept st ops).
  intros id data field Hdoc. unfold st in Hdoc. simpl in Hdoc.
  by rewrite lookup_empty in Hdoc.
Defined.


(** *** Deactivating and reactivating *)

(** X15.  Deactivating a record of one's own that is active and then
    reactivating it gives the record back: both calls go through, the
    record is inactive in between, and afterwards it differs from what
    it was only in [lastModified], which is the server's time. *)
Theorem deactivate_then_reactivate_restores (st : state)
    (userId patientId : string) (now now' : Z) (old : object) :
  available st = true ->
  documents st !! patientId = Some old ->
  old !! "createdBy" = Some (VString userId) ->
  well_dated old ->
  old !! "status" = Some (VString "active") ->
  exists st1 st2 : state,
    PatientService.deactivatePatient userId patientId now st = (Returned tt, st1) /\
    has_status st1 patientId inactive /\
    PatientService.reactivatePatient userId patientId now' st1 = (Returned tt, st2) /\
    documents st2
    = <[patientId := <["lastModified" := VTimestamp (serverTime st)]> old]> (documents st).
Proof.
  intros Hup Hdoc Howner Hdated Hactive.
  apply (snapshot_patient_well_dated patientId old now) in Hdated as Hsnap.
  set (new1 := (resolve (serverTime st) <$>
                PatientService.updateData (PatientService.status_only inactive)) ∪ old).
  destruct (merged_record (serverTime st) (PatientService.status_only inactive)
              old patientId now now' Hsnap) as [Howner1 Hsnap1].
  fold new1 in Howner1, Hsnap1.
  eexists _, _. split_and!.
  - unfold PatientService.deactivatePatient. by apply updatePatient_succeeds.
  - exists new1. split; [simpl; by rewrite lookup_insert_eq |].
    unfold new1. by rewrite merged_status.
  - unfold PatientService.reactivatePatient.
    apply (updatePatient_succeeds _ _ _ _ _ new1);
      [done | simpl; by rewrite lookup_insert_eq | by rewrite Howner1 | done].
  - simpl. rewrite insert_insert_eq. f_equal.
    destruct (merged_fields (serverTime st) (PatientService.status_only inactive) old)
      as (_ & Hn1 & Hm1 & Hd1 & Hg1 & _ & Ho1).
    destruct (merged_fields (serverTime st) (PatientService.status_only active) new1)
      as (Hl2 & Hn2 & Hm2 & Hd2 & Hg2 & Hs2 & Ho2).
    fold new1 in Hn1, Hm1, Hd1, Hg1, Ho1.
    simpl in Hn1, Hm1, Hd1, Hg1, Hn2, Hm2, Hd2, Hg2, Hs2.
    apply map_eq. intros k.
    destruct (decide (k = "lastModified")) as [-> |];
      [by rewrite lookup_insert_eq |].
    rewrite lookup_insert_ne by done.
    destruct (decide (k = "status")) as [-> |]; [by rewrite Hs2 |].
    destruct (decide (k = "name")) as [-> |];
      [rewrite (proj1 Hn2), (proj1 Hn1); by auto |].
    destruct (decide (k = "mrn")) as [-> |];
      [rewrite (proj1 Hm2), (proj1 Hm1); by auto |].
    destruct (decide (k = "dob")) as [-> |];
      [rewrite (proj1 Hd2), (proj1 Hd1); by auto |].
    destruct (decide (k = "gender")) as [-> |]; [by rewrite Hg2, Hg1 |].
    assert (Hk : k ∉ ["name"; "mrn"; "dob"; "gender"; "status"; "lastModified"]).
    { intros Hin. repeat (apply elem_of_cons in Hin as [-> | Hin]; [done |]).
      by apply elem_of_nil in Hin. }
    by rewrite (Ho2 k Hk), (Ho1 k Hk).
Qed.

Lemma deactivate_then_reactivate_restores_witness :
  let old : object :=
    <["status" := VString "active"]>
      (<["createdBy" := VString "userA"]> (<["name" := VString "Jane Doe"]> ∅)) in
  let st := {| documents := <["p1" := old]> ∅; serverTime := 7;
               available := true; calls := [] |} in
  exists st1 st2 : state,
    PatientService.deactivatePatient "userA" "p1" 0 st = (Returned tt, st1) /\
    has_status st1 "p1" inactive /\
    PatientService.reactivatePatient "userA" "p1" 1 st1 = (Returned tt, st2) /\
    documents st2
    = <["p1" := <["lastModified" := VTimestamp (serverTime st)]> old]> (documents st).
Proof.
  intros old st.
  assert (Hdated : well_dated old) by (split; vm_compute; exact I).
  exact (deactivate_then_reactivate_restores st "userA" "p1" 0 1 old
           eq_refl (lookup_insert_eq _ _ _) eq_refl Hdated eq_refl).
Defined.

(** *** Searching *)

(** X16.  For a term that is not blank, [searchPatients] returns a
    prefix of the listing of the caller's active patients matching the
    trimmed term, sorted by name, of at most 10 patients when
    [maxResults] is left out; each of its patients contains the
    trimmed, lower-cased term in its name or its MRN. *)
Theorem searchPatients_prefix_of_listing (st : state) (userId searchTerm : string)
    (maxResults : option Z) (now : Z) :
  ~ blank searchTerm ->
  let filters :=
    {| PatientSearchFilters.searchTerm := Some (trim searchTerm);
       PatientSearchFilters.status := Some active;
       PatientSearchFilters.sortBy := Some sort_name;
       PatientSearchFilters.sortOrder := Some asc |} in
  let key := trim (toLowerCase (trim searchTerm)) in
  exists listing patients : list object,
    (PatientService.getPatients userId filters now st).1 = Returned listing /\
    (PatientService.searchPatients userId searchTerm maxResults now st).1
    = Returned patients /\
    patients `prefix_of` listing /\
    (maxResults = None -> length patients <= 10) /\
    Forall (fun patient =>
              field_contains patient "name" key \/
              field_contains patient "mrn" key) patients.
Proof.
  intros Hterm filters key.
  apply trim_truthy in Hterm.
  assert (Hkey : search_key filters = Some key).
  { unfold search_key, filters. simpl. by rewrite Hterm. }
  unfold PatientService.searchPatients. rewrite Hterm. simpl. unfold bind.
  fold filters. rewrite getPatients_run. simpl.
  set (listing := if available st then _ else _).
  exists listing, (slice_to listing (default 10%Z maxResults)).
  assert (Hprefix : slice_to listing (default 10%Z maxResults) `prefix_of` listing)
    by apply prefix_take.
  split_and!; [reflexivity | reflexivity | exact Hprefix | |].
  - intros ->. simpl. unfold slice_to. simpl. rewrite length_take. lia.
  - assert (Hall : Forall (fun patient =>
                     field_contains patient "name" key \/
                     field_contains patient "mrn" key) listing).
    { unfold listing. destruct (available st); [| constructor].
      destruct (collect _ now) as [all |]; [| constructor].
      rewrite Hkey.
      destruct (filter_patients _ all) as [kept |] eqn:Hkept; [| constructor].
      eapply Forall_impl; [by apply filter_patients_kept in Hkept |].
      intros patient Hp. by apply matches_term_true. }
    rewrite Forall_forall in Hall. apply Forall_forall.
    intros patient Hin. apply Hall. by eapply elem_of_prefix.
Qed.

Lemma searchPatients_prefix_of_listing_witness :
  let data : object :=
    <["lastModified" := VTimestamp 5]>
      (<["status" := VString "active"]>
         (<["createdBy" := VString "userA"]> (<["name" := VString "Jane Doe"]> ∅))) in
  let st := {| documents := <["p1" := data]> ∅; serverTime := 7;
               available := true; calls := [] |} in
  let filters :=
    {| PatientSearchFilters.searchTerm := Some "DOE";
       PatientSearchFilters.status := Some active;
       PatientSearchFilters.sortBy := Some sort_name;
       PatientSearchFilters.sortOrder := Some asc |} in
  exists listing patients : list object,
    (PatientService.getPatients "userA" filters 0 st).1 = Returned listing /\
    (PatientService.searchPatients "userA" " DOE " None 0 st).1 = Returned patients /\
    patients `prefix_of` listing /\
    length patients <= 10 /\
    Forall (fun patient =>
              field_contains patient "name" "doe" \/
              field_contains patient "mrn" "doe") patients.
Proof.
  intros data st filters.
  assert (Hterm : ~ blank " DOE ") by (intros Hb; vm_compute in Hb; discriminate).
  destruct (searchPatients_prefix_of_listing st "userA" " DOE " None 0 Hterm)
    as (listing & patients & Hlist & Hsearch & Hprefix & Hbound & Hall).
  exists listing, patients.
  split; [exact Hlist | split; [exact Hsearch | split; [exact Hprefix |]]].
  split; [exact (Hbound eq_refl) | exact Hall].
Defined.


(** *** The private helper [filterUndefinedValues] *)

Lemma filter_loop_lookup (entries : list (string * value)) (acc : object)
    (k : string) (v : value) :
  NoDup entries.*1 ->
  (forall v', (k, v') ∈ entries -> acc !! k = None) ->
  fold_left
    (fun (filtered : object) (entry : string * value) =>
       if PatientServicePrivate.has_value entry.2
       then <[entry.1 := entry.2]> filtered else filtered)
    entries acc !! k = Some v
  <-> acc !! k = Some v \/
      ((k, v) ∈ entries /\ PatientServicePrivate.has_value v = true).
Proof.
  revert acc. induction entries as [| [k' v'] rest IH]; intros acc Hnodup Hfresh; simpl.
  - split; [by left | intros [? | [Hin _]]; [done | by apply elem_of_nil in Hin]].
  - apply NoDup_cons in Hnodup as [Hk' Hnodup].
    rewrite IH; [| exact Hnodup |].
    + destruct (decide (k' = k)) as [-> | Hne].
      * assert (Hacc : acc !! k = None) by (apply (Hfresh v'); left).
        assert (Hrest : forall w, (k, w) ∉ rest).
        { intros w Hin. apply Hk'. apply list_elem_of_fmap. by exists (k, w). }
        destruct (PatientServicePrivate.has_value v') eqn:Hv'.
        -- rewrite lookup_insert_eq. split.
           ++ intros [[= <-] | [Hin _]]; [| by destruct (Hrest v)].
              right. split; [left | done].
           ++ intros [Hsome | [Hin Hv]]; [congruence |].
              apply elem_of_cons in Hin as [[= <-] | Hin]; [by left |].
              by destruct (Hrest v).
        -- split.
           ++ intros [Hsome | [Hin _]]; [congruence | by destruct (Hrest v)].
           ++ intros [Hsome | [Hin Hv]]; [congruence |].
              apply elem_of_cons in Hin as [[= <-] | Hin]; [congruence |].
              by destruct (Hrest v).
      * assert (Hstep : (if PatientServicePrivate.has_value v'
                         then <[k' := v']> acc else acc) !! k = acc !! k).
        { destruct (PatientServicePrivate.has_value v'); [| done].
          by rewrite lookup_insert_ne. }
        simpl. rewrite Hstep. split.
        -- intros [? | [Hin Hv]]; [by left |]. right. split; [by right | done].
        -- intros [? | [Hin Hv]]; [by left |].
           apply elem_of_cons in Hin as [[= ? ?] | Hin]; [congruence |].
           right. by split.
    + intros w Hin. simpl.
      destruct (decide (k' = k)) as [-> | Hne].
      * destruct Hk'. apply list_elem_of_fmap. by exists (k, w).
      * destruct (PatientServicePrivate.has_value v');
          rewrite ?lookup_insert_ne by done; apply (Hfresh w); by right.
Qed.

(** X17.  [filterUndefinedValues] keeps exactly the entries whose value
    is not [undefined], [null] or the empty string, each under its key
    and unchanged; so its result has no [undefined] left for the store
    to refuse, and filtering a second time changes nothing. *)
Theorem filterUndefinedValues_keeps_values (obj : object) :
  (forall k v,
     PatientServicePrivate.filterUndefinedValues obj !! k = Some v <->
     obj !! k = Some v /\ v <> VUndefined /\ v <> VNull /\ v <> VString "") /\
  has_undefined (PatientServicePrivate.filterUndefinedValues obj) = false /\
  PatientServicePrivate.filterUndefinedValues
    (PatientServicePrivate.filterUndefinedValues obj)
  = PatientServicePrivate.filterUndefinedValues obj.
Proof.
  assert (Hvalue : forall v,
    PatientServicePrivate.has_value v = true <->
    v <> VUndefined /\ v <> VNull /\ v <> VString "").
  { intros v. unfold PatientServicePrivate.has_value.
    rewrite !andb_true_iff, !negb_true_iff, !bool_decide_eq_false. tauto. }
  assert (Hspec : forall o k v,
    PatientServicePrivate.filterUndefinedValues o !! k = Some v <->
    o !! k = Some v /\ v <> VUndefined /\ v <> VNull /\ v <> VString "").
  { intros o k v. unfold PatientServicePrivate.filterUndefinedValues.
    rewrite filter_loop_lookup;
      [| apply NoDup_fst_map_to_list | intros; apply lookup_empty].
    rewrite lookup_empty, elem_of_map_to_list, Hvalue.
    split; [by intros [? | ?] | by right]. }
  split_and!.
  - apply Hspec.
  - apply has_undefined_false. intros k Hk. apply Hspec in Hk. tauto.
  - apply map_eq. intros k.
    destruct (PatientServicePrivate.filterUndefinedValues obj !! k) as [v |] eqn:Hk.
    + apply Hspec. split; [exact Hk |]. apply Hspec in Hk. tauto.
    + destruct (PatientServicePrivate.filterUndefinedValues
                  (PatientServicePrivate.filterUndefinedValues obj) !! k)
        as [w |] eqn:Hk'; [| reflexivity].
      apply Hspec in Hk' as [Hk' _]. congruence.
Qed.

(** *** The earlier revision *)

Lemma earlier_updateData_name (updates : UpdatePatientRequest.t) :
  EarlierPatientService.updateData updates !! "name"
  = (fun name => VString (trim name)) <$> UpdatePatientRequest.name updates.
Proof.
  destruct updates as [[name |] [mrn |] [dob |] [gender |] [status |]];
    unfold EarlierPatientService.updateData; simpl; by simpl_map.
Qed.

(** X18.  The revisions differ on a blank name too: when an update that
    gives the name as a blank text goes through, the earlier revision
    stores the empty string as the name, while the current one keeps
    the name the record had. *)
Theorem blank_name_update_differs (st : state) (userId patientId : string)
    (updates : UpdatePatientRequest.t) (now : Z) (old : object) (text : string) :
  available st = true ->
  documents st !! patientId = Some old ->
  old !! "createdBy" = Some (VString userId) ->
  well_dated old ->
  UpdatePatientRequest.name updates = Some text ->
  blank text ->
  (exists st' new,
     EarlierPatientService.updatePatient userId patientId updates now st
     = (Returned tt, st') /\
     documents st' !! patientId = Some new /\
     new !! "name" = Some (VString "")) /\
  (exists st' new,
     PatientService.updatePatient userId patientId updates now st = (Returned tt, st') /\
     documents st' !! patientId = Some new /\
     new !! "name" = old !! "name").
Proof.
  intros Hup Hdoc Howner Hdated Hname Hblank.
  apply (snapshot_patient_well_dated patientId old now) in Hdated.
  split.
  - eexists _, _. split; [by apply earlier_updatePatient_succeeds |].
    split; [simpl; by rewrite lookup_insert_eq |].
    rewrite lookup_union, lookup_fmap, earlier_updateData_name, Hname. simpl.
    unfold blank in Hblank. rewrite Hblank. by destruct (old !! "name").
  - eexists _, _. split; [by apply updatePatient_succeeds |].
    split; [simpl; by rewrite lookup_insert_eq |].
    destruct (merged_fields (serverTime st) updates old) as (_ & [Hkeep _] & _).
    apply Hkeep. right. by exists text.
Qed.

Lemma blank_name_update_differs_witness :
  let old : object :=
    <["status" := VString "active"]>
      (<["createdBy" := VString "userA"]> (<["name" := VString "Jane Doe"]> ∅)) in
  let st := {| documents := <["p1" := old]> ∅; serverTime := 7;
               available := true; calls := [] |} in
  let updates :=
    {| UpdatePatientRequest.name := Some "  ";
       UpdatePatientRequest.mrn := None;
       UpdatePatientRequest.dob := None;
       UpdatePatientRequest.gender := None;
       UpdatePatientRequest.status := None |} in
  (exists st' new,
     EarlierPatientService.updatePatient "userA" "p1" updates 0 st = (Returned tt, st') /\
     documents st' !! "p1" = Some new /\
     new !! "name" = Some (VString "")) /\
  (exists st' new,
     PatientService.updatePatient "userA" "p1" updates 0 st = (Returned tt, st') /\
     documents st' !! "p1" = Some new /\
     new !! "name" = old !! "name").
Proof.
  intros old st updates.
  assert (Hdated : well_dated old) by (split; vm_compute; exact I).
  exact (blank_name_update_differs st "userA" "p1" updates 0 old "  "
           eq_refl (lookup_insert_eq _ _ _) eq_refl Hdated eq_refl eq_refl).
Defined.

(** X19.  In the earlier revision a request that leaves out, or leaves
    empty, any of MRN, date of birth and gender cannot create a
    patient: the object handed to the store then has an [undefined]
    field, the store refuses it, and [createPatient] throws without
    writing. *)
Theorem earlier_createPatient_needs_every_field (st : state) (userId : string)
    (patientData : CreatePatientRequest.t) (newId : string) (now : Z) :
  truthy_opt (trim <$> CreatePatientRequest.mrn patientData) = false \/
  truthy_opt (CreatePatientRequest.dob patientData) = false \/
  CreatePatientRequest.gender patientData = None ->
  EarlierPatientService.createPatient userId patientData newId now st
  = (Threw "Failed to create patient", with_call (SetDoc newId) st).
Proof.
  intros Homitted.
  destruct (earlier_createPatient_rejects_omitted st userId patientData newId now
              Homitted) as (st' & Hrun & _).
  rewrite Hrun. f_equal.
  revert Hrun. unfold EarlierPatientService.createPatient, try_catch, bind.
  unfold setDoc, bind, record_call, validate.
  destruct (has_undefined _); simpl; [by intros [= <-] |].
  unfold reach. simpl. destruct (available st); simpl; by intros [= <-].
Qed.

Lemma earlier_createPatient_needs_every_field_witness :
  let st := {| documents := ∅; serverTime := 7; available := true; calls := [] |} in
  let patientData :=
    {| CreatePatientRequest.name := "Jane Doe";
       CreatePatientRequest.mrn := None;
       CreatePatientRequest.dob := Some "1990-01-01";
       CreatePatientRequest.gender := Some female |} in
  EarlierPatientService.createPatient "userA" patientData "p1" 0 st
  = (Threw "Failed to create patient", with_call (SetDoc "p1") st).
Proof.
  intros st patientData.
  apply (earlier_createPatient_needs_every_field st "userA" patientData "p1" 0).
  left. reflexivity.
Defined.

End DirectoryExtras.

(** ** The forms *)

Module ClientProperties.

Import JS Firestore FirestoreCalls PatientTypes ServiceCommon DirectorySpec.
Import RouteProperties DirectoryProperties DirectoryNotions DirectoryExtras.

(** *** Trimming *)

Lemma trimStart_fixed (s : string) :
  match s with
  | EmptyString => True
  | String c _ => isWhiteSpace c = false
  end ->
  trimStart s = s.
Proof. destruct s as [| c s]; simpl; [done | by intros ->]. Qed.

Lemma trimStart_starts (s : string) :
  match trimStart s with
  | EmptyString => True
  | String c _ => isWhiteSpace c = false
  end.
Proof.
  induction s as [| c s IH]; simpl; [done |].
  destruct (isWhiteSpace c) eqn:Hc; [exact IH | exact Hc].
Qed.

Lemma trimEnd_starts (s : string) :
  match s with
  | EmptyString => True
  | String c _ => isWhiteSpace c = false
  end ->
  match trimEnd s with
  | EmptyString => True
  | String c _ => isWhiteSpace c = false
  end.
Proof.
  destruct s as [| c s]; simpl; [done |]. intros Hc.
  destruct (trimEnd s); [by rewrite Hc | done].
Qed.

Lemma trimEnd_idempotent (s : string) : trimEnd (trimEnd s) = trimEnd s.
Proof.
  induction s as [| c s IH]; simpl; [done |].
  destruct (trimEnd s) as [| d t] eqn:Ht.
  - destruct (isWhiteSpace c) eqn:Hc; simpl; [done | by rewrite Hc].
  - change (trimEnd (String c (String d t)))
      with (match trimEnd (String d t) with
            | EmptyString =>
                if isWhiteSpace c then EmptyString else String c EmptyString
            | u => String c u
            end).
    by rewrite IH.
Qed.

(** Trimming what is trimmed changes nothing. *)
Lemma trim_idempotent (s : string) : trim (trim s) = trim s.
Proof.
  unfold trim.
  rewrite (trimStart_fixed (trimEnd (trimStart s)));
    [apply trimEnd_idempotent |].
  apply trimEnd_starts, trimStart_starts.
Qed.

Lemma truthy_trim (s : string) : truthy (trim s) = true -> truthy s = true.
Proof. destruct s; [done | done]. Qed.


(** *** The note form *)

(** What the endpoint answers a request of the form with, by the case
    it falls in; the transcript of the request is not empty. *)
Lemma POST_of_form (env : Route.Env) (s : NoteGenerator.State) :
  truthy (NoteGenerator.transcript s) = true ->
  let r := NoteGenerator.requestBody s in
  let prompt :=
    Route.composePrompt (Route.context r) (NoteGenerator.transcript s)
      (Route.previousNote r) (Route.patientContext r) in
  Route.POST env (Route.Json r) =
  if truthy_opt (Route.GOOGLE_GEMINI_API_KEY env)
  then match Route.generateContent env prompt with
       | Returned note =>
           ({| Route.body := Route.NoteBody note (Route.patientContext r);
               Route.status := 200 |}, [prompt])
       | Threw _ =>
           ({| Route.body := Route.ErrorBody "Failed to generate note";
               Route.status := 500 |}, [prompt])
       end
  else ({| Route.body := Route.ErrorBody "Gemini API key not configured";
           Route.status := 500 |}, []).
Proof.
  intros Ht r prompt. unfold Route.POST. simpl. rewrite Ht. simpl.
  destruct (truthy_opt (Route.GOOGLE_GEMINI_API_KEY env)); [| reflexivity].
  simpl. fold r. by destruct (Route.generateContent env _).
Qed.


(** X21.  When [generateNote] is over for a transcript that is not
    blank, the form is no longer generating and its inputs are as they
    were.  If [fetch] or [response.json()] rejected, the note is empty
    and the error shown is the message of what they rejected with (or
    ['An error occurred'] when that is not an [Error]).  Otherwise the
    form shows either the text the generator returned, with no error,
    or an empty note and one of the two fixed error messages of the
    endpoint. *)
Theorem generateNote_shows_note_or_error (env : Route.Env)
    (network : NoteGenerator.Transport) (s : NoteGenerator.State) :
  ~ blank (NoteGenerator.transcript s) ->
  let s' := (NoteGenerator.generateNote env network s).1 in
  NoteGenerator.isGenerating s' = false /\
  NoteGenerator.transcript s' = NoteGenerator.transcript s /\
  NoteGenerator.context s' = NoteGenerator.context s /\
  NoteGenerator.previousNote s' = NoteGenerator.previousNote s /\
  NoteGenerator.selectedPatient s' = NoteGenerator.selectedPatient s /\
  match NoteGenerator.rejection network with
  | Some err =>
      NoteGenerator.generatedNote s' = Some "" /\
      NoteGenerator.error s' = NoteGenerator.errorMessage err
  | None =>
      (NoteGenerator.error s' = "" /\
       exists note prompt,
         NoteGenerator.generatedNote s' = Some note /\
         Route.generateContent env prompt = Returned note)
      \/ (NoteGenerator.generatedNote s' = Some "" /\
          NoteGenerator.error s' ∈ ["Gemini API key not configured";
                                    "Failed to generate note"])
  end.
Proof.
  intros Hnb s'. unfold s', NoteGenerator.generateNote.
  apply trim_truthy in Hnb. rewrite Hnb. simpl.
  apply truthy_trim in Hnb.
  destruct network as [err | [err |]]; simpl.
  - split_and!; reflexivity.
  - split_and!; reflexivity.
  - pose proof (POST_of_form env s Hnb) as Hpost. simpl in Hpost.
    change (Route.POST env (Route.Json _))
      with (Route.POST env (Route.Json (NoteGenerator.requestBody s))).
    rewrite Hpost. clear Hpost.
    destruct (truthy_opt (Route.GOOGLE_GEMINI_API_KEY env)).
    + destruct (Route.generateContent env _) as [note | message] eqn:Hgen; simpl.
      * split_and!; try reflexivity. left. split; [reflexivity |].
        by eexists note, _.
      * split_and!; try reflexivity. right. split; [reflexivity |].
        by repeat constructor.
    + simpl. split_and!; try reflexivity. right. split; [reflexivity |].
      by repeat constructor.
Qed.

Lemma generateNote_shows_note_or_error_witness :
  let env := {| Route.GOOGLE_GEMINI_API_KEY := Some "key";
                Route.generateContent := fun _ => Returned "note" |} in
  let network :=
    NoteGenerator.Unreached
      (NoteGenerator.AnError "NetworkError when attempting to fetch resource.") in
  let s := {| NoteGenerator.transcript := "Patient reports improved sleep.";
              NoteGenerator.context := "dbh-followup";
              NoteGenerator.previousNote := "old";
              NoteGenerator.generatedNote := Some "earlier note";
              NoteGenerator.isGenerating := false;
              NoteGenerator.error := "";
              NoteGenerator.selectedPatient := None |} in
  let s' := (NoteGenerator.generateNote env network s).1 in
  NoteGenerator.isGenerating s' = false /\
  NoteGenerator.transcript s' = NoteGenerator.transcript s /\
  NoteGenerator.generatedNote s' = Some "" /\
  NoteGenerator.error s' = "NetworkError when attempting to fetch resource.".
Proof.
  intros env network s s'.
  assert (Hnb : ~ blank (NoteGenerator.transcript s))
    by (intros Hb; vm_compute in Hb; discriminate).
  destruct (generateNote_shows_note_or_error env network s Hnb)
    as (Hgenerating & Htranscript & _ & _ & _ & Hnote & Herror).
  split_and!; [exact Hgenerating | exact Htranscript | exact Hnote | exact Herror].
Defined.


(** *** The patient form *)

Lemma newErrors_none (dates : AddPatientModal.Dates)
    (form : AddPatientModal.FormData) :
  size (AddPatientModal.newErrors dates form) = 0 <-> acceptable dates form.
Proof.
  rewrite map_size_empty_iff.
  unfold AddPatientModal.newErrors, acceptable, truthy.
  destruct form as [name mrn dob gender]. simpl.
  destruct (String.eqb_spec (trim name) "") as [Hname | Hname]; simpl.
  { rewrite Hname. simpl. split; [| lia].
    intros Hempty. exfalso.
    assert (Hin : AddPatientModal.newErrors dates
                    {| AddPatientModal.name := name; AddPatientModal.mrn := mrn;
                       AddPatientModal.dob := dob; AddPatientModal.gender := gender |}
                  !! "name" = Some "Patient name is required").
    { unfold AddPatientModal.newErrors, truthy. simpl. rewrite Hname. simpl.
      repeat match goal with
             | |- context [if ?b then _ else _] => destruct b
             | |- context [match ?o with Some _ => _ | None => _ end] => destruct o
             end; by simpl_map. }
    unfold AddPatientModal.newErrors, truthy in Hin. simpl in Hin.
    rewrite Hname in Hin. simpl in Hin. rewrite Hempty in Hin.
    by rewrite lookup_empty in Hin. }
  destruct (Nat.ltb_spec (String.length (trim name)) 2) as [Hshort | Hlong].
  { split; [| lia]. intros Hempty. exfalso.
    apply (f_equal (fun m : gmap string string => m !! "name")) in Hempty.
    rewrite lookup_empty in Hempty.
    repeat match type of Hempty with
           | context [if ?b then _ else _] => destruct b
           | context [match ?o with Some _ => _ | None => _ end] => destruct o
           end; by simpl_map. }
  destruct (String.eqb_spec (trim mrn) "") as [Hmrn | Hmrn]; simpl.
  - destruct (String.eqb_spec dob "") as [Hdob | Hdob]; simpl.
    + split; [intros _; split_and!; [lia | by left | by left] | done].
    + destruct (AddPatientModal.parse dates dob) as [dobDate |].
      * destruct (Z.ltb_spec (AddPatientModal.today dates) dobDate).
        { split; [intros Hempty; by apply insert_non_empty in Hempty |].
          intros (_ & _ & [? | ?]); [done | lia]. }
        destruct (Z.ltb_spec dobDate (AddPatientModal.earliestDate dates)).
        { split; [intros Hempty; by apply insert_non_empty in Hempty |].
          intros (_ & _ & [? | ?]); [done | lia]. }
        split; [intros _; split_and!; [lia | by left | right; lia] | done].
      * split; [intros _; split_and!; [lia | by left | by right] | done].
  - destruct (Nat.ltb_spec (String.length (trim mrn)) 3) as [Hm | Hm].
    + split; [| intros (_ & [? | ?] & _); [done | lia]].
      intros Hempty. exfalso.
      apply (f_equal (fun m : gmap string string => m !! "mrn")) in Hempty.
      rewrite lookup_empty in Hempty.
      repeat match type of Hempty with
             | context [if ?b then _ else _] => destruct b
             | context [match ?o with Some _ => _ | None => _ end] => destruct o
             end; by simpl_map.
    + destruct (String.eqb_spec dob "") as [Hdob | Hdob]; simpl.
      * split; [intros _; split_and!; [lia | by right | by left] | done].
      * destruct (AddPatientModal.parse dates dob) as [dobDate |].
        -- destruct (Z.ltb_spec (AddPatientModal.today dates) dobDate).
           { split; [intros Hempty; by apply insert_non_empty in Hempty |].
             intros (_ & _ & [? | ?]); [done | lia]. }
           destruct (Z.ltb_spec dobDate (AddPatientModal.earliestDate dates)).
           { split; [intros Hempty; by apply insert_non_empty in Hempty |].
             intros (_ & _ & [? | ?]); [done | lia]. }
           split; [intros _; split_and!; [lia | by right | right; lia] | done].
        -- split; [intros _; split_and!; [lia | by right | by right] | done].
Qed.


(** X22.  The form never reaches the store with a submission it finds
    fault with: when nobody is signed in, or the trimmed name is
    shorter than two characters, or the trimmed MRN is given but
    shorter than three, or the date of birth is out of range,
    [handleSubmit] leaves the store untouched (no call is made), keeps
    the form as typed and does not report a patient as added. *)
Theorem handleSubmit_rejects_before_store (dates : AddPatientModal.Dates)
    (user : option string) (newId : string) (now : Z)
    (s : AddPatientModal.State) (st : state) :
  user = None \/ ~ acceptable dates (AddPatientModal.formData s) ->
  let result := AddPatientModal.handleSubmit dates user newId now s st in
  result.2 = st /\
  AddPatientModal.formData result.1 = AddPatientModal.formData s /\
  AddPatientModal.patientAdded result.1 = AddPatientModal.patientAdded s /\
  (user = None -> AddPatientModal.error result.1 = Some "User not authenticated") /\
  (user <> None ->
   AddPatientModal.errors result.1
   = AddPatientModal.newErrors dates (AddPatientModal.formData s) /\
   AddPatientModal.errors result.1 <> ∅).
Proof.
  intros Hrejected result. unfold result, AddPatientModal.handleSubmit.
  destruct user as [uid |]; [| by split_and!].
  destruct Hrejected as [[=] | Hbad].
  assert (Hsize : size (AddPatientModal.newErrors dates (AddPatientModal.formData s)) <> 0).
  { intros Hzero. by apply Hbad, newErrors_none. }
  simpl. rewrite bool_decide_eq_false_2 by done. simpl.
  split_and!; try done. intros _. split; [reflexivity |].
  intros Hempty. apply Hsize. by apply map_size_empty_iff.
Qed.

Lemma handleSubmit_rejects_before_store_witness :
  let dates := {| AddPatientModal.parse := fun _ => None;
                  AddPatientModal.today := 100;
                  AddPatientModal.earliestDate := 0 |} in
  let form := {| AddPatientModal.name := " J ";
                 AddPatientModal.mrn := "";
                 AddPatientModal.dob := "";
                 AddPatientModal.gender := None |} in
  let s := {| AddPatientModal.formData := form; AddPatientModal.errors := ∅;
              AddPatientModal.error := None; AddPatientModal.loading := false;
              AddPatientModal.patientAdded := 0 |} in
  let st := {| documents := ∅; serverTime := 7; available := true; calls := [] |} in
  let result := AddPatientModal.handleSubmit dates (Some "userA") "p1" 0 s st in
  result.2 = st /\
  AddPatientModal.patientAdded result.1 = 0.
Proof.
  intros dates form s st result.
  assert (Hbad : Some "userA" = None \/ ~ acceptable dates (AddPatientModal.formData s)).
  { right. intros (Hname & _). vm_compute in Hname. lia. }
  destruct (handleSubmit_rejects_before_store dates (Some "userA") "p1" 0 s st Hbad)
    as (Hstore & _ & Hadded & _).
  split; [exact Hstore | exact Hadded].
Defined.

(** X23.  A submission the form finds no fault with, by a signed-in
    user whose uid is not empty and with the store reachable, creates
    the patient: [createPatient]'s own checks pass, one document is
    written under the new id with the trimmed name (of two characters
    or more), the uid as creator and status ['active'], and the trimmed
    MRN exactly when one was typed; the form is then reset, without
    errors, not loading, and the callback has been called once. *)
Theorem handleSubmit_creates_patient (dates : AddPatientModal.Dates)
    (uid newId : string) (now : Z) (s : AddPatientModal.State) (st : state) :
  acceptable dates (AddPatientModal.formData s) ->
  uid <> "" ->
  available st = true ->
  let result := AddPatientModal.handleSubmit dates (Some uid) newId now s st in
  let form := AddPatientModal.formData s in
  result.1 = {| AddPatientModal.formData := AddPatientModal.emptyForm;
                AddPatientModal.errors := ∅;
                AddPatientModal.error := None;
                AddPatientModal.loading := false;
                AddPatientModal.patientAdded := S (AddPatientModal.patientAdded s) |} /\
  calls result.2 = (calls st ++ [SetDoc newId])%list /\
  exists stored : object,
    documents result.2 = <[newId := stored]> (documents st) /\
    stored !! "name" = Some (VString (trim (AddPatientModal.name form))) /\
    2 <= String.length (trim (AddPatientModal.name form)) /\
    stored !! "createdBy" = Some (VString uid) /\
    stored !! "status" = Some (VString "active") /\
    stored !! "mrn"
    = (if truthy (trim (AddPatientModal.mrn form))
       then Some (VString (trim (AddPatientModal.mrn form))) else None).
Proof.
  intros Hok Huid Hup result form. subst form.
  set (form := AddPatientModal.formData s) in *.
  pose proof Hok as (Hname & _ & _).
  assert (Hvalid : size (AddPatientModal.newErrors dates form) = 0)
    by by apply newErrors_none.
  assert (Hnb : ~ blank (CreatePatientRequest.name (AddPatientModal.patientData form))).
  { simpl. unfold blank. rewrite trim_idempotent. intros Hempty.
    rewrite Hempty in Hname. simpl in Hname. lia. }
  destruct (createPatient_valid st uid (AddPatientModal.patientData form) newId now
              Hnb Huid Hup)
    as (optionalFields & Hm & _ & _ & Hrest & _ & Hres & Hrun).
  simpl in Hrun.
  unfold result, AddPatientModal.handleSubmit. simpl. fold form.
  rewrite bool_decide_eq_true_2 by done. simpl.
  rewrite Hrun. simpl.
  split; [reflexivity | split; [reflexivity |]].
  eexists. split; [reflexivity |].
  rewrite !lookup_fmap, !lookup_insert_ne by done.
  rewrite !lookup_union, !(Hrest "name"), !(Hrest "createdBy"), !(Hrest "status")
    by done.
  simpl_map. rewrite trim_idempotent.
  split_and!; try done.
  destruct Hm as (Habsent & Hpresent & _). simpl in Habsent, Hpresent.
  destruct (truthy (trim (AddPatientModal.mrn form))) eqn:Hmrn.
  - rewrite (Hpresent (trim (AddPatientModal.mrn form)) eq_refl).
    + by rewrite trim_idempotent.
    + unfold blank. rewrite trim_idempotent. by apply truthy_true.
  - by rewrite (Habsent (or_introl eq_refl)).
Qed.

Lemma handleSubmit_creates_patient_witness :
  let dates := {| AddPatientModal.parse := fun _ => None;
                  AddPatientModal.today := 100;
                  AddPatientModal.earliestDate := 0 |} in
  let form := {| AddPatientModal.name := " Jane Doe ";
                 AddPatientModal.mrn := " MRN-1 ";
                 AddPatientModal.dob := "";
                 AddPatientModal.gender := None |} in
  let s := {| AddPatientModal.formData := form; AddPatientModal.errors := ∅;
              AddPatientModal.error := None; AddPatientModal.loading := false;
              AddPatientModal.patientAdded := 0 |} in
  let st := {| documents := ∅; serverTime := 7; available := true; calls := [] |} in
  let result := AddPatientModal.handleSubmit dates (Some "userA") "p1" 0 s st in
  AddPatientModal.patientAdded result.1 = 1 /\
  exists stored : object,
    documents result.2 = <["p1" := stored]> (documents st) /\
    stored !! "name" = Some (VString "Jane Doe") /\
    stored !! "mrn" = Some (VString "MRN-1").
Proof.
  intros dates form s st result.
  assert (Hok : acceptable dates (AddPatientModal.formData s)).
  { split_and!; [vm_compute; lia | right; vm_compute; lia | by left]. }
  assert (Huid : "userA" <> "") by discriminate.
  destruct (handleSubmit_creates_patient dates "userA" "p1" 0 s st Hok Huid eq_refl)
    as (Hstate & _ & stored & Hdocs & Hname & _ & _ & _ & Hmrn).
  split; [unfold result; rewrite Hstate; reflexivity |].
  exists stored. split; [exact Hdocs | split; [exact Hname | exact Hmrn]].
Defined.

End ClientProperties.
